(** * WW-tep: subscription, purchase and signal services over the platform schema

    A shallow embedding of the TypeScript services
      - [purchaseService]        (services/purchaseService.ts),
      - [tradingSignalService]   (services/tradingSignalService.ts),
      - [authService], legacy    (src/services/supabaseAuth.ts, bcrypt variant),
      - [authService], provider  (the variant delegating to [supabase.auth]),
    and of the SQL schema they talk to (tables, constraints and the
    [notify_admin_on_purchase] trigger of the first migration).

    Modelling decisions, all visible in the definitions below:
      - an [async] function is a computation [Js A] over a [World]: the
        database, the script of the environment (clock readings, generated
        uuids, transport faults, provider replies) and a tick counter.  A
        thrown exception keeps the world reached so far: there is no
        transaction around a service function;
      - a client call [await supabase.from(t)...] is one request: the
        transport may fail it (the response then carries an [error] and the
        database is untouched), otherwise the database executes it under the
        constraints of the schema;
      - [decimal(p,2)] columns and the amounts sent to them are counts of
        hundredths; timestamps are ECMAScript time values (milliseconds since
        the epoch) of the present era, so [TimeClip] is the identity;
      - row-security policies restrict what a given database role sees.  The
        service functions are modelled for a client whose role the policies
        admit; the policy guarding [trading_signals] is embedded on its own as
        [policy_subscribed_users_can_read_signals];
      - columns that no service function and no trigger reads or writes
        ([created_at]/[updated_at] bookkeeping, unused ids) are left out of
        the row records. *)

From Stdlib Require Import String Ascii List ZArith Lia Bool Arith.
From Stdlib Require Import DecimalString.
Import ListNotations.
Local Open Scope string_scope.
Local Open Scope Z_scope.

Set Implicit Arguments.

(* ===================================================================== *)
(** ** JavaScript and SQL values shared by the services *)
(* ===================================================================== *)

(** The double quote character, used inside database error messages. *)
Definition dq : string := String (ascii_of_nat 34) EmptyString.

(** [String.prototype.includes]. *)
Fixpoint includes_from (fuel : nat) (hay needle : string) : bool :=
  if String.prefix needle hay then true
  else match fuel, hay with
       | S fuel', String _ rest => includes_from fuel' rest needle
       | _, _ => false
       end.

Definition includes (hay needle : string) : bool :=
  includes_from (String.length hay) hay needle.

(** [msg || fallback] on strings: the empty string is falsy. *)
Definition or_else (msg fallback : string) : string :=
  if String.eqb msg "" then fallback else msg.

(** Truthiness of an optional string argument ([if (userId)]). *)
Definition truthy (s : option string) : bool :=
  match s with
  | Some v => negb (String.eqb v "")
  | None => false
  end.

(** [Number.prototype.toString] on an integer. *)
Definition int_to_string (n : Z) : string :=
  NilZero.string_of_int (Z.to_int n).

(** A [decimal(p,2)] value, as a count of hundredths. *)
Definition decimal := Z.

Definition decimal_of_int (n : Z) : decimal := 100 * n.

(** The text form of a [decimal(p,2)], as [||] renders it: [99.00]. *)
Definition decimal_text (d : decimal) : string :=
  let a := Z.abs d in
  let whole := int_to_string (a / 100) in
  let frac := a mod 100 in
  let frac_text := if frac <? 10 then "0" ++ int_to_string frac
                   else int_to_string frac in
  (if d <? 0 then "-" else "") ++ whole ++ "." ++ frac_text.

(** JSON values, as far as [jsonb_build_object] needs them here. *)
Inductive Json :=
| JText (s : string)
| JNumeric (d : decimal).

(* ===================================================================== *)
(** ** ECMAScript [Date]: time values, local time and [setMonth] *)
(* ===================================================================== *)

Module JsDate.

Definition msPerDay : Z := 86400000.

Definition Day (t : Z) : Z := t / msPerDay.
Definition TimeWithinDay (t : Z) : Z := t mod msPerDay.

(** Number of days from the epoch to the first of month [m] (1..12,
    March-based inside) of year [y], day [d]: the proleptic Gregorian
    calendar of the language specification. *)
Definition days_from_civil (y m d : Z) : Z :=
  let y' := if m <=? 2 then y - 1 else y in
  let era := y' / 400 in
  let yoe := y' - era * 400 in
  let mp := (m + 9) mod 12 in
  let doy := (153 * mp + 2) / 5 + d - 1 in
  let doe := yoe * 365 + yoe / 4 - yoe / 100 + doy in
  era * 146097 + doe - 719468.

(** The inverse: (year, month 1..12, day of month) of a day number. *)
Definition civil_from_days (z : Z) : Z * Z * Z :=
  let z' := z + 719468 in
  let era := z' / 146097 in
  let doe := z' - era * 146097 in
  let yoe := (doe - doe / 1460 + doe / 36524 - doe / 146096) / 365 in
  let doy := doe - (365 * yoe + yoe / 4 - yoe / 100) in
  let mp := (5 * doy + 2) / 153 in
  let d := doy - (153 * mp + 2) / 5 + 1 in
  let m := if mp <? 10 then mp + 3 else mp - 9 in
  let y := yoe + era * 400 in
  ((if m <=? 2 then y + 1 else y), m, d).

Definition YearFromTime (t : Z) : Z :=
  let '(y, _, _) := civil_from_days (Day t) in y.
(** Months are numbered 0..11. *)
Definition MonthFromTime (t : Z) : Z :=
  let '(_, m, _) := civil_from_days (Day t) in m - 1.
Definition DateFromTime (t : Z) : Z :=
  let '(_, _, d) := civil_from_days (Day t) in d.

(** [MakeDay(year, month, date)]: [month] may lie outside 0..11 and
    [date] outside the month; both carry over. *)
Definition MakeDay (year month date : Z) : Z :=
  let ym := year + month / 12 in
  let mn := month mod 12 in
  days_from_civil ym (mn + 1) 1 + date - 1.

Definition MakeDate (day time : Z) : Z := day * msPerDay + time.

Section LocalTime.
(** [LocalTZA(t, isUTC)]: the offset of the host's time zone. *)
Variable LocalTZA : Z -> bool -> Z.

Definition LocalTime (t : Z) : Z := t + LocalTZA t true.
Definition UTC (t : Z) : Z := t - LocalTZA t false.

(** [Date.prototype.getMonth]. *)
Definition getMonth (t : Z) : Z := MonthFromTime (LocalTime t).

(** [Date.prototype.setMonth(month)]. *)
Definition setMonth (t : Z) (month : Z) : Z :=
  let lt := LocalTime t in
  UTC (MakeDate (MakeDay (YearFromTime lt) month (DateFromTime lt))
                (TimeWithinDay lt)).

(** [d.setMonth(d.getMonth() + k)]. *)
Definition addMonths (t : Z) (k : Z) : Z := setMonth t (getMonth t + k).
End LocalTime.

Definition utc_zone : Z -> bool -> Z := fun _ _ => 0.

End JsDate.

(* ===================================================================== *)
(** ** Plans: the [plans] table of [getPlanDetails] *)
(* ===================================================================== *)

Record Plan := mkPlan {
  name : string;
  price : Z;
  period : string;
  features : list string
}.

Definition kickstarter : Plan :=
  mkPlan "Kickstarter" 0 "month"
    [ "Risk management plan for 1 month";
      "Trading signals for 1 week";
      "Standard risk management calculator";
      "Phase tracking dashboard";
      "3 prop firm rule analyzer" ].

Definition starter : Plan :=
  mkPlan "Starter" 99 "month"
    [ "Risk management plan for 1 month";
      "Trading signals for 1 month";
      "Standard risk management calculator";
      "Phase tracking dashboard";
      "5 prop firm rule analyzer";
      "Email support";
      "Auto lot size calculator" ].

Definition pro : Plan :=
  mkPlan "Pro" 199 "month"
    [ "Risk management plan for 1 month";
      "Trading signals for 1 month";
      "Standard risk management calculator";
      "Phase tracking dashboard";
      "15 prop firm rule analyzer";
      "Priority chat and email support";
      "Auto lot size calculator";
      "Access to private community";
      "Multi account tracker";
      "Advanced trading journal";
      "Backtesting tools" ].

Definition enterprise : Plan :=
  mkPlan "Enterprise" 499 "3 months"
    [ "Risk management plan for 3 months";
      "Trading signals for 3 months";
      "Standard risk management calculator";
      "Phase tracking dashboard";
      "15 prop firm rule analyzer";
      "24/7 priority support";
      "Auto lot size calculator";
      "Access to private community";
      "Multi account tracker";
      "Advanced trading journal";
      "Professional backtesting suite";
      "Chart analysis tools" ].

(** The object literal [plans]: its own properties, in source order.  The
    three copies of [getPlanDetails] (purchaseService and both authService
    variants) carry the same literal, character for character. *)
Definition plans : list (string * Plan) :=
  [ ("kickstarter", kickstarter);
    ("starter", starter);
    ("pro", pro);
    ("enterprise", enterprise) ].

Fixpoint own_property (key : string) (obj : list (string * Plan)) : option Plan :=
  match obj with
  | [] => None
  | (k, v) :: rest => if String.eqb key k then Some v else own_property key rest
  end.

(** [plans] is an ordinary object: a key it does not own is looked up on
    [Object.prototype], whose members are functions (and, for [__proto__],
    the prototype object itself), all of them truthy. *)
Definition object_prototype_members : list string :=
  [ "constructor"; "hasOwnProperty"; "isPrototypeOf"; "propertyIsEnumerable";
    "toLocaleString"; "toString"; "valueOf"; "__proto__";
    "__defineGetter__"; "__defineSetter__"; "__lookupGetter__";
    "__lookupSetter__" ].

Definition inherited (key : string) : bool :=
  existsb (String.eqb key) object_prototype_members.

(** What [plans[planType] || plans.starter] evaluates to. *)
Inductive PlanValue :=
| OwnPlan (p : Plan)
| PrototypeMember (key : string).

Definition plans_lookup (planType : string) : PlanValue :=
  match own_property planType plans with
  | Some p => OwnPlan p
  | None => if inherited planType then PrototypeMember planType
            else OwnPlan starter
  end.

(** Property reads on the value; [None] is [undefined]. *)
Definition get_name (v : PlanValue) : option string :=
  match v with
  | OwnPlan p => Some (name p)
  | PrototypeMember key =>
      if String.eqb key "__proto__" then None
      else if String.eqb key "constructor" then Some "Object"
      else Some key
  end.

Definition get_price (v : PlanValue) : option Z :=
  match v with OwnPlan p => Some (price p) | PrototypeMember _ => None end.

Definition get_period (v : PlanValue) : option string :=
  match v with OwnPlan p => Some (period p) | PrototypeMember _ => None end.

Definition get_features (v : PlanValue) : option (list string) :=
  match v with OwnPlan p => Some (features p) | PrototypeMember _ => None end.

(** The four plan types the schema admits
    ([CHECK (plan_type IN ('kickstarter','starter','pro','enterprise'))]). *)
Definition plan_type_known (planType : string) : bool :=
  existsb (String.eqb planType) ["kickstarter"; "starter"; "pro"; "enterprise"].

(* ===================================================================== *)
(** ** The schema: rows, tables and constraints *)
(* ===================================================================== *)

Inductive SubscriptionStatus := pending | active | expired | cancelled.
Inductive SignalType := crypto | forex | stocks | commodities.
Inductive SignalStatus := signal_active | signal_closed | signal_cancelled.
Inductive Direction := BUY | SELL.
Inductive PaymentMethod := stripe | paypal | crypto_payment.
Inductive PaymentStatus :=
  payment_pending | payment_completed | payment_failed | payment_refunded.
Inductive NotificationType :=
  notify_purchase | notify_signup | notify_support | notify_system.

Definition SubscriptionStatus_eqb (a b : SubscriptionStatus) : bool :=
  match a, b with
  | pending, pending | active, active
  | expired, expired | cancelled, cancelled => true
  | _, _ => false
  end.

Definition SignalType_eqb (a b : SignalType) : bool :=
  match a, b with
  | crypto, crypto | forex, forex
  | stocks, stocks | commodities, commodities => true
  | _, _ => false
  end.

Definition SignalStatus_eqb (a b : SignalStatus) : bool :=
  match a, b with
  | signal_active, signal_active | signal_closed, signal_closed
  | signal_cancelled, signal_cancelled => true
  | _, _ => false
  end.

Definition payment_method_text (m : PaymentMethod) : string :=
  match m with
  | stripe => "stripe"
  | paypal => "paypal"
  | crypto_payment => "crypto"
  end.

Record User := mkUser {
  u_id : string;
  u_email : string;
  u_password_hash : string;
  u_first_name : string;
  u_last_name : string;
  u_role : string;
  u_is_active : bool;
  u_email_verified : bool
}.

Record UserProfile := mkUserProfile {
  p_user_id : string;
  p_unique_id : string;
  p_account_type : string;
  p_risk_tolerance : string;
  p_setup_complete : bool;
  p_timezone : string
}.

Record UserSubscription := mkUserSubscription {
  s_user_id : string;
  s_plan_type : string;
  s_plan_name : string;
  s_price : decimal;
  s_period : string;
  s_status : SubscriptionStatus;
  s_features : list string;
  s_started_at : option Z;
  s_expires_at : option Z
}.

Record TradingSignal := mkTradingSignal {
  t_id : string;
  t_signal_type : SignalType;
  t_symbol : string;
  t_timeframe : string;
  t_direction : Direction;
  t_entry_price : Z;
  t_stop_loss : Z;
  t_take_profit : string;
  t_status : SignalStatus;
  t_created_at : Z
}.

Record SignalAccess := mkSignalAccess {
  a_user_id : string;
  a_signal_id : string;
  a_viewed_at : Z
}.

Record Purchase := mkPurchase {
  pu_id : string;
  pu_user_id : string;
  pu_plan_type : string;
  pu_plan_name : string;
  pu_amount : decimal;
  pu_currency : string;
  pu_payment_method : PaymentMethod;
  pu_payment_status : PaymentStatus;
  pu_transaction_id : option string;
  pu_payment_details : option string;
  pu_completed_at : option Z
}.

Record AdminNotification := mkAdminNotification {
  n_notification_type : NotificationType;
  n_title : string;
  n_message : string;
  n_related_user_id : option string;
  n_related_purchase_id : option string;
  n_metadata : list (string * Json);
  n_is_read : bool
}.

Record Database := mkDatabase {
  users : list User;
  user_profiles : list UserProfile;
  user_subscriptions : list UserSubscription;
  trading_signals : list TradingSignal;
  user_signal_access : list SignalAccess;
  purchases : list Purchase;
  admin_notifications : list AdminNotification
}.

Definition empty_database : Database := mkDatabase [] [] [] [] [] [] [].

Definition with_users (d : Database) (x : list User) : Database :=
  mkDatabase x (user_profiles d) (user_subscriptions d) (trading_signals d)
             (user_signal_access d) (purchases d) (admin_notifications d).

Definition with_user_profiles (d : Database) (x : list UserProfile) : Database :=
  mkDatabase (users d) x (user_subscriptions d) (trading_signals d)
             (user_signal_access d) (purchases d) (admin_notifications d).

Definition with_user_subscriptions (d : Database) (x : list UserSubscription)
  : Database :=
  mkDatabase (users d) (user_profiles d) x (trading_signals d)
             (user_signal_access d) (purchases d) (admin_notifications d).

Definition with_user_signal_access (d : Database) (x : list SignalAccess)
  : Database :=
  mkDatabase (users d) (user_profiles d) (user_subscriptions d)
             (trading_signals d) x (purchases d) (admin_notifications d).

Definition with_purchases (d : Database) (x : list Purchase) : Database :=
  mkDatabase (users d) (user_profiles d) (user_subscriptions d)
             (trading_signals d) (user_signal_access d) x
             (admin_notifications d).

Definition with_admin_notifications (d : Database) (x : list AdminNotification)
  : Database :=
  mkDatabase (users d) (user_profiles d) (user_subscriptions d)
             (trading_signals d) (user_signal_access d) (purchases d) x.

(* ===================================================================== *)
(** ** The world a service function runs in *)
(* ===================================================================== *)

(** What [supabase.auth.signUp] answers: [{ data: { user }, error }]. *)
Inductive AuthReply :=
| AuthError (message : string)
| AuthNoUser
| AuthUser (id email : string).

(** Everything the code does not decide: the script of the environment,
    indexed by the tick at which the code asks. *)
Record Env := mkEnv {
  clock_at : nat -> Z;                 (* [new Date()] *)
  LocalTZA : Z -> bool -> Z;           (* time zone of the host *)
  uuid_at : nat -> string;             (* [uuid_generate_v4()] *)
  fault_at : nat -> option string;     (* transport failure of a request *)
  random_at : nat -> Z;                (* [Math.floor(100000 + Math.random() * 900000)] *)
  auth_at : nat -> AuthReply;          (* the auth provider *)
  bcrypt_hash_at : nat -> string -> string;   (* [bcrypt.hash(s, 10)], salted *)
  bcrypt_compare : string -> string -> bool   (* [bcrypt.compare(s, hash)] *)
}.

Record World := mkWorld {
  db : Database;
  env : Env;
  ticks : nat
}.

Definition tick (w : World) : World := mkWorld (db w) (env w) (S (ticks w)).

(** The outcome of evaluating JavaScript: a value, or a thrown error with
    its [message]. *)
Inductive Outcome (A : Type) :=
| Value (a : A)
| Thrown (message : string).
Arguments Value {A} a.
Arguments Thrown {A} message.

Definition Js (A : Type) : Type := World -> Outcome A * World.

Definition ret {A} (a : A) : Js A := fun w => (Value a, w).

Definition bind {A B} (c : Js A) (k : A -> Js B) : Js B :=
  fun w => match c w with
           | (Value a, w') => k a w'
           | (Thrown m, w') => (Thrown m, w')
           end.

Definition throw {A} (message : string) : Js A := fun w => (Thrown message, w).

(** [try { body } catch (error) { return handler(error.message) }]. *)
Definition try_catch {A} (body : Js A) (handler : string -> Js A) : Js A :=
  fun w => match body w with
           | (Value a, w') => (Value a, w')
           | (Thrown m, w') => handler m w'
           end.

Declare Scope js_scope.
Delimit Scope js_scope with js.
Notation "x <- c ;; k" := (bind c (fun x => k))
  (at level 61, c at next level, right associativity) : js_scope.
Local Open Scope js_scope.

(** [new Date()]: the current reading of the clock. *)
Definition new_Date : Js Z :=
  fun w => (Value (clock_at (env w) (ticks w)), tick w).

Definition Math_random_id : Js Z :=
  fun w => (Value (random_at (env w) (ticks w)), tick w).

Definition bcrypt_hash (password : string) : Js string :=
  fun w => (Value (bcrypt_hash_at (env w) (ticks w) password), tick w).

Definition host_zone : Js (Z -> bool -> Z) :=
  fun w => (Value (LocalTZA (env w)), w).

Definition compare_with_bcrypt (password hash : string) : Js bool :=
  fun w => (Value (bcrypt_compare (env w) password hash), w).

Definition auth_signUp (email password first_name last_name : string)
  : Js AuthReply :=
  fun w => (Value (auth_at (env w) (ticks w)), tick w).

(** The [{ data, error }] a client call resolves to. *)
Inductive Response (A : Type) :=
| Data (data : A)
| Error (message : string).
Arguments Data {A} data.
Arguments Error {A} message.

(** [if (error) throw error]. *)
Definition or_throw {A} (r : Response A) : Js A :=
  match r with
  | Data a => ret a
  | Error m => throw m
  end.

(** [const { data } = await ...]: the error is not looked at. *)
Definition data_of {A} (r : Response (option A)) : option A :=
  match r with
  | Data a => a
  | Error _ => None
  end.

(** One awaited client call.  [exec] is the statement the database runs; it
    receives the uuid the database would generate for a new row. *)
Definition request {A} (exec : string -> Database -> Response A * Database)
  : Js (Response A) :=
  fun w =>
    match fault_at (env w) (ticks w) with
    | Some m => (Value (Error m), tick w)
    | None =>
        let '(r, d) := exec (uuid_at (env w) (ticks w)) (db w) in
        (Value r, mkWorld d (env w) (S (ticks w)))
    end.

(** *** Database error messages *)

Definition unique_violation (constraint : string) : string :=
  "duplicate key value violates unique constraint " ++ dq ++ constraint ++ dq.

Definition foreign_key_violation (table constraint : string) : string :=
  "insert or update on table " ++ dq ++ table ++ dq
  ++ " violates foreign key constraint " ++ dq ++ constraint ++ dq.

Definition check_violation (table constraint : string) : string :=
  "new row for relation " ++ dq ++ table ++ dq
  ++ " violates check constraint " ++ dq ++ constraint ++ dq.

Definition not_null_violation (column table : string) : string :=
  "null value in column " ++ dq ++ column ++ dq ++ " of relation "
  ++ dq ++ table ++ dq ++ " violates not-null constraint".

Definition numeric_overflow : string := "numeric field overflow".

Definition multiple_rows : string :=
  "JSON object requested, multiple (or no) rows returned".

(** [.maybeSingle()]: no row is [null], one row is that row, more is an
    error. *)
Definition maybeSingle {A} (rows : list A) : Response (option A) :=
  match rows with
  | [] => Data None
  | [r] => Data (Some r)
  | _ :: _ :: _ => Error multiple_rows
  end.

(** A value fits [decimal(10,2)]. *)
Definition fits_decimal_10_2 (d : decimal) : bool := Z.abs d <? 10 ^ 10.

Definition user_exists (d : Database) (id : string) : bool :=
  existsb (fun u => String.eqb (u_id u) id) (users d).

Definition signal_exists (d : Database) (id : string) : bool :=
  existsb (fun t => String.eqb (t_id t) id) (trading_signals d).

(** *** [users] *)

Definition exec_insert_user (email password_hash first_name last_name role : string)
    (is_active email_verified : bool) (uuid : string) (d : Database)
  : Response User * Database :=
  let row := mkUser uuid email password_hash first_name last_name role
                    is_active email_verified in
  if negb (existsb (String.eqb role) ["user"; "admin"; "customer_service"])
  then (Error (check_violation "users" "users_role_check"), d)
  else if user_exists d uuid
  then (Error (unique_violation "users_pkey"), d)
  else if existsb (fun u => String.eqb (u_email u) email) (users d)
  then (Error (unique_violation "users_email_key"), d)
  else (Data row, with_users d (users d ++ [row])).

Definition exec_select_user_by_email (email : string) (_ : string) (d : Database)
  : Response (option User) * Database :=
  (maybeSingle (filter (fun u => String.eqb (u_email u) email) (users d)), d).

(** *** [user_profiles] *)

Definition exec_insert_user_profile (row : UserProfile) (_ : string) (d : Database)
  : Response unit * Database :=
  if negb (existsb (String.eqb (p_account_type row))
                   ["personal"; "professional"; "enterprise"])
  then (Error (check_violation "user_profiles"
                               "user_profiles_account_type_check"), d)
  else if negb (existsb (String.eqb (p_risk_tolerance row))
                        ["conservative"; "moderate"; "aggressive"])
  then (Error (check_violation "user_profiles"
                               "user_profiles_risk_tolerance_check"), d)
  else if existsb (fun p => String.eqb (p_unique_id p) (p_unique_id row))
                  (user_profiles d)
  then (Error (unique_violation "user_profiles_unique_id_key"), d)
  else if negb (user_exists d (p_user_id row))
  then (Error (foreign_key_violation "user_profiles"
                                     "user_profiles_user_id_fkey"), d)
  else (Data tt, with_user_profiles d (user_profiles d ++ [row])).

Definition exec_select_profile (user_id : string) (_ : string) (d : Database)
  : Response (option UserProfile) * Database :=
  (maybeSingle (filter (fun p => String.eqb (p_user_id p) user_id)
                       (user_profiles d)), d).

(** *** [user_subscriptions] *)

(** The payload of the insert; [None] is a property that is [undefined] and
    so is absent from the request: the column takes its default. *)
Definition exec_insert_user_subscription
    (user_id plan_type : string) (plan_name : option string)
    (price : option Z) (period : option string)
    (status : SubscriptionStatus) (features : option (list string))
    (_ : string) (d : Database) : Response unit * Database :=
  match plan_name with
  | None => (Error (not_null_violation "plan_name" "user_subscriptions"), d)
  | Some plan_name =>
      let price := match price with
                   | Some n => decimal_of_int n
                   | None => 0
                   end in
      let row := mkUserSubscription user_id plan_type plan_name price
                   (match period with Some p => p | None => "month" end)
                   status
                   (match features with Some f => f | None => [] end)
                   None None in
      if negb (fits_decimal_10_2 price)
      then (Error numeric_overflow, d)
      else if negb (plan_type_known plan_type)
      then (Error (check_violation "user_subscriptions"
                                   "user_subscriptions_plan_type_check"), d)
      else if negb (user_exists d user_id)
      then (Error (foreign_key_violation "user_subscriptions"
                                         "user_subscriptions_user_id_fkey"), d)
      else (Data tt, with_user_subscriptions d (user_subscriptions d ++ [row]))
  end.

Definition is_active_subscription_of (user_id : string) (s : UserSubscription)
  : bool :=
  String.eqb (s_user_id s) user_id && SubscriptionStatus_eqb (s_status s) active.

(** [.select('*').eq('user_id', userId).eq('status', 'active').maybeSingle()] *)
Definition exec_select_active_subscription (user_id : string) (_ : string)
    (d : Database) : Response (option UserSubscription) * Database :=
  (maybeSingle (filter (is_active_subscription_of user_id)
                       (user_subscriptions d)), d).

Definition subscription_matches (user_id plan_type : string)
    (s : UserSubscription) : bool :=
  String.eqb (s_user_id s) user_id && String.eqb (s_plan_type s) plan_type.

Definition activate_row (started_at expires_at : Z) (s : UserSubscription)
  : UserSubscription :=
  mkUserSubscription (s_user_id s) (s_plan_type s) (s_plan_name s) (s_price s)
    (s_period s) active (s_features s) (Some started_at) (Some expires_at).

(** [.update({ status: 'active', started_at, expires_at })
       .eq('user_id', userId).eq('plan_type', planType)] *)
Definition exec_activate_subscriptions (user_id plan_type : string)
    (started_at expires_at : Z) (_ : string) (d : Database)
  : Response unit * Database :=
  (Data tt,
   with_user_subscriptions d
     (map (fun s => if subscription_matches user_id plan_type s
                    then activate_row started_at expires_at s else s)
          (user_subscriptions d))).

(** *** [trading_signals] *)

(** [.order('created_at', { ascending: false })], as a stable insertion
    sort: rows created at the same instant keep their table order. *)
Fixpoint insert_newest_first (t : TradingSignal) (sorted : list TradingSignal)
  : list TradingSignal :=
  match sorted with
  | [] => [t]
  | x :: rest => if t_created_at x <? t_created_at t
                 then t :: x :: rest
                 else x :: insert_newest_first t rest
  end.

Definition newest_first (rows : list TradingSignal) : list TradingSignal :=
  fold_right insert_newest_first [] rows.

Definition is_active_signal (t : TradingSignal) : bool :=
  SignalStatus_eqb (t_status t) signal_active.

(** [.select('*').eq('status', 'active').order(...)] *)
Definition exec_select_active_signals (_ : string) (d : Database)
  : Response (list TradingSignal) * Database :=
  (Data (newest_first (filter is_active_signal (trading_signals d))), d).

(** [.select('*').eq('signal_type', signalType).eq('status', 'active').order(...)] *)
Definition exec_select_signals_by_type (signalType : SignalType) (_ : string)
    (d : Database) : Response (list TradingSignal) * Database :=
  (Data (newest_first
           (filter (fun t => SignalType_eqb (t_signal_type t) signalType
                             && is_active_signal t)
                   (trading_signals d))), d).

(** The row-security policy "Subscribed users can read signals", for the
    database user [uid] at database time [now]; a NULL [expires_at] makes the
    comparison unknown, hence not satisfied. *)
Definition policy_subscribed_users_can_read_signals (d : Database)
    (uid : string) (now : Z) : bool :=
  existsb (fun s => is_active_subscription_of uid s
                    && match s_expires_at s with
                       | Some e => now <? e
                       | None => false
                       end)
          (user_subscriptions d).

(** *** [user_signal_access] *)

Definition same_view (user_id signal_id : string) (a : SignalAccess) : bool :=
  String.eqb (a_user_id a) user_id && String.eqb (a_signal_id a) signal_id.

Definition exec_insert_signal_access (row : SignalAccess) (_ : string)
    (d : Database) : Response unit * Database :=
  if existsb (same_view (a_user_id row) (a_signal_id row)) (user_signal_access d)
  then (Error (unique_violation "user_signal_access_user_id_signal_id_key"), d)
  else if negb (user_exists d (a_user_id row))
  then (Error (foreign_key_violation "user_signal_access"
                                     "user_signal_access_user_id_fkey"), d)
  else if negb (signal_exists d (a_signal_id row))
  then (Error (foreign_key_violation "user_signal_access"
                                     "user_signal_access_signal_id_fkey"), d)
  else (Data tt, with_user_signal_access d (user_signal_access d ++ [row])).

(** *** [purchases] and the trigger [notify_admin_on_purchase] *)

(** The row the trigger's [INSERT ... SELECT] builds for one [users] row
    [u] joined to the new purchase [NEW]. *)
Definition purchase_notification (NEW : Purchase) (u : User) : AdminNotification :=
  mkAdminNotification
    notify_purchase
    ("New Purchase: " ++ pu_plan_name NEW)
    ("User " ++ u_email u ++ " purchased " ++ pu_plan_name NEW ++ " for $"
       ++ decimal_text (pu_amount NEW))
    (Some (pu_user_id NEW))
    (Some (pu_id NEW))
    [ ("user_email", JText (u_email u));
      ("user_name", JText (u_first_name u ++ " " ++ u_last_name u));
      ("plan_name", JText (pu_plan_name NEW));
      ("amount", JNumeric (pu_amount NEW));
      ("payment_method", JText (payment_method_text (pu_payment_method NEW))) ]
    false.

(** [notify_admin_on_purchase()], fired [AFTER INSERT ON purchases FOR EACH
    ROW]: one notification per [users] row with [u.id = NEW.user_id]. *)
Definition notify_admin_on_purchase (NEW : Purchase) (d : Database) : Database :=
  with_admin_notifications d
    (admin_notifications d
     ++ map (purchase_notification NEW)
            (filter (fun u => String.eqb (u_id u) (pu_user_id NEW)) (users d))).

(** [INSERT INTO purchases] of one row, with the trigger that follows it. *)
Definition insert_into_purchases (NEW : Purchase) (d : Database)
  : Response Purchase * Database :=
  if negb (fits_decimal_10_2 (pu_amount NEW))
  then (Error numeric_overflow, d)
  else if existsb (fun p => String.eqb (pu_id p) (pu_id NEW)) (purchases d)
  then (Error (unique_violation "purchases_pkey"), d)
  else if negb (user_exists d (pu_user_id NEW))
  then (Error (foreign_key_violation "purchases" "purchases_user_id_fkey"), d)
  else (Data NEW,
        notify_admin_on_purchase NEW
          (with_purchases d (purchases d ++ [NEW]))).

(** [.insert({...}).select().single()] on [purchases]; the id is the
    column default. *)
Definition exec_insert_purchase
    (user_id plan_type plan_name : string) (amount : decimal)
    (currency : string) (payment_method : PaymentMethod)
    (payment_status : PaymentStatus)
    (transaction_id payment_details : option string) (completed_at : Z)
    (uuid : string) (d : Database) : Response Purchase * Database :=
  insert_into_purchases
    (mkPurchase uuid user_id plan_type plan_name amount currency payment_method
                payment_status transaction_id payment_details
                (Some completed_at)) d.

(* ===================================================================== *)
(** ** The services *)
(* ===================================================================== *)

(** [{ success: true, ...payload }] or [{ success: false, error }]. *)
Inductive Reply (A : Type) :=
| Success (payload : A)
| Failure (error : string).
Arguments Success {A} payload.
Arguments Failure {A} error.

Definition success {A} (r : Reply A) : bool :=
  match r with Success _ => true | Failure _ => false end.

(** *** purchaseService *)

Module PurchaseService.

Record CreatePurchaseData := mkCreatePurchaseData {
  userId : string;
  planType : string;
  planName : string;
  amount : decimal;
  paymentMethod : PaymentMethod;
  transactionId : option string;
  paymentDetails : option string
}.

(** The extra fields [processPurchaseAndNotify] takes. *)
Record NotifyData := mkNotifyData {
  purchase_data :> CreatePurchaseData;
  userEmail : string;
  userName : string;
  notify_features : list string
}.

Definition getPlanDetails (planType : string) : PlanValue :=
  plans_lookup planType.

Definition createPurchase (data : CreatePurchaseData) : Js (Reply Purchase) :=
  try_catch
    (completed_at <- new_Date ;;
     r <- request (exec_insert_purchase
                     (userId data) (planType data) (planName data)
                     (amount data) "USD" (paymentMethod data)
                     payment_completed (transactionId data)
                     (paymentDetails data) completed_at) ;;
     purchase <- or_throw r ;;
     ret (Success purchase))
    (fun message => ret (Failure message)).

(** How far [activateSubscription] moves the expiry date on: three months
    for the enterprise plan, one month for every other plan type. *)
Definition months_of (planType : string) : Z :=
  if String.eqb planType "enterprise" then 3 else 1.

Definition activateSubscription (userId planType : string) : Js (Reply unit) :=
  try_catch
    (let planDetails := getPlanDetails planType in
     expiresAt <- new_Date ;;
     zone <- host_zone ;;
     let expiresAt := JsDate.addMonths zone expiresAt (months_of planType) in
     started_at <- new_Date ;;
     r <- request (exec_activate_subscriptions userId planType
                     started_at expiresAt) ;;
     _ <- or_throw r ;;
     ret (Success tt))
    (fun message => ret (Failure message)).

Section Email.
(** [emailService.sendPaymentSuccessEmail(email, name, amount, planName,
    transactionId, userId, features)]: the email service is a module of its
    own (services/emailService) and a parameter of the flow.  Its result is
    not looked at; it may throw. *)
Variable sendPaymentSuccessEmail :
  string -> string -> decimal -> string -> string -> string ->
  list string -> Js unit.

Definition transaction_label (transactionId : option string) : string :=
  match transactionId with
  | Some t => or_else t "N/A"
  | None => "N/A"
  end.

Definition processPurchaseAndNotify (data : NotifyData)
  : Js (Reply Purchase) :=
  try_catch
    (purchaseResult <- createPurchase data ;;
     match purchaseResult with
     | Failure _ => ret purchaseResult
     | Success purchase =>
         _ <- activateSubscription (userId data) (planType data) ;;
         _ <- sendPaymentSuccessEmail
                (userEmail data) (userName data) (amount data)
                (planName data) (transaction_label (transactionId data))
                (userId data) (notify_features data) ;;
         ret (Success purchase)
     end)
    (fun message => ret (Failure message)).
End Email.

End PurchaseService.

(** *** tradingSignalService *)

Module TradingSignalService.

(** The three shapes [checkUserSignalAccess] returns; an absent property
    is [None]. *)
Record AccessResult := mkAccessResult {
  access_success : bool;
  hasAccess : bool;
  message : option string;
  subscription : option UserSubscription;
  error : option string
}.

Definition fetch_active_signals : Js (Reply (list TradingSignal)) :=
  r <- request exec_select_active_signals ;;
  signals <- or_throw r ;;
  ret (Success signals).

Definition getActiveSignals (userId : option string)
  : Js (Reply (list TradingSignal)) :=
  try_catch
    (match userId with
     | Some uid =>
         if truthy userId then
           r <- request (exec_select_active_subscription uid) ;;
           match data_of r with
           | None => ret (Failure "No active subscription")
           | Some _ => fetch_active_signals
           end
         else fetch_active_signals
     | None => fetch_active_signals
     end)
    (fun message => ret (Failure message)).

Definition fetch_signals_by_type (signalType : SignalType)
  : Js (Reply (list TradingSignal)) :=
  r <- request (exec_select_signals_by_type signalType) ;;
  signals <- or_throw r ;;
  ret (Success signals).

Definition getSignalsByType (signalType : SignalType) (userId : option string)
  : Js (Reply (list TradingSignal)) :=
  try_catch
    (match userId with
     | Some uid =>
         if truthy userId then
           r <- request (exec_select_active_subscription uid) ;;
           match data_of r with
           | None => ret (Failure "No active subscription")
           | Some _ => fetch_signals_by_type signalType
           end
         else fetch_signals_by_type signalType
     | None => fetch_signals_by_type signalType
     end)
    (fun message => ret (Failure message)).

Definition trackSignalView (userId signalId : string) : Js (Reply unit) :=
  try_catch
    (viewed_at <- new_Date ;;
     r <- request (exec_insert_signal_access
                     (mkSignalAccess userId signalId viewed_at)) ;;
     match r with
     | Error m => if negb (includes m "duplicate") then throw m
                  else ret (Success tt)
     | Data _ => ret (Success tt)
     end)
    (fun message => ret (Failure message)).

(** [new Date(subscription.expires_at)]: a NULL column arrives as [null],
    which [new Date] reads as time value 0. *)
Definition Date_of_column (c : option Z) : Z :=
  match c with
  | Some t => t
  | None => 0
  end.

Definition checkUserSignalAccess (userId : string) : Js AccessResult :=
  try_catch
    (r <- request (exec_select_active_subscription userId) ;;
     found <- or_throw r ;;
     match found with
     | None =>
         ret (mkAccessResult false false
                (Some "No active subscription found") None None)
     | Some sub =>
         now <- new_Date ;;
         let expiresAt := Date_of_column (s_expires_at sub) in
         if expiresAt <? now
         then ret (mkAccessResult false false
                     (Some "Subscription has expired") None None)
         else ret (mkAccessResult true true None (Some sub) None)
     end)
    (fun message =>
       ret (mkAccessResult false false None None (Some message))).

End TradingSignalService.

(** *** authService: the common input and output *)

Record SignUpData := mkSignUpData {
  firstName : string;
  lastName : string;
  email : string;
  password : string;
  plan_type : string
}.

Record SignInData := mkSignInData {
  signin_email : string;
  signin_password : string
}.

(** The [user] object of a successful [signUp]. *)
Record SignedUpUser := mkSignedUpUser {
  su_id : string;
  su_email : string;
  su_first_name : string;
  su_last_name : string;
  su_unique_id : string;
  su_plan_type : string
}.

(** The [user] object of a successful [signIn]. *)
Record SignedInUser := mkSignedInUser {
  si_id : string;
  si_email : string;
  si_first_name : string;
  si_last_name : string;
  si_role : string;
  si_profile : option UserProfile;
  si_subscription : option UserSubscription
}.

(** *** authService, legacy variant (src/services/supabaseAuth.ts) *)

Module LegacyAuth.

Definition getPlanDetails (planType : string) : PlanValue :=
  plans_lookup planType.

Definition signUp (data : SignUpData) : Js (Reply SignedUpUser) :=
  try_catch
    (passwordHash <- bcrypt_hash (password data) ;;
     r <- request (exec_insert_user (email data) passwordHash
                     (firstName data) (lastName data) "user" true false) ;;
     user <- or_throw r ;;
     n <- Math_random_id ;;
     let uniqueId := int_to_string n in
     r <- request (exec_insert_user_profile
                     (mkUserProfile (u_id user) uniqueId "personal"
                                    "moderate" false "UTC")) ;;
     _ <- or_throw r ;;
     let planDetails := getPlanDetails (plan_type data) in
     r <- request (exec_insert_user_subscription
                     (u_id user) (plan_type data) (get_name planDetails)
                     (get_price planDetails) (get_period planDetails)
                     pending (get_features planDetails)) ;;
     _ <- or_throw r ;;
     ret (Success (mkSignedUpUser (u_id user) (u_email user)
                     (u_first_name user) (u_last_name user)
                     uniqueId (plan_type data))))
    (fun message => ret (Failure (or_else message "Registration failed"))).

Definition signIn (data : SignInData) : Js (Reply SignedInUser) :=
  try_catch
    (r <- request (exec_select_user_by_email (signin_email data)) ;;
     found <- or_throw r ;;
     match found with
     | None => ret (Failure "Invalid email or password")
     | Some user =>
         passwordMatch <- compare_with_bcrypt (signin_password data)
                                              (u_password_hash user) ;;
         if negb passwordMatch
         then ret (Failure "Invalid email or password")
         else if negb (u_is_active user)
         then ret (Failure "Account is deactivated")
         else
           r1 <- request (exec_select_profile (u_id user)) ;;
           let profile := data_of r1 in
           r2 <- request (exec_select_active_subscription (u_id user)) ;;
           let subscription := data_of r2 in
           ret (Success (mkSignedInUser (u_id user) (u_email user)
                           (u_first_name user) (u_last_name user)
                           (u_role user) profile subscription))
     end)
    (fun message => ret (Failure (or_else message "Login failed"))).

End LegacyAuth.

(** *** authService, provider variant (delegating to [supabase.auth]) *)

Module ProviderAuth.

Definition getPlanDetails (planType : string) : PlanValue :=
  plans_lookup planType.

(** Reading an identifier that no scope binds throws a [ReferenceError].
    At the subscription insert of [signUp] the bindings in scope are
    [data], [authData], [authError], [uniqueId], [profileError] and
    [planDetails], and at module level [supabase] and [authService];
    [user] is none of them (the created account is [authData.user]). *)
Definition ReferenceError {A} (identifier : string) : Js A :=
  throw (identifier ++ " is not defined").

Definition signUp (data : SignUpData) : Js (Reply SignedUpUser) :=
  try_catch
    (authData <- auth_signUp (email data) (password data)
                             (firstName data) (lastName data) ;;
     match authData with
     | AuthError m => throw m
     | AuthNoUser => throw "User creation failed"
     | AuthUser id auth_email =>
         n <- Math_random_id ;;
         let uniqueId := int_to_string n in
         r <- request (exec_insert_user_profile
                         (mkUserProfile id uniqueId "personal" "moderate"
                                        false "UTC")) ;;
         _ <- or_throw r ;;
         let planDetails := getPlanDetails (plan_type data) in
         user_id <- ReferenceError "user" ;;
         r <- request (exec_insert_user_subscription
                         user_id (plan_type data) (get_name planDetails)
                         (get_price planDetails) (get_period planDetails)
                         pending (get_features planDetails)) ;;
         _ <- or_throw r ;;
         ret (Success (mkSignedUpUser id auth_email
                         (firstName data) (lastName data)
                         uniqueId (plan_type data)))
     end)
    (fun message => ret (Failure (or_else message "Registration failed"))).

End ProviderAuth.

(* ===================================================================== *)
(** ** Statements about the plans *)
(* ===================================================================== *)

(** A copy of [getPlanDetails] returns, for [key], a plan record with the
    given name, price and period and at least one feature. *)
Definition returns_plan (getPlanDetails : string -> PlanValue)
    (key plan_name : string) (plan_price : Z) (plan_period : string) : Prop :=
  exists p, getPlanDetails key = OwnPlan p
            /\ name p = plan_name
            /\ price p = plan_price
            /\ period p = plan_period
            /\ features p <> [].

Definition returns_the_four_plans (getPlanDetails : string -> PlanValue) : Prop :=
  returns_plan getPlanDetails "kickstarter" "Kickstarter" 0 "month"
  /\ returns_plan getPlanDetails "starter" "Starter" 99 "month"
  /\ returns_plan getPlanDetails "pro" "Pro" 199 "month"
  /\ returns_plan getPlanDetails "enterprise" "Enterprise" 499 "3 months".


(* ===================================================================== *)
(** ** Sequences of service calls *)
(* ===================================================================== *)

Definition subscriptions_of (w : World) : list UserSubscription :=
  user_subscriptions (db w).

(** Number of [user_signal_access] rows for a (user, signal) pair. *)
Definition count_views (user_id signal_id : string) (w : World) : nat :=
  length (filter (same_view user_id signal_id) (user_signal_access (db w))).

(** The active subscription rows of a user, as the lookup of the signal
    service selects them. *)
Definition active_subscriptions (user_id : string) (w : World)
  : list UserSubscription :=
  filter (is_active_subscription_of user_id) (subscriptions_of w).

Inductive Call :=
| CallLegacySignUp (data : SignUpData)
| CallLegacySignIn (data : SignInData)
| CallProviderSignUp (data : SignUpData)
| CallCreatePurchase (data : PurchaseService.CreatePurchaseData)
| CallActivateSubscription (userId planType : string)
| CallProcessPurchaseAndNotify (data : PurchaseService.NotifyData)
| CallGetActiveSignals (userId : option string)
| CallGetSignalsByType (signalType : SignalType) (userId : option string)
| CallTrackSignalView (userId signalId : string)
| CallCheckUserSignalAccess (userId : string).

(** The [activateSubscription(userId, planType)] a call makes, directly or
    inside [processPurchaseAndNotify]. *)
Definition activation (c : Call) : option (string * string) :=
  match c with
  | CallActivateSubscription userId planType => Some (userId, planType)
  | CallProcessPurchaseAndNotify data =>
      Some (PurchaseService.userId (PurchaseService.purchase_data data),
            PurchaseService.planType (PurchaseService.purchase_data data))
  | _ => None
  end.

Section Calls.
Variable sendPaymentSuccessEmail :
  string -> string -> decimal -> string -> string -> string ->
  list string -> Js unit.

(** The world a call leaves behind. *)
Definition perform (c : Call) (w : World) : World :=
  match c with
  | CallLegacySignUp data => snd (LegacyAuth.signUp data w)
  | CallLegacySignIn data => snd (LegacyAuth.signIn data w)
  | CallProviderSignUp data => snd (ProviderAuth.signUp data w)
  | CallCreatePurchase data => snd (PurchaseService.createPurchase data w)
  | CallActivateSubscription userId planType =>
      snd (PurchaseService.activateSubscription userId planType w)
  | CallProcessPurchaseAndNotify data =>
      snd (PurchaseService.processPurchaseAndNotify
             sendPaymentSuccessEmail data w)
  | CallGetActiveSignals userId =>
      snd (TradingSignalService.getActiveSignals userId w)
  | CallGetSignalsByType signalType userId =>
      snd (TradingSignalService.getSignalsByType signalType userId w)
  | CallTrackSignalView userId signalId =>
      snd (TradingSignalService.trackSignalView userId signalId w)
  | CallCheckUserSignalAccess userId =>
      snd (TradingSignalService.checkUserSignalAccess userId w)
  end.

Definition run (calls : list Call) (w : World) : World :=
  fold_left (fun w c => perform c w) calls w.
End Calls.

(** A row that is active was, at the same place of the table, active
    before or matched by the activation [act]. *)
Definition active_rows_explained (before after : list UserSubscription)
    (act : option (string * string)) : Prop :=
  forall i s,
    nth_error after i = Some s -> s_status s = active ->
    exists s0, nth_error before i = Some s0
               /\ s_user_id s0 = s_user_id s
               /\ s_plan_type s0 = s_plan_type s
               /\ (s_status s0 = active
                   \/ act = Some (s_user_id s, s_plan_type s)).

(* ===================================================================== *)
(** ** Sample worlds *)
(* ===================================================================== *)

(** An environment in which no request fails: the clock starts on
    2026-01-15T00:00:00Z and advances a millisecond per reading. *)
Definition quiet_env : Env :=
  mkEnv (fun n => 1768435200000 + Z.of_nat n)
        JsDate.utc_zone
        (fun n => "uuid-" ++ int_to_string (Z.of_nat n))
        (fun _ => None)
        (fun n => 100000 + Z.of_nat n)
        (fun _ => AuthUser "u-ann" "ann@example.com")
        (fun _ s => "$2a$10$" ++ s)
        (fun s h => String.eqb ("$2a$10$" ++ s) h).

(** The same environment, except that the request made at tick [n] fails
    in the transport. *)
Definition failing_at (n : nat) (message : string) : Env :=
  mkEnv (clock_at quiet_env) (LocalTZA quiet_env) (uuid_at quiet_env)
        (fun k => if Nat.eqb k n then Some message else None)
        (random_at quiet_env) (auth_at quiet_env)
        (bcrypt_hash_at quiet_env) (bcrypt_compare quiet_env).

Definition fetch_failed : string := "TypeError: Failed to fetch".

Definition ann : User :=
  mkUser "u-ann" "ann@example.com" "$2a$10$secret" "Ann" "Lee" "user" true false.

Definition btc_long : TradingSignal :=
  mkTradingSignal "sig-1" crypto "BTCUSDT" "4h" BUY 6500000 6300000 "69000"
                  signal_active 1768000000000.

(** A pro subscription of Ann, active until 2026-06-01T00:00:00Z. *)
Definition ann_pro : UserSubscription :=
  mkUserSubscription "u-ann" "pro" "Pro" 19900 "month" active
    (features pro) (Some 1768435200000) (Some 1780272000000).

Definition ann_pro_pending : UserSubscription :=
  mkUserSubscription "u-ann" "pro" "Pro" 19900 "month" pending
    (features pro) None None.

Definition ann_enterprise : UserSubscription :=
  mkUserSubscription "u-ann" "enterprise" "Enterprise" 49900 "3 months" active
    (features enterprise) (Some 1768435200000) (Some 1780272000000).

(** Ann's account and one published signal; no subscription yet. *)
Definition base_database : Database :=
  mkDatabase [ann] [] [] [btc_long] [] [] [].

Definition fresh_world : World := mkWorld empty_database quiet_env 0.

Definition base_world : World := mkWorld base_database quiet_env 0.

Definition world_with_subscriptions (subs : list UserSubscription) (e : Env)
  : World :=
  mkWorld (with_user_subscriptions base_database subs) e 0.

Definition silent_email :
  string -> string -> decimal -> string -> string -> string ->
  list string -> Js unit :=
  fun _ _ _ _ _ _ _ => ret tt.

Definition ann_signup : SignUpData :=
  mkSignUpData "Ann" "Lee" "ann@example.com" "secret" "pro".

(** A sign-up that asks for a plan type the code does not know. *)
Definition gold_signup : SignUpData :=
  mkSignUpData "Bob" "Ray" "bob@example.com" "hunter2" "gold".

Definition ann_signin : SignInData := mkSignInData "ann@example.com" "secret".

(** [hasAccess] of what [checkUserSignalAccess] resolves to. *)
Definition grants_access (o : Outcome TradingSignalService.AccessResult) : bool :=
  match o with
  | Value a => TradingSignalService.hasAccess a
  | Thrown _ => false
  end.

(** An active subscription of the user exists whose [expires_at] is not
    earlier than [now]. *)
Definition unexpired_subscription_exists (user_id : string) (now : Z)
    (w : World) : bool :=
  existsb (fun s => is_active_subscription_of user_id s
                    && match s_expires_at s with
                       | Some e => now <=? e
                       | None => false
                       end)
          (subscriptions_of w).

(** What [checkUserSignalAccess] answers, by the outcome of its lookup. *)
Definition access_answer (userId : string) (w : World) : TradingSignalService.AccessResult :=
  match fault_at (env w) (ticks w) with
  | Some m => TradingSignalService.mkAccessResult false false None None (Some m)
  | None =>
      match active_subscriptions userId w with
      | [] => TradingSignalService.mkAccessResult false false
                (Some "No active subscription found") None None
      | [sub] =>
          if TradingSignalService.Date_of_column (s_expires_at sub) <? clock_at (env w) (S (ticks w))
          then TradingSignalService.mkAccessResult false false
                 (Some "Subscription has expired") None None
          else TradingSignalService.mkAccessResult true true None (Some sub) None
      | _ :: _ :: _ => TradingSignalService.mkAccessResult false false None None (Some multiple_rows)
      end
  end.


(** Ann buys the Pro plan. *)
Definition ann_purchase : Purchase :=
  mkPurchase "p-1" "u-ann" "pro" "Pro" 19900 "USD" stripe payment_completed
             (Some "tx-1") None (Some 1768435200000).

Definition ann_buys_pro : PurchaseService.NotifyData :=
  PurchaseService.mkNotifyData
    (PurchaseService.mkCreatePurchaseData "u-ann" "pro" "Pro" 19900 stripe
       (Some "tx-1") None)
    "ann@example.com" "Ann Lee" (features pro).

(** Ann signs up for Pro; her subscription is then activated. *)
Definition signup_then_activate : list Call :=
  [ CallLegacySignUp ann_signup; CallActivateSubscription "uuid-1" "pro" ].

Definition ann_pro_activated : UserSubscription :=
  mkUserSubscription "uuid-1" "pro" "Pro" 19900 "month" active
    (features pro) (Some 1768435200006) (Some 1771113600005).

(* ===================================================================== *)
(** ** The remaining functions of the services *)
(* ===================================================================== *)

From Stdlib Require Import Sorted Permutation.

Definition with_trading_signals (d : Database) (x : list TradingSignal)
  : Database :=
  mkDatabase (users d) (user_profiles d) (user_subscriptions d) x
             (user_signal_access d) (purchases d) (admin_notifications d).

(** One awaited client call whose statement also reads the database's
    [now()]: the reading of the clock at the tick of the request. *)
Definition request_at {A}
    (exec : string -> Z -> Database -> Response A * Database)
  : Js (Response A) :=
  fun w =>
    match fault_at (env w) (ticks w) with
    | Some m => (Value (Error m), tick w)
    | None =>
        let '(r, d) := exec (uuid_at (env w) (ticks w))
                            (clock_at (env w) (ticks w)) (db w) in
        (Value r, mkWorld d (env w) (S (ticks w)))
    end.

(** A value fits [decimal(20,8)], as a count of 10^-8. *)
Definition fits_decimal_20_8 (v : Z) : bool := Z.abs v <? 10 ^ 20.

(** [CHECK (confidence >= 0 AND confidence <= 100)]; a NULL passes. *)
Definition confidence_ok (confidence : option Z) : bool :=
  match confidence with
  | Some c => (0 <=? c) && (c <=? 100)
  | None => true
  end.

(** [INSERT INTO trading_signals ... RETURNING *].  The payload columns
    [currency_pair], [pips_at_risk], [analysis], [ict_concepts] and
    [expires_at] are free of constraints; [confidence] and [created_by] are
    checked.  [created_at] is the column default [now()]. *)
Definition exec_insert_trading_signal
    (signal_type : SignalType) (symbol timeframe : string)
    (direction : Direction) (entry_price stop_loss : Z) (take_profit : string)
    (confidence : option Z) (status : SignalStatus) (created_by : string)
    (uuid : string) (now : Z) (d : Database)
  : Response TradingSignal * Database :=
  let row := mkTradingSignal uuid signal_type symbol timeframe direction
                             entry_price stop_loss take_profit status now in
  if negb (fits_decimal_20_8 entry_price && fits_decimal_20_8 stop_loss)
  then (Error numeric_overflow, d)
  else if negb (confidence_ok confidence)
  then (Error (check_violation "trading_signals"
                               "trading_signals_confidence_check"), d)
  else if signal_exists d uuid
  then (Error (unique_violation "trading_signals_pkey"), d)
  else if negb (user_exists d created_by)
  then (Error (foreign_key_violation "trading_signals"
                                     "trading_signals_created_by_fkey"), d)
  else (Data row, with_trading_signals d (trading_signals d ++ [row])).

Definition set_signal_status (status : SignalStatus) (t : TradingSignal)
  : TradingSignal :=
  mkTradingSignal (t_id t) (t_signal_type t) (t_symbol t) (t_timeframe t)
                  (t_direction t) (t_entry_price t) (t_stop_loss t)
                  (t_take_profit t) status (t_created_at t).

(** [.update({ status }).eq('id', signalId)] *)
Definition exec_update_signal_status (signalId : string)
    (status : SignalStatus) (_ : string) (d : Database)
  : Response unit * Database :=
  (Data tt,
   with_trading_signals d
     (map (fun t => if String.eqb (t_id t) signalId
                    then set_signal_status status t else t)
          (trading_signals d))).

(** A row of the history: the access row with the signal its [signal_id]
    refers to, embedded as [signal]. *)
Record HistoryRow := mkHistoryRow {
  h_access : SignalAccess;
  h_signal : option TradingSignal
}.

Definition signal_of (d : Database) (signal_id : string) : option TradingSignal :=
  find (fun t => String.eqb (t_id t) signal_id) (trading_signals d).

(** [.order('viewed_at', { ascending: false })], as a stable insertion
    sort. *)
Fixpoint insert_latest_first (h : HistoryRow) (sorted : list HistoryRow)
  : list HistoryRow :=
  match sorted with
  | [] => [h]
  | x :: rest => if a_viewed_at (h_access x) <? a_viewed_at (h_access h)
                 then h :: x :: rest
                 else x :: insert_latest_first h rest
  end.

Definition latest_first (rows : list HistoryRow) : list HistoryRow :=
  fold_right insert_latest_first [] rows.

(** The select of the history: every column of the access rows of the
    user, each with the row its [signal_id] refers to, latest view first. *)
Definition exec_select_signal_history (userId : string) (_ : string)
    (d : Database) : Response (list HistoryRow) * Database :=
  (Data (latest_first
           (map (fun a => mkHistoryRow a (signal_of d (a_signal_id a)))
                (filter (fun a => String.eqb (a_user_id a) userId)
                        (user_signal_access d)))), d).

Definition exec_select_user_by_id (id : string) (_ : string) (d : Database)
  : Response (option User) * Database :=
  (maybeSingle (filter (fun u => String.eqb (u_id u) id) (users d)), d).

Module TradingSignalServiceMore.

Record CreateSignalData := mkCreateSignalData {
  signalType : SignalType;
  symbol : string;
  currencyPair : option string;
  timeframe : string;
  direction : Direction;
  entryPrice : Z;
  stopLoss : Z;
  takeProfit : string;
  pipsAtRisk : option string;
  confidence : option Z;
  analysis : option string;
  ictConcepts : option (list string);
  createdBy : string;
  expiresAt : option Z
}.

Definition createSignal (data : CreateSignalData) : Js (Reply TradingSignal) :=
  try_catch
    (r <- request_at (exec_insert_trading_signal
                        (signalType data) (symbol data) (timeframe data)
                        (direction data) (entryPrice data) (stopLoss data)
                        (takeProfit data) (confidence data) signal_active
                        (createdBy data)) ;;
     signal <- or_throw r ;;
     ret (Success signal))
    (fun message => ret (Failure message)).

Definition updateSignalStatus (signalId : string) (status : SignalStatus)
  : Js (Reply unit) :=
  try_catch
    (r <- request (exec_update_signal_status signalId status) ;;
     _ <- or_throw r ;;
     ret (Success tt))
    (fun message => ret (Failure message)).

Definition getUserSignalHistory (userId : string)
  : Js (Reply (list HistoryRow)) :=
  try_catch
    (r <- request (exec_select_signal_history userId) ;;
     data <- or_throw r ;;
     ret (Success data))
    (fun message => ret (Failure message)).

End TradingSignalServiceMore.

(** The payload of a successful [getUserProfile]. *)
Record ProfileView := mkProfileView {
  view_user : option User;
  view_profile : option UserProfile;
  view_subscription : option UserSubscription
}.

Module LegacyAuthMore.

Definition getUserProfile (userId : string) : Js (Reply ProfileView) :=
  try_catch
    (r <- request (exec_select_user_by_id userId) ;;
     user <- or_throw r ;;
     r1 <- request (exec_select_profile userId) ;;
     let profile := data_of r1 in
     r2 <- request (exec_select_active_subscription userId) ;;
     let subscription := data_of r2 in
     ret (Success (mkProfileView user profile subscription)))
    (fun message => ret (Failure message)).

End LegacyAuthMore.

(* ===================================================================== *)
(** ** Statements about listings *)
(* ===================================================================== *)

(** [signals] is the selection [selected] of the table, newest first. *)
Definition listed_newest_first (signals selected : list TradingSignal) : Prop :=
  Permutation signals selected
  /\ StronglySorted (fun a b => t_created_at b <= t_created_at a) signals.

Definition listed_latest_first (rows selected : list HistoryRow) : Prop :=
  Permutation rows selected
  /\ StronglySorted
       (fun a b => a_viewed_at (h_access b) <= a_viewed_at (h_access a)) rows.

(** The rows [getActiveSignals] and [getSignalsByType] select. *)
Definition active_signals (w : World) : list TradingSignal :=
  filter is_active_signal (trading_signals (db w)).

Definition active_signals_of_type (signalType : SignalType) (w : World)
  : list TradingSignal :=
  filter (fun t => SignalType_eqb (t_signal_type t) signalType
                   && is_active_signal t)
         (trading_signals (db w)).

(** The tick at which the signal queries send their second request: the
    subscription lookup comes first when a userId is given. *)
Definition signals_query_tick (userId : option string) (w : World) : nat :=
  if truthy userId then S (ticks w) else ticks w.

(** The subscription gate of the signal queries lets the caller through:
    no userId was given, or the lookup went through and found the user's
    one active row. *)
Definition passes_gate (userId : option string) (w : World) : Prop :=
  match userId with
  | Some uid =>
      truthy userId = true ->
      fault_at (env w) (ticks w) = None
      /\ exists sub, active_subscriptions uid w = [sub]
  | None => True
  end.

(** Ann's only subscription ran out on 2026-01-01T00:00:00Z but still has
    status active. *)
Definition ann_pro_lapsed : UserSubscription :=
  mkUserSubscription "u-ann" "pro" "Pro" 19900 "month" active
    (features pro) (Some 1764547200000) (Some 1767225600000).

(** An admin account, and a signal it publishes. *)
Definition adam : User :=
  mkUser "u-adam" "adam@example.com" "$2a$10$root" "Adam" "Ng" "admin" true true.

Definition desk_database : Database :=
  mkDatabase [ann; adam] [] [ann_pro] [btc_long] [] [] [].

Definition desk_world : World := mkWorld desk_database quiet_env 0.

Definition eth_short : TradingSignalServiceMore.CreateSignalData :=
  TradingSignalServiceMore.mkCreateSignalData
    crypto "ETHUSDT" None "1h" SELL 350000000000 360000000000 "3300"
    None (Some 80) (Some "Sweep of the highs") None "u-adam" None.

Definition eth_short_signal : TradingSignal :=
  mkTradingSignal "uuid-0" crypto "ETHUSDT" "1h" SELL 350000000000
                  360000000000 "3300" signal_active 1768435200000.

(** The rows the history of a user is made of: the user's access rows,
    each with the signal it refers to. *)
Definition history_rows (userId : string) (w : World) : list HistoryRow :=
  map (fun a => mkHistoryRow a (signal_of (db w) (a_signal_id a)))
      (filter (fun a => String.eqb (a_user_id a) userId)
              (user_signal_access (db w))).

(* ===================================================================== *)
(** ** The constraints of the schema, as a property of the database *)
(* ===================================================================== *)

Definition purchase_exists (d : Database) (id : string) : bool :=
  existsb (fun p => String.eqb (pu_id p) id) (purchases d).

(** The primary keys, unique constraints, foreign keys and the CHECK on
    [plan_type] that the migration declares on the modelled columns. *)
Record consistent (d : Database) : Prop := mkConsistent {
  users_pkey : NoDup (map u_id (users d));
  users_email_key : NoDup (map u_email (users d));
  user_profiles_unique_id_key : NoDup (map p_unique_id (user_profiles d));
  user_profiles_user_id_fkey :
    forall p, In p (user_profiles d) -> user_exists d (p_user_id p) = true;
  user_subscriptions_user_id_fkey :
    forall s, In s (user_subscriptions d) ->
              user_exists d (s_user_id s) = true;
  user_subscriptions_plan_type_check :
    forall s, In s (user_subscriptions d) ->
              plan_type_known (s_plan_type s) = true;
  trading_signals_pkey : NoDup (map t_id (trading_signals d));
  user_signal_access_key :
    NoDup (map (fun a => (a_user_id a, a_signal_id a))
               (user_signal_access d));
  user_signal_access_user_id_fkey :
    forall a, In a (user_signal_access d) ->
              user_exists d (a_user_id a) = true;
  user_signal_access_signal_id_fkey :
    forall a, In a (user_signal_access d) ->
              signal_exists d (a_signal_id a) = true;
  purchases_pkey : NoDup (map pu_id (purchases d));
  purchases_user_id_fkey :
    forall p, In p (purchases d) -> user_exists d (pu_user_id p) = true;
  admin_notifications_related_user_id_fkey :
    forall n id, In n (admin_notifications d) ->
                 n_related_user_id n = Some id -> user_exists d id = true;
  admin_notifications_related_purchase_id_fkey :
    forall n id, In n (admin_notifications d) ->
                 n_related_purchase_id n = Some id ->
                 purchase_exists d id = true
}.

(** A computation keeps the constraints: run in a consistent database, it
    leaves a consistent database, whether it returns or throws. *)
Definition preserves {A} (c : Js A) : Prop :=
  forall w, consistent (db w) -> consistent (db (snd (c w))).

(** A statement keeps the constraints, whatever uuid it is handed. *)
Definition exec_preserves {A}
    (exec : string -> Database -> Response A * Database) : Prop :=
  forall uuid d, consistent d -> consistent (snd (exec uuid d)).

(** Calls of all the service functions, the publishing ones included. *)
Inductive Step :=
| Service (c : Call)
| PublishSignal (data : TradingSignalServiceMore.CreateSignalData)
| SetSignalStatus (signalId : string) (status : SignalStatus)
| ReadHistory (userId : string)
| ReadProfile (userId : string).

Section Steps.
Variable sendPaymentSuccessEmail :
  string -> string -> decimal -> string -> string -> string ->
  list string -> Js unit.

Definition perform_step (s : Step) (w : World) : World :=
  match s with
  | Service c => perform sendPaymentSuccessEmail c w
  | PublishSignal data => snd (TradingSignalServiceMore.createSignal data w)
  | SetSignalStatus signalId status =>
      snd (TradingSignalServiceMore.updateSignalStatus signalId status w)
  | ReadHistory userId =>
      snd (TradingSignalServiceMore.getUserSignalHistory userId w)
  | ReadProfile userId => snd (LegacyAuthMore.getUserProfile userId w)
  end.

Definition run_steps (steps : list Step) (w : World) : World :=
  fold_left (fun w s => perform_step s w) steps w.
End Steps.

(* ===================================================================== *)
(** ** App: logging out *)
(* ===================================================================== *)

Module App.

(** The part of the browser [handleLogout] acts on: [localStorage], as its
    entries in key order, and [window.location.href]. *)
Record Browser := mkBrowser {
  localStorage : list (string * string);
  location_href : string
}.

(** [String.prototype.startsWith]. *)
Definition startsWith (s prefix : string) : bool := String.prefix prefix s.

(** [localStorage.removeItem(key)]. *)
Definition removeItem (key : string) (b : Browser) : Browser :=
  mkBrowser (filter (fun kv => negb (String.eqb (fst kv) key)) (localStorage b))
            (location_href b).

(** [Object.keys(localStorage)]. *)
Definition keys (b : Browser) : list string := map fst (localStorage b).

(** The keys the loop of [handleLogout] removes. *)
Definition session_key (key : string) : bool :=
  startsWith key "trading_state_" || startsWith key "dashboard_data_"
  || startsWith key "user_backup_".

Section Logout.
(** [userLogout] (UserContext), [resetPlan] (TradingPlanContext) and
    [clearState] (trading/dataStorage) come from other modules. *)
Variables userLogout resetPlan clearState : Browser -> Browser.

Definition handleLogout (b : Browser) : Browser :=
  let b := userLogout b in
  let b := resetPlan b in
  let b := clearState b in
  let b := fold_left (fun b key => if session_key key then removeItem key b
                                   else b)
                     (keys b) b in
  let b := removeItem "user_consent_accepted" b in
  mkBrowser (localStorage b) "/signin".
End Logout.

End App.

(** A browser with session data, a consent flag and a theme setting. *)
Definition used_browser : App.Browser :=
  App.mkBrowser
    [ ("trading_state_u-ann", "{}"); ("theme", "dark");
      ("user_consent_accepted", "true"); ("dashboard_data_u-ann", "[]");
      ("user_backup_u-ann", "{}") ]
    "/dashboard".
(* ===================================================================== *)
(** ** Plans: what [getPlanDetails] returns *)
(* ===================================================================== *)

Lemma plans_lookup_four : returns_the_four_plans plans_lookup.
Proof.
  repeat split;
    (eexists; repeat split; [reflexivity .. | discriminate]).
Qed.

(** C6. For each of the plan types kickstarter, starter, pro and enterprise,
    getPlanDetails (in purchaseService and in both authService variants)
    returns a plan record named Kickstarter / Starter / Pro / Enterprise,
    priced 0 / 99 / 199 / 499, with period "month" for the first three and
    "3 months" for enterprise, and a non-empty feature list. *)
Theorem getPlanDetails_four_plans :
  returns_the_four_plans PurchaseService.getPlanDetails
  /\ returns_the_four_plans LegacyAuth.getPlanDetails
  /\ returns_the_four_plans ProviderAuth.getPlanDetails.
Proof.
  repeat apply conj; apply plans_lookup_four.
Qed.

(** A key [plans] owns is one of the four plan types. *)
Lemma own_property_known (planType : string) :
  plan_type_known planType = false -> own_property planType plans = None.
Proof.
  unfold plan_type_known, plans; simpl.
  destruct (String.eqb planType "kickstarter"); [discriminate|].
  destruct (String.eqb planType "starter"); [discriminate|].
  destruct (String.eqb planType "pro"); [discriminate|].
  destruct (String.eqb planType "enterprise"); [discriminate|].
  reflexivity.
Qed.

Lemma plan_type_known_spec (planType : string) :
  plan_type_known planType = false <->
  planType <> "kickstarter" /\ planType <> "starter"
  /\ planType <> "pro" /\ planType <> "enterprise".
Proof.
  unfold plan_type_known; simpl.
  rewrite !orb_false_r, !orb_false_iff, !String.eqb_neq.
  tauto.
Qed.

Lemma plans_lookup_known (planType : string) :
  plan_type_known planType = true ->
  exists p, plans_lookup planType = OwnPlan p /\ 0 <= price p <= 499.
Proof.
  unfold plan_type_known, plans_lookup, plans; simpl.
  destruct (String.eqb planType "kickstarter");
    [intros _; eexists; split; [reflexivity | simpl; lia] |].
  destruct (String.eqb planType "starter");
    [intros _; eexists; split; [reflexivity | simpl; lia] |].
  destruct (String.eqb planType "pro");
    [intros _; eexists; split; [reflexivity | simpl; lia] |].
  destruct (String.eqb planType "enterprise");
    [intros _; eexists; split; [reflexivity | simpl; lia] |].
  discriminate.
Qed.

(** The fallback [|| plans.starter] is reached exactly by the keys that
    [plans] neither owns nor inherits. *)
Lemma plans_lookup_fallback (planType : string) :
  plan_type_known planType = false ->
  inherited planType = false ->
  plans_lookup planType = OwnPlan starter.
Proof.
  intros Hk Hi. unfold plans_lookup.
  rewrite (own_property_known _ Hk), Hi. reflexivity.
Qed.

Lemma plans_lookup_inherited (planType : string) :
  inherited planType = true ->
  plans_lookup planType = PrototypeMember planType.
Proof.
  intros Hi. unfold plans_lookup.
  assert (Hk : plan_type_known planType = false).
  { unfold inherited, object_prototype_members in Hi. simpl in Hi.
    rewrite !orb_true_iff in Hi.
    apply plan_type_known_spec.
    repeat match goal with
           | H : _ \/ _ |- _ => destruct H as [H | H]
           | H : String.eqb _ _ = true |- _ => apply String.eqb_eq in H; subst
           end; try discriminate; repeat split; discriminate. }
  rewrite (own_property_known _ Hk), Hi. reflexivity.
Qed.

(* ===================================================================== *)
(** ** Stepping through a service function *)
(* ===================================================================== *)

Lemma request_run {A} (exec : string -> Database -> Response A * Database) w :
  request exec w =
  match fault_at (env w) (ticks w) with
  | Some m => (Value (Error m), tick w)
  | None => (Value (fst (exec (uuid_at (env w) (ticks w)) (db w))),
             mkWorld (snd (exec (uuid_at (env w) (ticks w)) (db w)))
                     (env w) (S (ticks w)))
  end.
Proof.
  unfold request. destruct (fault_at (env w) (ticks w)); [reflexivity|].
  destruct (exec _ _); reflexivity.
Qed.

Ltac js_unfold :=
  unfold try_catch, bind, ret, throw, or_throw, new_Date,
         Math_random_id, bcrypt_hash, host_zone, compare_with_bcrypt,
         auth_signUp;
  rewrite ?request_run; cbn [tick db env ticks fst snd].

Ltac js_fault :=
  match goal with
  | |- context [fault_at ?e ?n] =>
      let F := fresh "F" in destruct (fault_at e n) eqn:F
  end; cbn [tick db env ticks fst snd].

Ltac split_ifs :=
  repeat match goal with
         | |- context [if ?b then _ else _] => destruct b eqn:?
         end.

(** *** What each statement does to [user_subscriptions] *)

Lemma exec_insert_user_subscriptions em h f l r a v uuid d :
  user_subscriptions (snd (exec_insert_user em h f l r a v uuid d))
  = user_subscriptions d.
Proof. unfold exec_insert_user. split_ifs; reflexivity. Qed.

Lemma exec_insert_user_profile_subscriptions row uuid d :
  user_subscriptions (snd (exec_insert_user_profile row uuid d))
  = user_subscriptions d.
Proof. unfold exec_insert_user_profile. split_ifs; reflexivity. Qed.

Lemma exec_insert_signal_access_subscriptions row uuid d :
  user_subscriptions (snd (exec_insert_signal_access row uuid d))
  = user_subscriptions d.
Proof. unfold exec_insert_signal_access. split_ifs; reflexivity. Qed.

Lemma insert_into_purchases_subscriptions NEW d :
  user_subscriptions (snd (insert_into_purchases NEW d))
  = user_subscriptions d.
Proof. unfold insert_into_purchases. split_ifs; reflexivity. Qed.

(** The subscription insert of [signUp]: rejected, or one row appended
    that carries the details of the requested plan. *)
Lemma exec_insert_user_subscription_cases uid pt st uuid d :
  let v := plans_lookup pt in
  let r := exec_insert_user_subscription uid pt (get_name v) (get_price v)
             (get_period v) st (get_features v) uuid d in
  (exists m, fst r = Error m /\ snd r = d)
  \/ (exists p, fst r = Data tt /\ plan_type_known pt = true
      /\ plans_lookup pt = OwnPlan p
      /\ snd r = with_user_subscriptions d
           (user_subscriptions d ++
              [mkUserSubscription uid pt (name p) (decimal_of_int (price p))
                 (period p) st (features p) None None])).
Proof.
  cbv zeta. unfold exec_insert_user_subscription.
  destruct (get_name (plans_lookup pt)) eqn:N;
    [|left; eexists; split; reflexivity].
  destruct (negb (fits_decimal_10_2 _));
    [left; eexists; split; reflexivity|].
  destruct (plan_type_known pt) eqn:K;
    [|left; eexists; split; reflexivity].
  cbn [negb].
  destruct (negb (user_exists d uid));
    [left; eexists; split; reflexivity|].
  right. destruct (plans_lookup_known _ K) as [p [Hp _]].
  exists p. rewrite Hp in *. simpl in N. inversion N; subst.
  repeat split.
Qed.

(** *** authService.signUp, legacy variant *)

Lemma LegacyAuth_signUp_cases data w :
  exists o w', LegacyAuth.signUp data w = (Value o, w') /\ env w' = env w /\
   ( (success o = false
      /\ subscriptions_of w' = subscriptions_of w)
   \/ (exists p u, o = Success u
        /\ plan_type_known (plan_type data) = true
        /\ LegacyAuth.getPlanDetails (plan_type data) = OwnPlan p
        /\ subscriptions_of w'
           = (subscriptions_of w
              ++ [mkUserSubscription (su_id u) (plan_type data) (name p)
                    (decimal_of_int (price p)) (period p) pending
                    (features p) None None])%list) ).
Proof.
  unfold LegacyAuth.signUp, LegacyAuth.getPlanDetails, subscriptions_of.
  js_unfold.
  js_fault; [do 2 eexists; split; [reflexivity|]; simpl; auto|].
  match goal with |- context [exec_insert_user ?a ?b ?c ?d ?e ?f ?g ?h ?i] =>
    pose proof (exec_insert_user_subscriptions a b c d e f g h i) as HU;
    destruct (exec_insert_user a b c d e f g h i) as [[user|m] d1] end;
    cbn [fst snd] in *;
    [|do 2 eexists; split; [reflexivity|]; simpl; auto].
  js_unfold.
  js_fault;
    [do 2 eexists; split; [reflexivity|]; simpl; split;
       [reflexivity|left; split; [reflexivity|congruence]]|].
  match goal with |- context [exec_insert_user_profile ?a ?b ?c] =>
    pose proof (exec_insert_user_profile_subscriptions a b c) as HP;
    destruct (exec_insert_user_profile a b c) as [[[]|m] d2] end;
    cbn [fst snd] in *;
    [|do 2 eexists; split; [reflexivity|]; simpl; split;
        [reflexivity|left; split; [reflexivity|congruence]]].
  js_unfold.
  js_fault;
    [do 2 eexists; split; [reflexivity|]; simpl; split;
       [reflexivity|left; split; [reflexivity|congruence]]|].
  match goal with
  | |- context [exec_insert_user_subscription ?a ?b _ _ _ ?c _ ?u ?d] =>
      destruct (exec_insert_user_subscription_cases a b c u d)
        as [[m [E1 E2]]|[p [E1 [K [L E2]]]]]
  end; rewrite E1, E2; cbn [fst snd db env ticks].
  - do 2 eexists; split; [reflexivity|]; simpl; split;
      [reflexivity|left; split; [reflexivity|congruence]].
  - do 2 eexists; split; [reflexivity|]; simpl; split; [reflexivity|].
    right. exists p. eexists. repeat split; try assumption.
    simpl. rewrite HP, HU. reflexivity.
Qed.

(** *** authService.signUp, provider variant *)

Lemma ProviderAuth_signUp_cases data w :
  exists m w', ProviderAuth.signUp data w = (Value (Failure m), w')
               /\ env w' = env w
               /\ subscriptions_of w' = subscriptions_of w.
Proof.
  unfold ProviderAuth.signUp, ProviderAuth.ReferenceError, subscriptions_of.
  js_unfold.
  destruct (auth_at (env w) (ticks w)) as [m| |id em];
    try (do 2 eexists; repeat split; reflexivity).
  js_unfold. js_fault; [do 2 eexists; repeat split; reflexivity|].
  match goal with |- context [exec_insert_user_profile ?a ?b ?c] =>
    pose proof (exec_insert_user_profile_subscriptions a b c) as HP;
    destruct (exec_insert_user_profile a b c) as [[[]|m] d2] end;
    cbn [fst snd] in *;
    do 2 eexists; (split; [reflexivity|]); simpl; auto.
Qed.

(** C8. In the provider-delegating variant, the subscription insert of
    signUp reads the identifier [user], which nothing binds: whenever the
    provider sign-up and the user_profiles insert succeed, signUp throws
    there (before any subscription request) and returns success:false with
    the message of the ReferenceError; and on no input at all does this
    variant return success:true. *)
Theorem provider_signUp_never_succeeds :
  (forall data w,
      exists message,
        fst (ProviderAuth.signUp data w) = Value (Failure message))
  /\ (forall data w id auth_email n w1 w2 w3,
        auth_signUp (email data) (password data) (firstName data)
                    (lastName data) w = (Value (AuthUser id auth_email), w1) ->
        Math_random_id w1 = (Value n, w2) ->
        request (exec_insert_user_profile
                   (mkUserProfile id (int_to_string n) "personal" "moderate"
                                  false "UTC")) w2 = (Value (Data tt), w3) ->
        ProviderAuth.signUp data w
        = (Value (Failure "user is not defined"), w3)).
Proof.
  split.
  - intros data w.
    destruct (ProviderAuth_signUp_cases data w) as [m [w' [E _]]].
    exists m. rewrite E. reflexivity.
  - intros data w id auth_email n w1 w2 w3 Hauth Hrandom Hprofile.
    unfold ProviderAuth.signUp, ProviderAuth.ReferenceError,
           try_catch, bind.
    rewrite Hauth. unfold bind. rewrite Hrandom, Hprofile.
    reflexivity.
Qed.

Lemma provider_signUp_never_succeeds_witness :
  exists w3,
    request (exec_insert_user_profile
               (mkUserProfile "u-ann" "100001" "personal" "moderate"
                              false "UTC"))
            (mkWorld base_database quiet_env 2) = (Value (Data tt), w3)
    /\ ProviderAuth.signUp ann_signup base_world
       = (Value (Failure "user is not defined"), w3).
Proof.
  exists (snd (ProviderAuth.signUp ann_signup base_world)). split.
  - reflexivity.
  - apply (proj2 provider_signUp_never_succeeds ann_signup base_world
                 "u-ann" "ann@example.com" 100001
                 (mkWorld base_database quiet_env 1)
                 (mkWorld base_database quiet_env 2)).
    + reflexivity.
    + reflexivity.
    + reflexivity.
Defined.




(* ===================================================================== *)
(** ** Keys: rows selected by a unique column *)
(* ===================================================================== *)

Section UniqueKey.
Context {A : Type} (key : A -> string).

Lemma filter_key_absent (rows : list A) (k : string) :
  (forall r, In r rows -> key r <> k) ->
  filter (fun r => String.eqb (key r) k) rows = [].
Proof.
  induction rows as [|x rows IH]; intros H; [reflexivity|].
  simpl. destruct (String.eqb_spec (key x) k) as [E|_].
  - exfalso. apply (H x); [left; reflexivity | exact E].
  - apply IH. intros r Hr. apply H. right. exact Hr.
Qed.

Lemma filter_key_unique (rows : list A) (k : string) (r : A) :
  NoDup (map key rows) -> In r rows -> key r = k ->
  filter (fun x => String.eqb (key x) k) rows = [r].
Proof.
  induction rows as [|x rows IH]; intros Hnd Hin Hk; [contradiction|].
  simpl in *. inversion Hnd as [|? ? Hnotin Hnd']; subst.
  destruct Hin as [->|Hin].
  - rewrite String.eqb_refl. f_equal.
    apply filter_key_absent. intros r' Hr' E.
    apply Hnotin. rewrite <- E. apply in_map. exact Hr'.
  - destruct (String.eqb_spec (key x) (key r)) as [E|_].
    + exfalso. apply Hnotin. rewrite E. apply in_map. exact Hin.
    + apply IH; auto.
Qed.
End UniqueKey.

(* ===================================================================== *)
(** ** authService.signIn, legacy variant *)
(* ===================================================================== *)

Lemma LegacyAuth_signIn_found data w user :
  fault_at (env w) (ticks w) = None ->
  filter (fun u => String.eqb (u_email u) (signin_email data)) (users (db w))
  = [user] ->
  let matches := bcrypt_compare (env w) (signin_password data)
                                (u_password_hash user) in
  (matches = false ->
   fst (LegacyAuth.signIn data w)
   = Value (Failure "Invalid email or password"))
  /\ (matches = true -> u_is_active user = false ->
      fst (LegacyAuth.signIn data w)
      = Value (Failure "Account is deactivated"))
  /\ (matches = true -> u_is_active user = true ->
      exists signed_in,
        fst (LegacyAuth.signIn data w) = Value (Success signed_in)).
Proof.
  intros F Hrows. cbv zeta.
  unfold LegacyAuth.signIn. js_unfold. rewrite F.
  unfold exec_select_user_by_email. cbn [fst snd]. rewrite Hrows.
  cbn [maybeSingle]. js_unfold.
  destruct (bcrypt_compare (env w) (signin_password data)
                           (u_password_hash user)); cbn [negb];
    [|repeat split; first [reflexivity | discriminate]].
  destruct (u_is_active user); cbn [negb];
    [|repeat split; first [reflexivity | discriminate]].
  repeat split; try discriminate. intros _ _.
  (* the profile and subscription lookups: their errors are not read *)
  js_unfold. js_fault; js_unfold; js_fault; eexists; reflexivity.
Qed.

Lemma LegacyAuth_signIn_not_found data w :
  fault_at (env w) (ticks w) = None ->
  filter (fun u => String.eqb (u_email u) (signin_email data)) (users (db w))
  = [] ->
  fst (LegacyAuth.signIn data w)
  = Value (Failure "Invalid email or password").
Proof.
  intros F Hrows.
  unfold LegacyAuth.signIn. js_unfold. rewrite F.
  unfold exec_select_user_by_email. cbn [fst snd]. rewrite Hrows.
  reflexivity.
Qed.

Lemma LegacyAuth_signIn_lookup_failed data w m :
  fault_at (env w) (ticks w) = Some m ->
  fst (LegacyAuth.signIn data w)
  = Value (Failure (or_else m "Login failed")).
Proof.
  intros F. unfold LegacyAuth.signIn. js_unfold. rewrite F. reflexivity.
Qed.

(** C3, as the code has it.  Emails are unique in [users].  When the lookup
    of the row reports no error, the legacy signIn returns success:true
    exactly when a users row with the given email exists, the bcrypt
    comparison of the supplied password against its password_hash succeeds
    and its is_active is true; an unknown email and a wrong password both
    give "Invalid email or password", and a correct password on a
    deactivated row gives "Account is deactivated".  When the lookup reports
    an error, signIn returns success:false with the error's message (or
    "Login failed" when that is empty), whatever the table holds. *)
Theorem legacy_signIn_outcomes :
  (forall data w,
      NoDup (map u_email (users (db w))) ->
      fault_at (env w) (ticks w) = None ->
      let reply := fst (LegacyAuth.signIn data w) in
      let matches u := bcrypt_compare (env w) (signin_password data)
                                      (u_password_hash u) in
      ((exists signed_in, reply = Value (Success signed_in)) <->
       (exists u, In u (users (db w)) /\ u_email u = signin_email data
                  /\ matches u = true /\ u_is_active u = true))
      /\ ((forall u, In u (users (db w)) -> u_email u <> signin_email data) ->
          reply = Value (Failure "Invalid email or password"))
      /\ (forall u, In u (users (db w)) -> u_email u = signin_email data ->
                    matches u = false ->
                    reply = Value (Failure "Invalid email or password"))
      /\ (forall u, In u (users (db w)) -> u_email u = signin_email data ->
                    matches u = true -> u_is_active u = false ->
                    reply = Value (Failure "Account is deactivated")))
  /\ (forall data w message,
        fault_at (env w) (ticks w) = Some message ->
        fst (LegacyAuth.signIn data w)
        = Value (Failure (or_else message "Login failed"))).
Proof.
  split; [|intros; apply LegacyAuth_signIn_lookup_failed; assumption].
  intros data w Hnd F. cbv zeta.
  assert (Hone : forall u, In u (users (db w)) ->
                           u_email u = signin_email data ->
                           filter (fun x => String.eqb (u_email x)
                                                       (signin_email data))
                                  (users (db w)) = [u])
    by (intros u Hin He; apply filter_key_unique; assumption).
  repeat split.
  - intros [si Hsi].
    destruct (filter (fun x => String.eqb (u_email x) (signin_email data))
                     (users (db w))) as [|u rest] eqn:Hrows.
    + rewrite (LegacyAuth_signIn_not_found data w F Hrows) in Hsi.
      discriminate.
    + assert (Hu : In u (users (db w)) /\ u_email u = signin_email data).
      { assert (Hf : In u (filter (fun x => String.eqb (u_email x)
                                                        (signin_email data))
                                  (users (db w))))
          by (rewrite Hrows; left; reflexivity).
        apply filter_In in Hf. destruct Hf as [Hin He].
        apply String.eqb_eq in He. auto. }
      destruct Hu as [Hin He].
      assert (Hrows' : filter (fun x => String.eqb (u_email x)
                                                   (signin_email data))
                              (users (db w)) = [u])
        by (rewrite Hrows; apply Hone; assumption).
      destruct (LegacyAuth_signIn_found data w F Hrows')
        as [Hbad [Hoff _]].
      exists u. repeat split; try assumption.
      * destruct (bcrypt_compare (env w) (signin_password data)
                                 (u_password_hash u)); [reflexivity|].
        rewrite (Hbad eq_refl) in Hsi. discriminate.
      * destruct (bcrypt_compare (env w) (signin_password data)
                                 (u_password_hash u));
          [|rewrite (Hbad eq_refl) in Hsi; discriminate].
        destruct (u_is_active u); [reflexivity|].
        rewrite (Hoff eq_refl eq_refl) in Hsi. discriminate.
  - intros [u [Hin [He [Hm Ha]]]].
    destruct (LegacyAuth_signIn_found data w F (Hone u Hin He))
      as [_ [_ Hok]].
    apply Hok; assumption.
  - intros Hnone. apply LegacyAuth_signIn_not_found; [assumption|].
    apply filter_key_absent. assumption.
  - intros u Hin He Hm.
    destruct (LegacyAuth_signIn_found data w F (Hone u Hin He))
      as [Hbad _].
    apply Hbad. assumption.
  - intros u Hin He Hm Ha.
    destruct (LegacyAuth_signIn_found data w F (Hone u Hin He))
      as [_ [Hoff _]].
    apply Hoff; assumption.
Qed.

Lemma legacy_signIn_outcomes_witness :
  (exists signed_in,
      fst (LegacyAuth.signIn ann_signin base_world)
      = Value (Success signed_in))
  /\ fst (LegacyAuth.signIn ann_signin
            (mkWorld base_database (failing_at 0 fetch_failed) 0))
     = Value (Failure (or_else fetch_failed "Login failed")).
Proof.
  split.
  - apply (proj1 (proj1 legacy_signIn_outcomes ann_signin base_world
                        ltac:(repeat constructor; simpl; tauto)
                        eq_refl)).
    exists ann. repeat split. left. reflexivity.
  - apply (proj2 legacy_signIn_outcomes ann_signin
                 (mkWorld base_database (failing_at 0 fetch_failed) 0)
                 fetch_failed).
    reflexivity.
Defined.

(** C3 as stated fails when the lookup itself fails: Ann's row exists, the
    password matches its hash and the account is active, yet signIn returns
    success:false, with the transport's message. *)
Lemma legacy_signIn_counterexample :
  let w := mkWorld base_database (failing_at 0 fetch_failed) 0 in
  In ann (users (db w))
  /\ u_email ann = signin_email ann_signin
  /\ bcrypt_compare (env w) (signin_password ann_signin)
                    (u_password_hash ann) = true
  /\ u_is_active ann = true
  /\ fst (LegacyAuth.signIn ann_signin w)
     = Value (Failure "TypeError: Failed to fetch").
Proof.
  cbv zeta. repeat split; try reflexivity. left. reflexivity.
Qed.

(* ===================================================================== *)
(** ** tradingSignalService: the subscription gate *)
(* ===================================================================== *)

Import TradingSignalService.

Lemma truthy_nonempty (userId : string) :
  userId <> "" -> truthy (Some userId) = true.
Proof.
  intros H. unfold truthy. apply negb_true_iff. apply String.eqb_neq. exact H.
Qed.

Lemma getActiveSignals_denied userId w :
  userId <> "" -> active_subscriptions userId w = [] ->
  getActiveSignals (Some userId) w
  = (Value (Failure "No active subscription"), tick w).
Proof.
  intros Hne Hnone. unfold getActiveSignals.
  rewrite (truthy_nonempty Hne). js_unfold.
  unfold exec_select_active_subscription. cbn [fst snd].
  unfold active_subscriptions, subscriptions_of in Hnone. rewrite Hnone.
  js_fault; reflexivity.
Qed.

Lemma getSignalsByType_denied signalType userId w :
  userId <> "" -> active_subscriptions userId w = [] ->
  getSignalsByType signalType (Some userId) w
  = (Value (Failure "No active subscription"), tick w).
Proof.
  intros Hne Hnone. unfold getSignalsByType.
  rewrite (truthy_nonempty Hne). js_unfold.
  unfold exec_select_active_subscription. cbn [fst snd].
  unfold active_subscriptions, subscriptions_of in Hnone. rewrite Hnone.
  js_fault; reflexivity.
Qed.

Lemma checkUserSignalAccess_answer userId w :
  fst (checkUserSignalAccess userId w) = Value (access_answer userId w).
Proof.
  unfold checkUserSignalAccess, access_answer. js_unfold.
  unfold exec_select_active_subscription, active_subscriptions,
         subscriptions_of. cbn [fst snd].
  js_fault; [reflexivity|].
  destruct (filter (is_active_subscription_of userId)
                   (user_subscriptions (db w))) as [|sub [|sub2 rest]];
    cbn [maybeSingle]; try reflexivity.
  js_unfold.
  destruct (Date_of_column (s_expires_at sub) <? clock_at (env w) (S (ticks w)));
    reflexivity.
Qed.

(** C1, as the code has it.  For every non-empty userId passed to
    getActiveSignals or getSignalsByType, if no user_subscriptions row with
    status active exists for that user, the call returns success:false with
    error "No active subscription", returns no signals and leaves the
    database as it was.  checkUserSignalAccess(userId) returns hasAccess:true
    exactly when its lookup reports no error and finds one active
    subscription -- the user's only one -- whose expires_at (a NULL reads as
    the epoch) is not earlier than the current time.  When the lookup finds
    none, the message is "No active subscription found"; when the one found
    has expired, "Subscription has expired"; when the lookup reports an
    error -- the request failed, or the user has several active rows --
    hasAccess is false and the result carries the error's message as
    [error], and no [message]. *)
Theorem signal_access_requires_subscription :
  (forall userId w,
      userId <> "" -> active_subscriptions userId w = [] ->
      getActiveSignals (Some userId) w
      = (Value (Failure "No active subscription"), tick w)
      /\ forall signalType,
          getSignalsByType signalType (Some userId) w
          = (Value (Failure "No active subscription"), tick w))
  /\ (forall userId w,
        let answer := fst (checkUserSignalAccess userId w) in
        let now := clock_at (env w) (S (ticks w)) in
        (grants_access answer = true <->
         fault_at (env w) (ticks w) = None
         /\ exists sub, active_subscriptions userId w = [sub]
                        /\ now <= Date_of_column (s_expires_at sub))
        /\ (fault_at (env w) (ticks w) = None ->
            active_subscriptions userId w = [] ->
            answer = Value (mkAccessResult false false
                              (Some "No active subscription found") None None))
        /\ (forall sub,
              fault_at (env w) (ticks w) = None ->
              active_subscriptions userId w = [sub] ->
              Date_of_column (s_expires_at sub) < now ->
              answer = Value (mkAccessResult false false
                                (Some "Subscription has expired") None None))
        /\ (forall sub,
              fault_at (env w) (ticks w) = None ->
              active_subscriptions userId w = [sub] ->
              now <= Date_of_column (s_expires_at sub) ->
              answer = Value (mkAccessResult true true None (Some sub) None))
        /\ (forall s1 s2 rest,
              fault_at (env w) (ticks w) = None ->
              active_subscriptions userId w = s1 :: s2 :: rest ->
              answer = Value (mkAccessResult false false None None
                                (Some multiple_rows)))
        /\ (forall m,
              fault_at (env w) (ticks w) = Some m ->
              answer = Value (mkAccessResult false false None None (Some m)))).
Proof.
  split.
  - intros userId w Hne Hnone. split.
    + apply getActiveSignals_denied; assumption.
    + intros signalType. apply getSignalsByType_denied; assumption.
  - intros userId w. cbv zeta.
    rewrite checkUserSignalAccess_answer. unfold access_answer.
    repeat split.
    + destruct (fault_at (env w) (ticks w)); [discriminate|reflexivity].
    + destruct (fault_at (env w) (ticks w)); [discriminate|].
      destruct (active_subscriptions userId w) as [|sub [|s2 rest]];
        try discriminate.
      exists sub. split; [reflexivity|].
      destruct (Z.ltb_spec (Date_of_column (s_expires_at sub))
                           (clock_at (env w) (S (ticks w))));
        [discriminate | assumption].
    + intros [F [sub [Hs Hle]]]. rewrite F, Hs.
      destruct (Z.ltb_spec (Date_of_column (s_expires_at sub))
                           (clock_at (env w) (S (ticks w))));
        [lia | reflexivity].
    + intros F Hs. rewrite F, Hs. reflexivity.
    + intros sub F Hs Hlt. rewrite F, Hs.
      destruct (Z.ltb_spec (Date_of_column (s_expires_at sub))
                           (clock_at (env w) (S (ticks w))));
        [reflexivity | lia].
    + intros sub F Hs Hle. rewrite F, Hs.
      destruct (Z.ltb_spec (Date_of_column (s_expires_at sub))
                           (clock_at (env w) (S (ticks w))));
        [lia | reflexivity].
    + intros s1 s2 rest F Hs. rewrite F, Hs. reflexivity.
    + intros m F. rewrite F. reflexivity.
Qed.

Lemma signal_access_requires_subscription_witness :
  getActiveSignals (Some "u-ann") base_world
  = (Value (Failure "No active subscription"), tick base_world)
  /\ fst (checkUserSignalAccess "u-ann"
            (world_with_subscriptions [ann_pro] quiet_env))
     = Value (mkAccessResult true true None (Some ann_pro) None).
Proof.
  split.
  - apply (proj1 signal_access_requires_subscription "u-ann" base_world);
      [discriminate | reflexivity].
  - apply (proj2 signal_access_requires_subscription "u-ann"
                 (world_with_subscriptions [ann_pro] quiet_env));
      [reflexivity | reflexivity | simpl; lia].
Defined.

(** C1 as stated fails in three places.  The empty string is a userId for
    which no active subscription exists, and both signal queries skip the
    check for it and return the signals.  With two active, unexpired
    subscriptions of Ann, checkUserSignalAccess answers hasAccess:false; and
    so it does with her single active subscription when the lookup fails.
    In both cases the result has no [message] at all: it carries [error]. *)
Lemma signal_access_counterexample :
  let now := clock_at quiet_env 1 in
  (active_subscriptions "" base_world = []
   /\ fst (getActiveSignals (Some "") base_world)
      = Value (Success [btc_long])
   /\ fst (getSignalsByType crypto (Some "") base_world)
      = Value (Success [btc_long]))
  /\ (unexpired_subscription_exists "u-ann" now
        (world_with_subscriptions [ann_pro; ann_enterprise] quiet_env) = true
      /\ fst (checkUserSignalAccess "u-ann"
                (world_with_subscriptions [ann_pro; ann_enterprise] quiet_env))
         = Value (mkAccessResult false false None None (Some multiple_rows)))
  /\ (unexpired_subscription_exists "u-ann" now
        (world_with_subscriptions [ann_pro] (failing_at 0 fetch_failed)) = true
      /\ fst (checkUserSignalAccess "u-ann"
                (world_with_subscriptions [ann_pro]
                   (failing_at 0 fetch_failed)))
         = Value (mkAccessResult false false None None (Some fetch_failed))).
Proof.
  cbv zeta. repeat split; vm_compute; reflexivity.
Qed.

(* ===================================================================== *)
(** ** tradingSignalService.trackSignalView *)
(* ===================================================================== *)

Lemma existsb_false_filter {A} (f : A -> bool) (l : list A) :
  existsb f l = false -> filter f l = [].
Proof.
  induction l as [|x l IH]; simpl; [reflexivity|].
  destruct (f x); simpl; [discriminate | exact IH].
Qed.

Lemma existsb_true_filter {A} (f : A -> bool) (l : list A) :
  existsb f l = true -> (1 <= length (filter f l))%nat.
Proof.
  induction l as [|x l IH]; simpl; [discriminate|].
  destruct (f x); simpl; [lia | exact IH].
Qed.

Lemma duplicate_is_swallowed (constraint : string) :
  includes (unique_violation constraint) "duplicate" = true.
Proof. reflexivity. Qed.

(** A view that is already recorded: the insert violates the UNIQUE
    constraint, the error is swallowed and the table stays as it is. *)
Lemma trackSignalView_recorded userId signalId w :
  fault_at (env w) (S (ticks w)) = None ->
  existsb (same_view userId signalId) (user_signal_access (db w)) = true ->
  trackSignalView userId signalId w
  = (Value (Success tt), mkWorld (db w) (env w) (S (S (ticks w)))).
Proof.
  intros F Hseen. unfold trackSignalView. js_unfold. rewrite F.
  unfold exec_insert_signal_access. cbn [a_user_id a_signal_id fst snd].
  rewrite Hseen. cbn [fst snd]. rewrite duplicate_is_swallowed.
  reflexivity.
Qed.

(** A call whose insert reached the database and that returned success has
    left the pair in the table. *)
Lemma trackSignalView_records userId signalId w w1 :
  fault_at (env w) (S (ticks w)) = None ->
  trackSignalView userId signalId w = (Value (Success tt), w1) ->
  env w1 = env w /\ ticks w1 = S (S (ticks w))
  /\ existsb (same_view userId signalId) (user_signal_access (db w1)) = true
  /\ (count_views userId signalId w1
      = if existsb (same_view userId signalId) (user_signal_access (db w))
        then count_views userId signalId w
        else 1)%nat.
Proof.
  intros F. unfold trackSignalView, count_views. js_unfold. rewrite F.
  unfold exec_insert_signal_access. cbn [a_user_id a_signal_id fst snd].
  destruct (existsb (same_view userId signalId) (user_signal_access (db w)))
    eqn:Hseen; cbn [fst snd].
  - rewrite duplicate_is_swallowed. cbn [negb].
    intros E. inversion E; subst; cbn [db env ticks]. auto.
  - destruct (negb (user_exists (db w) userId)); cbn [fst snd];
      [cbn; discriminate|].
    destruct (negb (signal_exists (db w) signalId)); cbn [fst snd];
      [cbn; discriminate|].
    intros E. inversion E; subst; cbn [db env ticks user_signal_access
                                         with_user_signal_access].
    rewrite existsb_app, filter_app, (existsb_false_filter _ _ Hseen).
    cbn. unfold same_view. cbn. rewrite !String.eqb_refl. cbn.
    rewrite ?orb_true_r. auto.
Qed.

(** C10. trackSignalView(userId, signalId) is idempotent at its interface:
    once a call has recorded the pair and returned success:true, a second
    call with the same pair -- whose insert violates UNIQUE(user_id,
    signal_id), an error with "duplicate" in its message, which is swallowed
    -- still returns success:true and leaves user_signal_access unchanged,
    with exactly one row for the pair. *)
Theorem trackSignalView_idempotent userId signalId w w1 :
  (count_views userId signalId w <= 1)%nat ->
  fault_at (env w) (S (ticks w)) = None ->
  fault_at (env w) (S (S (S (ticks w)))) = None ->
  trackSignalView userId signalId w = (Value (Success tt), w1) ->
  exists w2,
    trackSignalView userId signalId w1 = (Value (Success tt), w2)
    /\ user_signal_access (db w2) = user_signal_access (db w1)
    /\ count_views userId signalId w2 = 1%nat.
Proof.
  intros Hunique F1 F2 Hfirst.
  destruct (trackSignalView_records _ _ _ F1 Hfirst)
    as [He [Ht [Hseen Hcount]]].
  assert (F2' : fault_at (env w1) (S (ticks w1)) = None)
    by (rewrite He, Ht; exact F2).
  eexists. split; [apply trackSignalView_recorded; assumption|].
  split; [reflexivity|].
  unfold count_views in *. cbn [db].
  destruct (existsb (same_view userId signalId) (user_signal_access (db w)))
    eqn:Hbefore; [|exact Hcount].
  apply existsb_true_filter in Hbefore. lia.
Qed.

Lemma trackSignalView_idempotent_witness :
  exists w2,
    trackSignalView "u-ann" "sig-1"
      (snd (trackSignalView "u-ann" "sig-1" base_world))
    = (Value (Success tt), w2)
    /\ user_signal_access (db w2)
       = user_signal_access
           (db (snd (trackSignalView "u-ann" "sig-1" base_world)))
    /\ count_views "u-ann" "sig-1" w2 = 1%nat.
Proof.
  apply (@trackSignalView_idempotent "u-ann" "sig-1" base_world
           (snd (trackSignalView "u-ann" "sig-1" base_world))).
  - vm_compute. lia.
  - reflexivity.
  - reflexivity.
  - reflexivity.
Defined.

(* ===================================================================== *)
(** ** purchaseService.activateSubscription *)
(* ===================================================================== *)

Import PurchaseService.

(** The world [activateSubscription] leaves when its update goes through. *)
Lemma activateSubscription_run userId planType w :
  fault_at (env w) (S (S (ticks w))) = None ->
  activateSubscription userId planType w
  = (Value (Success tt),
     mkWorld
       (with_user_subscriptions (db w)
          (map (fun s =>
                  if subscription_matches userId planType s
                  then activate_row
                         (clock_at (env w) (S (ticks w)))
                         (JsDate.addMonths (LocalTZA (env w))
                            (clock_at (env w) (ticks w))
                            (months_of planType)) s
                  else s)
               (user_subscriptions (db w))))
       (env w) (S (S (S (ticks w))))).
Proof.
  intros F. unfold activateSubscription. js_unfold. rewrite F.
  reflexivity.
Qed.

Lemma activateSubscription_failed userId planType w m :
  fault_at (env w) (S (S (ticks w))) = Some m ->
  activateSubscription userId planType w
  = (Value (Failure m), mkWorld (db w) (env w) (S (S (S (ticks w))))).
Proof.
  intros F. unfold activateSubscription. js_unfold. rewrite F.
  reflexivity.
Qed.

(** [setMonth] carries a day the target month does not have into the next
    month: one month after 31 January 2026 is 3 March 2026. *)
Example one_month_after_15_January :
  JsDate.addMonths JsDate.utc_zone 1768435200000 1 = 1771113600000.
Proof. reflexivity. Qed.

Example one_month_after_31_January :
  JsDate.addMonths JsDate.utc_zone 1769817600000 1 = 1772496000000.
Proof. reflexivity. Qed.

Example three_months_after_15_November :
  JsDate.civil_from_days
    (JsDate.Day (JsDate.addMonths JsDate.utc_zone 1794700800000 3))
  = (2027, 2, 15).
Proof. reflexivity. Qed.



(* ===================================================================== *)
(** ** The trigger [notify_admin_on_purchase] *)
(* ===================================================================== *)

(** An accepted insert into [purchases] stores the row and runs the
    trigger on it. *)
Lemma insert_into_purchases_accepted NEW d p d' :
  insert_into_purchases NEW d = (Data p, d') ->
  p = NEW /\ user_exists d (pu_user_id NEW) = true
  /\ d' = notify_admin_on_purchase NEW
            (with_purchases d (purchases d ++ [NEW])).
Proof.
  unfold insert_into_purchases.
  destruct (negb (fits_decimal_10_2 (pu_amount NEW))); [discriminate|].
  destruct (existsb _ (purchases d)); [discriminate|].
  destruct (user_exists d (pu_user_id NEW)); [|discriminate].
  cbn [negb]. intros E. inversion E. auto.
Qed.

(** C5. [users.id] is the primary key.  For every row p inserted into
    purchases whose user_id matches an existing users row u, the trigger
    notify_admin_on_purchase inserts exactly one admin_notifications row:
    its notification_type is purchase, its related_user_id is p.user_id,
    its related_purchase_id is p.id, and its metadata holds u's email, u's
    first and last name, p.plan_name, p.amount and p.payment_method. *)
Theorem purchase_insert_notifies_admin_once d p d' u :
  NoDup (map u_id (users d)) ->
  insert_into_purchases p d = (Data p, d') ->
  In u (users d) ->
  u_id u = pu_user_id p ->
  In p (purchases d')
  /\ exists n,
      admin_notifications d' = (admin_notifications d ++ [n])%list
      /\ n_notification_type n = notify_purchase
      /\ n_related_user_id n = Some (pu_user_id p)
      /\ n_related_purchase_id n = Some (pu_id p)
      /\ n_metadata n
         = [ ("user_email", JText (u_email u));
             ("user_name", JText (u_first_name u ++ " " ++ u_last_name u));
             ("plan_name", JText (pu_plan_name p));
             ("amount", JNumeric (pu_amount p));
             ("payment_method",
              JText (payment_method_text (pu_payment_method p))) ].
Proof.
  intros Hkey Hinsert Hin Hid.
  destruct (insert_into_purchases_accepted _ _ Hinsert) as [_ [_ ->]].
  unfold notify_admin_on_purchase.
  cbn [admin_notifications purchases users with_admin_notifications
       with_purchases].
  split; [apply in_or_app; right; left; reflexivity|].
  rewrite (@filter_key_unique _ u_id (users d) (pu_user_id p) u Hkey Hin Hid).
  exists (purchase_notification p u). repeat split.
Qed.

Lemma purchase_insert_notifies_admin_once_witness :
  exists n,
    admin_notifications (snd (insert_into_purchases ann_purchase base_database))
    = [n]
    /\ n_notification_type n = notify_purchase
    /\ n_related_user_id n = Some "u-ann"
    /\ n_related_purchase_id n = Some "p-1"
    /\ n_title n = "New Purchase: Pro"
    /\ n_message n = "User ann@example.com purchased Pro for $199.00".
Proof.
  destruct (@purchase_insert_notifies_admin_once base_database ann_purchase
              (snd (insert_into_purchases ann_purchase base_database)) ann)
    as [_ [n [Hn [Ht [Hu [Hp _]]]]]].
  - repeat constructor; simpl; tauto.
  - reflexivity.
  - left; reflexivity.
  - reflexivity.
  - exists n. repeat split; try assumption;
      cbn in Hn; inversion Hn; reflexivity.
Defined.

(** Without a [users] row for the buyer the trigger would notify nobody;
    the foreign key on [purchases.user_id] keeps such a purchase out. *)
Lemma purchase_of_unknown_user_rejected NEW d :
  user_exists d (pu_user_id NEW) = false ->
  snd (insert_into_purchases NEW d) = d.
Proof.
  intros H. unfold insert_into_purchases. rewrite H. cbn [negb].
  split_ifs; reflexivity.
Qed.

(* ===================================================================== *)
(** ** purchaseService.processPurchaseAndNotify *)
(* ===================================================================== *)

(** [createPurchase] fails without a trace in the database, or returns
    the row it stored. *)
Lemma createPurchase_cases data w :
  (exists e, createPurchase data w
             = (Value (Failure e),
                mkWorld (db w) (env w) (S (S (ticks w)))))
  \/ (exists p w1, createPurchase data w = (Value (Success p), w1)
                   /\ In p (purchases (db w1))
                   /\ pu_user_id p = userId data
                   /\ subscriptions_of w1 = subscriptions_of w).
Proof.
  unfold createPurchase. js_unfold.
  js_fault; [left; eexists; reflexivity|].
  unfold exec_insert_purchase.
  match goal with
  | |- context [insert_into_purchases ?NEW ?d] =>
      pose proof (insert_into_purchases_subscriptions NEW d) as Hsubs;
      pose proof (@insert_into_purchases_accepted NEW d) as Hacc;
      pose proof (@purchase_of_unknown_user_rejected NEW d) as Hrej;
      destruct (insert_into_purchases NEW d) as [[p|e] d'] eqn:E
  end; cbn [fst snd] in *.
  - right. destruct (Hacc p d' eq_refl) as [-> [_ Hd]].
    do 2 eexists. split; [reflexivity|]. cbn [db].
    repeat split; [|exact Hsubs].
    rewrite Hd. unfold notify_admin_on_purchase.
    cbn [purchases with_admin_notifications with_purchases].
    apply in_or_app. right. left. reflexivity.
  - left. exists e.
    assert (Hd : d' = db w).
    { revert E. unfold insert_into_purchases.
      split_ifs; intros E; inversion E; reflexivity. }
    rewrite Hd. reflexivity.
Qed.

Lemma activateSubscription_returns userId planType w :
  exists reply w', activateSubscription userId planType w = (Value reply, w').
Proof.
  destruct (fault_at (env w) (S (S (ticks w)))) as [m|] eqn:F.
  - rewrite (activateSubscription_failed _ _ _ F). eauto.
  - rewrite (activateSubscription_run _ _ _ F). eauto.
Qed.

Section Flow.
Variable sendPaymentSuccessEmail :
  string -> string -> decimal -> string -> string -> string ->
  list string -> Js unit.

(** The email call of the flow, with the arguments the flow gives it. *)
Let send_email (data : NotifyData) : Js unit :=
  sendPaymentSuccessEmail
    (userEmail data) (userName data) (amount data) (planName data)
    (transaction_label (transactionId data)) (userId data)
    (notify_features data).

(** The flow, step by step: whatever [createPurchase] and the email call
    do. *)
Lemma processPurchaseAndNotify_run (data : NotifyData) w :
  processPurchaseAndNotify sendPaymentSuccessEmail data w
  = match createPurchase data w with
    | (Value (Failure e), w1) => (Value (Failure e), w1)
    | (Value (Success purchase), w1) =>
        match send_email data
                (snd (activateSubscription (userId data) (planType data) w1))
        with
        | (Value _, w3) => (Value (Success purchase), w3)
        | (Thrown m, w3) => (Value (Failure m), w3)
        end
    | (Thrown m, w1) => (Value (Failure m), w1)
    end.
Proof.
  unfold processPurchaseAndNotify, send_email, try_catch, bind at 1.
  destruct (createPurchase data w) as [[[p|e]|m] w1]; try reflexivity.
  unfold bind.
  destruct (activateSubscription_returns (userId data) (planType data) w1)
    as [reply [w2 E]].
  rewrite E. cbn [snd].
  destruct (sendPaymentSuccessEmail _ _ _ _ _ _ _ w2) as [[[]|m] w3];
    reflexivity.
Qed.

End Flow.


(* ===================================================================== *)
(** ** Reachable states: where active subscriptions come from *)
(* ===================================================================== *)

(** Functions that only read leave the subscriptions alone. *)
Ltac js_read_only :=
  unfold subscriptions_of; js_unfold;
  unfold exec_select_user_by_email, exec_select_profile,
         exec_select_active_subscription, exec_select_active_signals,
         exec_select_signals_by_type;
  cbn [fst snd];
  repeat (first
            [ js_fault
            | progress js_unfold
            | match goal with
              | |- context [match maybeSingle ?l with _ => _ end] =>
                  destruct (maybeSingle l) as [[?|]|?]
              | |- context [if ?b then _ else _] => destruct b
              end ]);
  try reflexivity.

Lemma signIn_subscriptions data w :
  subscriptions_of (snd (LegacyAuth.signIn data w)) = subscriptions_of w.
Proof.
  unfold LegacyAuth.signIn. js_read_only.
Qed.

Lemma getActiveSignals_subscriptions userId w :
  subscriptions_of (snd (getActiveSignals userId w)) = subscriptions_of w.
Proof.
  unfold getActiveSignals, fetch_active_signals.
  destruct userId as [uid|]; [destruct (truthy (Some uid))|];
    js_read_only.
Qed.

Lemma getSignalsByType_subscriptions signalType userId w :
  subscriptions_of (snd (getSignalsByType signalType userId w))
  = subscriptions_of w.
Proof.
  unfold getSignalsByType, fetch_signals_by_type.
  destruct userId as [uid|]; [destruct (truthy (Some uid))|];
    js_read_only.
Qed.

Lemma checkUserSignalAccess_subscriptions userId w :
  subscriptions_of (snd (checkUserSignalAccess userId w)) = subscriptions_of w.
Proof.
  unfold checkUserSignalAccess. js_read_only.
Qed.

Lemma trackSignalView_subscriptions userId signalId w :
  subscriptions_of (snd (trackSignalView userId signalId w))
  = subscriptions_of w.
Proof.
  unfold trackSignalView, subscriptions_of. js_unfold.
  js_fault; [destruct (negb (includes s "duplicate")); reflexivity|].
  match goal with
  | |- context [exec_insert_signal_access ?row ?u ?d] =>
      pose proof (exec_insert_signal_access_subscriptions row u d) as H;
      destruct (exec_insert_signal_access row u d) as [[[]|m] d']
  end; cbn [fst snd] in *; [exact H|].
  destruct (negb (includes m "duplicate")); exact H.
Qed.

Lemma createPurchase_subscriptions data w :
  subscriptions_of (snd (createPurchase data w)) = subscriptions_of w.
Proof.
  destruct (createPurchase_cases data w) as [[e E]|[p [w1 [E [_ [_ H]]]]]];
    rewrite E; [reflexivity | exact H].
Qed.

(** *** How one step explains the active rows *)

Lemma explained_unchanged before after act :
  after = before -> active_rows_explained before after act.
Proof.
  intros -> i s Hs Ha. exists s. auto.
Qed.

Lemma explained_pending_appended before row act :
  s_status row = pending ->
  active_rows_explained before (before ++ [row]) act.
Proof.
  intros Hrow i s Hs Ha.
  destruct (Nat.lt_ge_cases i (length before)) as [Hlt|Hge].
  - rewrite nth_error_app1 in Hs by exact Hlt. exists s. auto.
  - rewrite nth_error_app2 in Hs by exact Hge.
    destruct (i - length before)%nat as [|k]; simpl in Hs.
    + inversion Hs; subst. rewrite Hrow in Ha. discriminate.
    + destruct k; discriminate.
Qed.

Lemma explained_activation before userId planType started expires :
  active_rows_explained before
    (map (fun s => if subscription_matches userId planType s
                   then activate_row started expires s else s) before)
    (Some (userId, planType)).
Proof.
  intros i s Hs Ha. rewrite nth_error_map in Hs.
  destruct (nth_error before i) as [s0|] eqn:H0; [|discriminate].
  cbn in Hs. inversion Hs as [Hs']. clear Hs.
  exists s0. split; [reflexivity|].
  destruct (subscription_matches userId planType s0) eqn:M.
  - cbn. unfold subscription_matches in M.
    apply andb_true_iff in M. destruct M as [Mu Mp].
    apply String.eqb_eq in Mu, Mp. subst userId planType.
    repeat split. right. reflexivity.
  - subst s. auto.
Qed.

Lemma activateSubscription_explained userId planType w :
  active_rows_explained (subscriptions_of w)
    (subscriptions_of (snd (activateSubscription userId planType w)))
    (Some (userId, planType)).
Proof.
  destruct (fault_at (env w) (S (S (ticks w)))) as [m|] eqn:F.
  - rewrite (activateSubscription_failed _ _ _ F).
    apply explained_unchanged. reflexivity.
  - rewrite (activateSubscription_run _ _ _ F).
    apply explained_activation.
Qed.

Section Reachable.
Variable sendPaymentSuccessEmail :
  string -> string -> decimal -> string -> string -> string ->
  list string -> Js unit.

(** The email service does not write to [user_subscriptions]. *)
Hypothesis email_keeps_subscriptions :
  forall to_email to_name amount plan_name transaction user_id plan_features w,
    subscriptions_of
      (snd (sendPaymentSuccessEmail to_email to_name amount plan_name
              transaction user_id plan_features w))
    = subscriptions_of w.

Lemma processPurchaseAndNotify_explained (data : NotifyData) w :
  active_rows_explained (subscriptions_of w)
    (subscriptions_of
       (snd (processPurchaseAndNotify sendPaymentSuccessEmail data w)))
    (Some (userId data, planType data)).
Proof.
  rewrite processPurchaseAndNotify_run.
  destruct (createPurchase_cases data w)
    as [[e E] | [p [w1 [E [_ [_ Hsubs]]]]]]; rewrite E.
  - apply explained_unchanged. reflexivity.
  - pose proof (activateSubscription_explained (userId data)
                  (planType data) w1) as Hact.
    rewrite Hsubs in Hact.
    match goal with
    | |- context [sendPaymentSuccessEmail ?a ?b ?c ?d ?e ?f ?g ?w2] =>
        pose proof (email_keeps_subscriptions a b c d e f g w2) as Hsend;
        destruct (sendPaymentSuccessEmail a b c d e f g w2) as [[[]|m] w3]
    end; cbn [snd] in *; rewrite Hsend; exact Hact.
Qed.

Lemma perform_explained c w :
  active_rows_explained (subscriptions_of w)
    (subscriptions_of (perform sendPaymentSuccessEmail c w))
    (activation c).
Proof.
  destruct c; cbn [perform activation].
  - destruct (LegacyAuth_signUp_cases data w)
      as [o [w' [E [_ [[_ H] | [p [u [_ [_ [_ H]]]]]]]]]];
      rewrite E; cbn [snd]; rewrite H.
    + apply explained_unchanged. reflexivity.
    + apply explained_pending_appended. reflexivity.
  - apply explained_unchanged. apply signIn_subscriptions.
  - destruct (ProviderAuth_signUp_cases data w) as [m [w' [E [_ H]]]].
    rewrite E. apply explained_unchanged. exact H.
  - apply explained_unchanged. apply createPurchase_subscriptions.
  - apply activateSubscription_explained.
  - apply processPurchaseAndNotify_explained.
  - apply explained_unchanged. apply getActiveSignals_subscriptions.
  - apply explained_unchanged. apply getSignalsByType_subscriptions.
  - apply explained_unchanged. apply trackSignalView_subscriptions.
  - apply explained_unchanged. apply checkUserSignalAccess_subscriptions.
Qed.

Lemma run_snoc calls c w :
  run sendPaymentSuccessEmail (calls ++ [c]) w
  = perform sendPaymentSuccessEmail c
      (run sendPaymentSuccessEmail calls w).
Proof. unfold run. rewrite fold_left_app. reflexivity. Qed.

(** In a state reached from one without active subscriptions, every
    active row sits where a row of the same user and plan type sat when
    an earlier call activated that user and plan type. *)
Lemma active_rows_were_activated calls w0 :
  (forall s, In s (subscriptions_of w0) -> s_status s <> active) ->
  forall i s,
    nth_error (subscriptions_of (run sendPaymentSuccessEmail calls w0)) i
    = Some s ->
    s_status s = active ->
    exists before c after s0,
      calls = (before ++ c :: after)%list
      /\ activation c = Some (s_user_id s, s_plan_type s)
      /\ nth_error
           (subscriptions_of (run sendPaymentSuccessEmail before w0)) i
         = Some s0
      /\ s_user_id s0 = s_user_id s
      /\ s_plan_type s0 = s_plan_type s.
Proof.
  intros Hinit.
  induction calls as [|c calls IH] using rev_ind; intros i s Hs Ha.
  - exfalso. apply (Hinit s); [|exact Ha].
    apply nth_error_In with i. exact Hs.
  - rewrite run_snoc in Hs.
    pose proof (perform_explained c
                  (run sendPaymentSuccessEmail calls w0)) as Hstep.
    destruct (Hstep i s Hs Ha) as [s0 [H0 [Hu [Hp [Hwas | Hact]]]]].
    + destruct (IH i s0 H0 Hwas)
        as [before [c0 [after [s00 [-> [Hc0 [H00 [Hu0 Hp0]]]]]]]].
      exists before, c0, (after ++ [c])%list, s00.
      rewrite <- app_assoc. cbn [app].
      repeat split; congruence.
    + exists calls, c, [], s0. repeat split; assumption.
Qed.
End Reachable.

(** C7. Every user_subscriptions row inserted by signUp has status pending,
    with plan_name, price, period and features those of getPlanDetails of
    the requested plan_type: the legacy signUp leaves the table as it was or
    appends exactly such a row, for the user it created; the provider
    signUp never changes the table.  And in every state reached by calls of
    the services from a state without active subscriptions, a row is active
    only after activateSubscription has been applied to it: an earlier call
    made activateSubscription(user_id, plan_type) for the row's user and
    plan type when the row was already in the table. *)
Theorem subscriptions_start_pending_until_activated :
  (forall data w,
      subscriptions_of (snd (LegacyAuth.signUp data w)) = subscriptions_of w
      \/ exists p u,
          fst (LegacyAuth.signUp data w) = Value (Success u)
          /\ LegacyAuth.getPlanDetails (plan_type data) = OwnPlan p
          /\ subscriptions_of (snd (LegacyAuth.signUp data w))
             = (subscriptions_of w
                ++ [mkUserSubscription (su_id u) (plan_type data) (name p)
                      (decimal_of_int (price p)) (period p) pending
                      (features p) None None])%list)
  /\ (forall data w,
        subscriptions_of (snd (ProviderAuth.signUp data w))
        = subscriptions_of w)
  /\ (forall sendPaymentSuccessEmail,
        (forall to_email to_name amount plan_name transaction user_id
                plan_features w,
            subscriptions_of
              (snd (sendPaymentSuccessEmail to_email to_name amount plan_name
                      transaction user_id plan_features w))
            = subscriptions_of w) ->
        forall calls w0,
          (forall s, In s (subscriptions_of w0) -> s_status s <> active) ->
          forall i s,
            nth_error
              (subscriptions_of (run sendPaymentSuccessEmail calls w0)) i
            = Some s ->
            s_status s = active ->
            exists before c after s0,
              calls = (before ++ c :: after)%list
              /\ activation c = Some (s_user_id s, s_plan_type s)
              /\ nth_error
                   (subscriptions_of
                      (run sendPaymentSuccessEmail before w0)) i
                 = Some s0
              /\ s_user_id s0 = s_user_id s
              /\ s_plan_type s0 = s_plan_type s).
Proof.
  split; [|split].
  - intros data w.
    destruct (LegacyAuth_signUp_cases data w)
      as [o [w' [E [_ [[_ H] | [p [u [Ho [_ [Hp H]]]]]]]]]]; rewrite E;
      cbn [fst snd].
    + left. exact H.
    + right. exists p, u. subst o. auto.
  - intros data w.
    destruct (ProviderAuth_signUp_cases data w) as [m [w' [E [_ H]]]].
    rewrite E. exact H.
  - intros send Hsend calls w0.
    apply active_rows_were_activated. exact Hsend.
Qed.

Lemma subscriptions_start_pending_until_activated_witness :
  subscriptions_of (run silent_email signup_then_activate fresh_world)
  = [ann_pro_activated]
  /\ exists before c after,
      signup_then_activate = (before ++ c :: after)%list
      /\ activation c = Some ("uuid-1", "pro").
Proof.
  split; [reflexivity|].
  destruct (proj2 (proj2 subscriptions_start_pending_until_activated)
              silent_email
              (fun _ _ _ _ _ _ _ _ => eq_refl)
              signup_then_activate fresh_world
              (fun s (H : In s []) => match H with end)
              0%nat ann_pro_activated eq_refl eq_refl)
    as [before [c [after [s0 [Hsplit [Hact _]]]]]].
  exists before, c, after. split; assumption.
Defined.

(* ===================================================================== *)
(** ** The row-security policy on [trading_signals] *)
(* ===================================================================== *)

(** The policy is stricter than the service check on the expiry instant
    and, unlike it, is satisfied by any one of several active rows: a user
    the policy admits at time [now] has an active subscription that has not
    expired at [now]. *)
Lemma policy_admits_only_unexpired w uid now :
  policy_subscribed_users_can_read_signals (db w) uid now = true ->
  unexpired_subscription_exists uid now w = true.
Proof.
  unfold policy_subscribed_users_can_read_signals,
         unexpired_subscription_exists, subscriptions_of.
  rewrite !existsb_exists. intros [s [Hin Hs]]. exists s. split; [exact Hin|].
  apply andb_true_iff in Hs. destruct Hs as [Ha He].
  rewrite Ha. cbn [andb].
  destruct (s_expires_at s) as [e|]; [|discriminate].
  apply Z.ltb_lt in He. apply Z.leb_le. lia.
Qed.

(* ===================================================================== *)
(** ** Listings: what the signal queries return *)
(* ===================================================================== *)

Lemma request_at_run {A}
    (exec : string -> Z -> Database -> Response A * Database) w :
  request_at exec w =
  match fault_at (env w) (ticks w) with
  | Some m => (Value (Error m), tick w)
  | None =>
      (Value (fst (exec (uuid_at (env w) (ticks w))
                        (clock_at (env w) (ticks w)) (db w))),
       mkWorld (snd (exec (uuid_at (env w) (ticks w))
                          (clock_at (env w) (ticks w)) (db w)))
               (env w) (S (ticks w)))
  end.
Proof.
  unfold request_at. destruct (fault_at (env w) (ticks w)); [reflexivity|].
  destruct (exec _ _ _); reflexivity.
Qed.

Lemma insert_newest_first_perm t l :
  Permutation (insert_newest_first t l) (t :: l).
Proof.
  induction l as [|x l IH]; simpl; [reflexivity|].
  destruct (t_created_at x <? t_created_at t); [reflexivity|].
  rewrite IH. apply perm_swap.
Qed.

Lemma newest_first_perm l : Permutation (newest_first l) l.
Proof.
  induction l as [|x l IH]; simpl; [reflexivity|].
  rewrite insert_newest_first_perm. constructor. exact IH.
Qed.

Lemma insert_newest_first_sorted t l :
  StronglySorted (fun a b => t_created_at b <= t_created_at a) l ->
  StronglySorted (fun a b => t_created_at b <= t_created_at a)
                 (insert_newest_first t l).
Proof.
  induction l as [|x l IH]; intros Hs; simpl.
  - constructor; constructor.
  - inversion Hs as [|? ? Hl Hx]; subst.
    destruct (Z.ltb_spec (t_created_at x) (t_created_at t)) as [Hlt|Hge].
    + constructor; [exact Hs|].
      constructor; [lia|].
      rewrite Forall_forall in *. intros y Hy. specialize (Hx y Hy). lia.
    + constructor; [apply IH; exact Hl|].
      rewrite Forall_forall in *. intros y Hy.
      apply (Permutation_in _ (insert_newest_first_perm t l)) in Hy.
      destruct Hy as [<-|Hy]; [lia | apply Hx; exact Hy].
Qed.

Lemma newest_first_sorted l :
  StronglySorted (fun a b => t_created_at b <= t_created_at a)
                 (newest_first l).
Proof.
  induction l as [|x l IH]; simpl; [constructor|].
  apply insert_newest_first_sorted. exact IH.
Qed.

Lemma newest_first_listed l : listed_newest_first (newest_first l) l.
Proof. split; [apply newest_first_perm | apply newest_first_sorted]. Qed.

Lemma passes_gate_run userId w (k : Js (Reply (list TradingSignal))) :
  passes_gate userId w ->
  match userId with
  | Some uid =>
      if truthy userId then
        bind (request (exec_select_active_subscription uid))
             (fun r => match data_of r with
                       | None => ret (Failure "No active subscription")
                       | Some _ => k
                       end)
      else k
  | None => k
  end w
  = k (mkWorld (db w) (env w) (signals_query_tick userId w)).
Proof.
  unfold passes_gate, signals_query_tick.
  destruct userId as [uid|]; [|intros _; destruct w; reflexivity].
  destruct (truthy (Some uid)); [|intros _; destruct w; reflexivity].
  intros H. destruct (H eq_refl) as [F [sub Hsub]].
  js_unfold. rewrite F.
  unfold exec_select_active_subscription. cbn [fst snd].
  unfold active_subscriptions, subscriptions_of in Hsub. rewrite Hsub.
  reflexivity.
Qed.

Lemma getActiveSignals_granted userId w :
  passes_gate userId w ->
  fault_at (env w) (signals_query_tick userId w) = None ->
  getActiveSignals userId w
  = (Value (Success (newest_first (active_signals w))),
     mkWorld (db w) (env w) (S (signals_query_tick userId w))).
Proof.
  intros Hgate F. unfold getActiveSignals, try_catch.
  rewrite (passes_gate_run userId w fetch_active_signals Hgate).
  unfold fetch_active_signals. js_unfold. rewrite F.
  reflexivity.
Qed.

(** X1. A caller that passes the subscription gate gets from
    getActiveSignals, when the query goes through, exactly the signals with
    status active, newest first, and the database is left as it was. *)
Theorem getActiveSignals_lists_active userId w :
  passes_gate userId w ->
  fault_at (env w) (signals_query_tick userId w) = None ->
  exists signals w',
    getActiveSignals userId w = (Value (Success signals), w')
    /\ listed_newest_first signals (active_signals w)
    /\ db w' = db w.
Proof.
  intros Hgate F. rewrite (getActiveSignals_granted userId w Hgate F).
  do 2 eexists. split; [reflexivity|].
  split; [apply newest_first_listed | reflexivity].
Qed.

(** X2. Likewise getSignalsByType returns exactly the active signals of the
    requested type, newest first. *)
Theorem getSignalsByType_lists_active_of_type signalType userId w :
  passes_gate userId w ->
  fault_at (env w) (signals_query_tick userId w) = None ->
  exists signals w',
    getSignalsByType signalType userId w = (Value (Success signals), w')
    /\ listed_newest_first signals (active_signals_of_type signalType w)
    /\ db w' = db w.
Proof.
  intros Hgate F. unfold getSignalsByType, try_catch.
  rewrite (passes_gate_run userId w (fetch_signals_by_type signalType) Hgate).
  unfold fetch_signals_by_type. js_unfold. rewrite F.
  unfold exec_select_signals_by_type. cbn [fst snd].
  do 2 eexists. split; [reflexivity|].
  split; [apply newest_first_listed | reflexivity].
Qed.

Lemma getActiveSignals_lists_active_witness :
  exists signals w',
    getActiveSignals (Some "u-ann")
      (world_with_subscriptions [ann_pro] quiet_env)
    = (Value (Success signals), w')
    /\ listed_newest_first signals
         (active_signals (world_with_subscriptions [ann_pro] quiet_env))
    /\ db w' = db (world_with_subscriptions [ann_pro] quiet_env).
Proof.
  apply (@getActiveSignals_lists_active (Some "u-ann")
           (world_with_subscriptions [ann_pro] quiet_env)).
  - intros _. split; [reflexivity | exists ann_pro; reflexivity].
  - reflexivity.
Defined.

Lemma getSignalsByType_lists_active_of_type_witness :
  exists signals w',
    getSignalsByType crypto None base_world = (Value (Success signals), w')
    /\ listed_newest_first signals (active_signals_of_type crypto base_world)
    /\ db w' = db base_world.
Proof.
  apply (@getSignalsByType_lists_active_of_type crypto None base_world).
  - exact I.
  - reflexivity.
Defined.

(** X3. For a non-empty userId the signal queries report "No active
    subscription" not only when the user has no active row: a subscription
    lookup that fails, and a user with several active rows, get the same
    answer, and no signal query is sent. *)
Theorem signal_queries_mask_lookup_errors userId w :
  userId <> "" ->
  (fault_at (env w) (ticks w) <> None
   \/ forall sub, active_subscriptions userId w <> [sub]) ->
  getActiveSignals (Some userId) w
  = (Value (Failure "No active subscription"), tick w)
  /\ forall signalType,
      getSignalsByType signalType (Some userId) w
      = (Value (Failure "No active subscription"), tick w).
Proof.
  intros Hne Hwhy.
  assert (Hdata : forall k : Js (Reply (list TradingSignal)),
             bind (request (exec_select_active_subscription userId))
               (fun r => match data_of r with
                         | None => ret (Failure "No active subscription")
                         | Some _ => k
                         end) w
             = (Value (Failure "No active subscription"), tick w)).
  { intros k. js_unfold.
    destruct (fault_at (env w) (ticks w)) as [m|] eqn:F; [reflexivity|].
    destruct Hwhy as [Hf|Hrows]; [congruence|].
    unfold exec_select_active_subscription. cbn [fst snd].
    unfold active_subscriptions, subscriptions_of in Hrows.
    destruct (filter (is_active_subscription_of userId)
                     (user_subscriptions (db w))) as [|s [|s2 rest]];
      try reflexivity.
    exfalso. apply (Hrows s). reflexivity. }
  split; [|intros signalType];
    unfold getActiveSignals, getSignalsByType, try_catch;
    rewrite (truthy_nonempty Hne), Hdata; reflexivity.
Qed.

Lemma signal_queries_mask_lookup_errors_witness :
  getActiveSignals (Some "u-ann")
    (world_with_subscriptions [ann_pro; ann_enterprise] quiet_env)
  = (Value (Failure "No active subscription"),
     tick (world_with_subscriptions [ann_pro; ann_enterprise] quiet_env))
  /\ getActiveSignals (Some "u-ann")
       (world_with_subscriptions [ann_pro] (failing_at 0 fetch_failed))
     = (Value (Failure "No active subscription"),
        tick (world_with_subscriptions [ann_pro] (failing_at 0 fetch_failed))).
Proof.
  split.
  - apply (@signal_queries_mask_lookup_errors "u-ann"
             (world_with_subscriptions [ann_pro; ann_enterprise] quiet_env));
      [discriminate | right; intros sub; discriminate].
  - apply (@signal_queries_mask_lookup_errors "u-ann"
             (world_with_subscriptions [ann_pro] (failing_at 0 fetch_failed)));
      [discriminate | left; discriminate].
Defined.



(* ===================================================================== *)
(** ** tradingSignalService: publishing and closing signals *)
(* ===================================================================== *)

Lemma createSignal_cases data w :
  (exists e, TradingSignalServiceMore.createSignal data w
             = (Value (Failure e), tick w))
  \/ (exists signal,
        TradingSignalServiceMore.createSignal data w
        = (Value (Success signal),
           mkWorld (with_trading_signals (db w)
                      (trading_signals (db w) ++ [signal]))
                   (env w) (S (ticks w)))
        /\ signal
           = mkTradingSignal (uuid_at (env w) (ticks w))
               (TradingSignalServiceMore.signalType data)
               (TradingSignalServiceMore.symbol data)
               (TradingSignalServiceMore.timeframe data)
               (TradingSignalServiceMore.direction data)
               (TradingSignalServiceMore.entryPrice data)
               (TradingSignalServiceMore.stopLoss data)
               (TradingSignalServiceMore.takeProfit data)
               signal_active (clock_at (env w) (ticks w))
        /\ confidence_ok (TradingSignalServiceMore.confidence data) = true
        /\ user_exists (db w) (TradingSignalServiceMore.createdBy data) = true
        /\ signal_exists (db w) (t_id signal) = false).
Proof.
  unfold TradingSignalServiceMore.createSignal.
  unfold try_catch, bind, ret, throw, or_throw. rewrite request_at_run.
  cbn [tick db env ticks fst snd].
  destruct (fault_at (env w) (ticks w)); [left; eexists; reflexivity|].
  unfold exec_insert_trading_signal.
  destruct (negb (fits_decimal_20_8 _ && fits_decimal_20_8 _));
    [left; eexists; destruct w; reflexivity|].
  destruct (confidence_ok _); cbn [negb];
    [|left; eexists; destruct w; reflexivity].
  destruct (signal_exists (db w) (uuid_at (env w) (ticks w))) eqn:Hfresh;
    [left; eexists; destruct w; reflexivity|].
  destruct (user_exists (db w) _) eqn:Hu; cbn [negb];
    [|left; eexists; destruct w; reflexivity].
  right. eexists. cbn [fst snd]. repeat split; assumption.
Qed.

(** X5. A signal createSignal reports as created is stored with status
    active under an id no other signal has, and every caller that passes
    the subscription gate afterwards finds it in getActiveSignals. *)
Theorem created_signal_is_listed data w signal w1 userId :
  TradingSignalServiceMore.createSignal data w = (Value (Success signal), w1) ->
  passes_gate userId w1 ->
  fault_at (env w1) (signals_query_tick userId w1) = None ->
  trading_signals (db w1) = (trading_signals (db w) ++ [signal])%list
  /\ t_status signal = signal_active
  /\ (forall t, In t (trading_signals (db w)) -> t_id t <> t_id signal)
  /\ exists signals w2,
      getActiveSignals userId w1 = (Value (Success signals), w2)
      /\ In signal signals.
Proof.
  intros Hcreate Hgate F.
  destruct (createSignal_cases data w)
    as [[e E] | [s [E [Hs [_ [_ Hfresh]]]]]];
    rewrite E in Hcreate; inversion Hcreate; subst signal w1.
  cbn [db trading_signals with_trading_signals].
  split; [reflexivity|]. split; [rewrite Hs; reflexivity|].
  split.
  - intros t Hin Hid. unfold signal_exists in Hfresh.
    assert (Hex : existsb (fun x => String.eqb (t_id x) (t_id s))
                          (trading_signals (db w)) = true)
      by (apply existsb_exists; exists t; split;
          [exact Hin | apply String.eqb_eq; exact Hid]).
    congruence.
  - rewrite (getActiveSignals_granted userId _ Hgate F).
    do 2 eexists. split; [reflexivity|].
    apply (Permutation_in _ (Permutation_sym (newest_first_perm _))).
    unfold active_signals. cbn [db trading_signals with_trading_signals].
    apply filter_In. split; [apply in_or_app; right; left; reflexivity|].
    rewrite Hs. reflexivity.
Qed.

Lemma created_signal_is_listed_witness :
  exists w1 signals w2,
    TradingSignalServiceMore.createSignal eth_short desk_world
    = (Value (Success eth_short_signal), w1)
    /\ getActiveSignals (Some "u-ann") w1 = (Value (Success signals), w2)
    /\ In eth_short_signal signals.
Proof.
  assert (E : TradingSignalServiceMore.createSignal eth_short desk_world
              = (Value (Success eth_short_signal),
                 snd (TradingSignalServiceMore.createSignal eth_short
                        desk_world)))
    by reflexivity.
  destruct (@created_signal_is_listed eth_short desk_world eth_short_signal _
              (Some "u-ann") E)
    as [_ [_ [_ [signals [w2 [Hrun Hin]]]]]].
  - intros _. split; [reflexivity | exists ann_pro; reflexivity].
  - reflexivity.
  - eexists. exists signals, w2. split; [exact E|].
    split; assumption.
Defined.



Lemma updateSignalStatus_run signalId status w :
  TradingSignalServiceMore.updateSignalStatus signalId status w
  = match fault_at (env w) (ticks w) with
    | Some m => (Value (Failure m), tick w)
    | None =>
        (Value (Success tt),
         mkWorld
           (with_trading_signals (db w)
              (map (fun t => if String.eqb (t_id t) signalId
                             then set_signal_status status t else t)
                   (trading_signals (db w))))
           (env w) (S (ticks w)))
    end.
Proof.
  unfold TradingSignalServiceMore.updateSignalStatus. js_unfold.
  js_fault; reflexivity.
Qed.

Lemma closed_signals_filtered signalId status table :
  status <> signal_active ->
  filter is_active_signal
    (map (fun t => if String.eqb (t_id t) signalId
                   then set_signal_status status t else t) table)
  = filter (fun t => negb (String.eqb (t_id t) signalId))
           (filter is_active_signal table).
Proof.
  intros Hstatus. induction table as [|t table IH]; [reflexivity|].
  cbn [map filter].
  destruct (String.eqb (t_id t) signalId) eqn:Hid.
  - assert (Hoff : is_active_signal (set_signal_status status t) = false)
      by (destruct status; [congruence | reflexivity | reflexivity]).
    rewrite Hoff, IH.
    destruct (is_active_signal t); [cbn [filter]; rewrite Hid|]; reflexivity.
  - rewrite IH.
    destruct (is_active_signal t); [cbn [filter]; rewrite Hid|]; reflexivity.
Qed.

(** X7. When its update reports no error, updateSignalStatus(signalId,
    status) with a status other than active takes the signal with that id
    out of the listing of active signals and leaves every other listed
    signal in, unchanged and in place; no other table is written. *)
Theorem closing_a_signal_unlists_it signalId status w :
  status <> signal_active ->
  fault_at (env w) (ticks w) = None ->
  exists w',
    TradingSignalServiceMore.updateSignalStatus signalId status w
    = (Value (Success tt), w')
    /\ active_signals w'
       = filter (fun t => negb (String.eqb (t_id t) signalId))
                (active_signals w)
    /\ subscriptions_of w' = subscriptions_of w
    /\ users (db w') = users (db w)
    /\ user_signal_access (db w') = user_signal_access (db w)
    /\ purchases (db w') = purchases (db w)
    /\ admin_notifications (db w') = admin_notifications (db w).
Proof.
  intros Hstatus F. rewrite updateSignalStatus_run, F.
  eexists. split; [reflexivity|].
  unfold active_signals. cbn [db trading_signals with_trading_signals].
  split; [apply closed_signals_filtered; exact Hstatus|].
  repeat split.
Qed.

Lemma closing_a_signal_unlists_it_witness :
  exists w',
    TradingSignalServiceMore.updateSignalStatus "sig-1" signal_closed base_world
    = (Value (Success tt), w')
    /\ active_signals base_world = [btc_long]
    /\ active_signals w' = [].
Proof.
  destruct (@closing_a_signal_unlists_it "sig-1" signal_closed base_world)
    as [w' [Hrun [Hlist _]]]; [discriminate | reflexivity |].
  exists w'. split; [exact Hrun|]. split; [reflexivity|].
  rewrite Hlist. reflexivity.
Defined.

(** X8. updateSignalStatus does not tell whether a signal was found: for
    an id no signal has, an update that reports no error returns
    success:true and leaves the database exactly as it was. *)
Theorem updating_unknown_signal_succeeds signalId status w :
  (forall t, In t (trading_signals (db w)) -> t_id t <> signalId) ->
  fault_at (env w) (ticks w) = None ->
  exists w',
    TradingSignalServiceMore.updateSignalStatus signalId status w
    = (Value (Success tt), w')
    /\ db w' = db w.
Proof.
  intros Hnone F. rewrite updateSignalStatus_run, F.
  eexists. split; [reflexivity|]. cbn [db].
  assert (Hmap : map (fun t => if String.eqb (t_id t) signalId
                               then set_signal_status status t else t)
                     (trading_signals (db w)) = trading_signals (db w)).
  { induction (trading_signals (db w)) as [|t table IH]; [reflexivity|].
    cbn [map]. rewrite IH by (intros x Hx; apply Hnone; right; exact Hx).
    destruct (String.eqb_spec (t_id t) signalId) as [E|_]; [|reflexivity].
    exfalso. apply (Hnone t); [left; reflexivity | exact E]. }
  rewrite Hmap. destruct (db w). reflexivity.
Qed.

Lemma updating_unknown_signal_succeeds_witness :
  exists w',
    TradingSignalServiceMore.updateSignalStatus "sig-404" signal_cancelled
      base_world
    = (Value (Success tt), w')
    /\ db w' = db base_world.
Proof.
  apply (@updating_unknown_signal_succeeds "sig-404" signal_cancelled
           base_world).
  - intros t [<-|[]]. discriminate.
  - reflexivity.
Defined.

(* ===================================================================== *)
(** ** tradingSignalService.getUserSignalHistory *)
(* ===================================================================== *)

Lemma insert_latest_first_perm h l :
  Permutation (insert_latest_first h l) (h :: l).
Proof.
  induction l as [|x l IH]; simpl; [reflexivity|].
  destruct (a_viewed_at (h_access x) <? a_viewed_at (h_access h));
    [reflexivity|].
  rewrite IH. apply perm_swap.
Qed.

Lemma latest_first_perm l : Permutation (latest_first l) l.
Proof.
  induction l as [|x l IH]; simpl; [reflexivity|].
  rewrite insert_latest_first_perm. constructor. exact IH.
Qed.

Lemma insert_latest_first_sorted h l :
  StronglySorted
    (fun a b => a_viewed_at (h_access b) <= a_viewed_at (h_access a)) l ->
  StronglySorted
    (fun a b => a_viewed_at (h_access b) <= a_viewed_at (h_access a))
    (insert_latest_first h l).
Proof.
  induction l as [|x l IH]; intros Hs; simpl.
  - constructor; constructor.
  - inversion Hs as [|? ? Hl Hx]; subst.
    destruct (Z.ltb_spec (a_viewed_at (h_access x)) (a_viewed_at (h_access h)))
      as [Hlt|Hge].
    + constructor; [exact Hs|].
      constructor; [lia|].
      rewrite Forall_forall in *. intros y Hy. specialize (Hx y Hy). lia.
    + constructor; [apply IH; exact Hl|].
      rewrite Forall_forall in *. intros y Hy.
      apply (Permutation_in _ (insert_latest_first_perm h l)) in Hy.
      destruct Hy as [<-|Hy]; [lia | apply Hx; exact Hy].
Qed.

Lemma latest_first_listed l : listed_latest_first (latest_first l) l.
Proof.
  split; [apply latest_first_perm|].
  induction l as [|x l IH]; simpl; [constructor|].
  apply insert_latest_first_sorted. exact IH.
Qed.

Lemma getUserSignalHistory_run userId w :
  TradingSignalServiceMore.getUserSignalHistory userId w
  = match fault_at (env w) (ticks w) with
    | Some m => (Value (Failure m), tick w)
    | None => (Value (Success (latest_first (history_rows userId w))),
               mkWorld (db w) (env w) (S (ticks w)))
    end.
Proof.
  unfold TradingSignalServiceMore.getUserSignalHistory. js_unfold.
  js_fault; reflexivity.
Qed.

Lemma history_rows_spec userId w h :
  In h (history_rows userId w) <->
  In (h_access h) (user_signal_access (db w))
  /\ a_user_id (h_access h) = userId
  /\ h_signal h = signal_of (db w) (a_signal_id (h_access h)).
Proof.
  unfold history_rows. rewrite in_map_iff. split.
  - intros [a [<- Ha]]. apply filter_In in Ha. destruct Ha as [Hin Hu].
    apply String.eqb_eq in Hu. cbn. auto.
  - intros [Hin [Hu Hs]]. exists (h_access h). split.
    + destruct h as [a s]. cbn in *. rewrite Hs. reflexivity.
    + apply filter_In. split; [exact Hin | apply String.eqb_eq; exact Hu].
Qed.

Lemma signal_of_found d id t :
  signal_of d id = Some t -> In t (trading_signals d) /\ t_id t = id.
Proof.
  unfold signal_of. intros H. apply find_some in H.
  destruct H as [Hin Hid]. apply String.eqb_eq in Hid. auto.
Qed.



Lemma trackSignalView_effect userId signalId w w1 :
  fault_at (env w) (S (ticks w)) = None ->
  trackSignalView userId signalId w = (Value (Success tt), w1) ->
  env w1 = env w /\ ticks w1 = S (S (ticks w))
  /\ trading_signals (db w1) = trading_signals (db w)
  /\ ((user_signal_access (db w1) = user_signal_access (db w)
       /\ existsb (same_view userId signalId) (user_signal_access (db w))
          = true)
      \/ (user_signal_access (db w1)
          = (user_signal_access (db w)
             ++ [mkSignalAccess userId signalId (clock_at (env w) (ticks w))])%list
          /\ existsb (same_view userId signalId) (user_signal_access (db w))
             = false
          /\ user_exists (db w) userId = true
          /\ signal_exists (db w) signalId = true)).
Proof.
  intros F. unfold trackSignalView. js_unfold. rewrite F.
  unfold exec_insert_signal_access. cbn [a_user_id a_signal_id fst snd].
  destruct (existsb (same_view userId signalId) (user_signal_access (db w)))
    eqn:Hseen; cbn [fst snd].
  - rewrite duplicate_is_swallowed. cbn [negb].
    intros E. inversion E; subst; cbn [db env ticks]. auto 6.
  - destruct (user_exists (db w) userId); cbn [negb fst snd];
      [|cbn; discriminate].
    destruct (signal_exists (db w) signalId); cbn [negb fst snd];
      [|cbn; discriminate].
    intros E. inversion E; subst;
      cbn [db env ticks user_signal_access trading_signals
              with_user_signal_access].
    repeat split. right. auto.
Qed.

Lemma signal_exists_found d id :
  signal_exists d id = true ->
  exists t, signal_of d id = Some t /\ t_id t = id.
Proof.
  unfold signal_exists, signal_of. intros H.
  destruct (find (fun t => String.eqb (t_id t) id) (trading_signals d))
    as [t|] eqn:Hf.
  - exists t. split; [reflexivity|].
    apply find_some in Hf. apply String.eqb_eq. tauto.
  - apply existsb_exists in H. destruct H as [t [Hin Hid]].
    rewrite (find_none _ _ Hf t Hin) in Hid. discriminate.
Qed.

(** X10. A view that trackSignalView recorded shows up in the history: after
    a call whose insert reached the database and that returned success:true,
    getUserSignalHistory of the same user, when its query goes through,
    has a row for that signal, and the row embeds the signal itself. *)
Theorem tracked_view_is_in_history userId signalId w w1 :
  fault_at (env w) (S (ticks w)) = None ->
  (forall a, In a (user_signal_access (db w)) ->
             signal_exists (db w) (a_signal_id a) = true) ->
  trackSignalView userId signalId w = (Value (Success tt), w1) ->
  fault_at (env w1) (ticks w1) = None ->
  exists rows w2 h t,
    TradingSignalServiceMore.getUserSignalHistory userId w1
    = (Value (Success rows), w2)
    /\ In h rows
    /\ a_user_id (h_access h) = userId
    /\ a_signal_id (h_access h) = signalId
    /\ h_signal h = Some t /\ t_id t = signalId.
Proof.
  intros F Hrefs Htrack F1.
  destruct (trackSignalView_effect _ _ _ F Htrack)
    as [_ [_ [Hsignals Hrows]]].
  assert (Hrow : exists a, In a (user_signal_access (db w1))
                           /\ a_user_id a = userId
                           /\ a_signal_id a = signalId
                           /\ signal_exists (db w1) signalId = true).
  { unfold signal_exists in *. rewrite Hsignals.
    destruct Hrows as [[Hsame Hseen] | [Hnew [_ [_ Hsig]]]].
    - apply existsb_exists in Hseen. destruct Hseen as [a [Hin Hv]].
      unfold same_view in Hv. apply andb_true_iff in Hv.
      destruct Hv as [Hu Hs]. apply String.eqb_eq in Hu, Hs.
      exists a. rewrite Hsame. repeat split; try assumption.
      rewrite <- Hs. apply Hrefs. exact Hin.
    - eexists. rewrite Hnew. split; [apply in_or_app; right; left; reflexivity|].
      cbn. auto. }
  destruct Hrow as [a [Hin [Hu [Hs Hsig]]]].
  destruct (signal_exists_found _ _ Hsig) as [t [Ht Hid]].
  rewrite getUserSignalHistory_run, F1.
  exists (latest_first (history_rows userId w1)).
  eexists. exists (mkHistoryRow a (Some t)), t.
  split; [reflexivity|]. cbn [h_access h_signal].
  repeat split; try assumption.
  apply (Permutation_in _ (Permutation_sym (latest_first_perm _))).
  apply history_rows_spec. cbn [h_access h_signal].
  rewrite Hs. auto.
Qed.

Lemma tracked_view_is_in_history_witness :
  exists rows w2 h t,
    TradingSignalServiceMore.getUserSignalHistory "u-ann"
      (snd (trackSignalView "u-ann" "sig-1" base_world))
    = (Value (Success rows), w2)
    /\ In h rows
    /\ a_user_id (h_access h) = "u-ann"
    /\ a_signal_id (h_access h) = "sig-1"
    /\ h_signal h = Some t /\ t_id t = "sig-1".
Proof.
  apply (@tracked_view_is_in_history "u-ann" "sig-1" base_world
           (snd (trackSignalView "u-ann" "sig-1" base_world))).
  - reflexivity.
  - intros a [].
  - reflexivity.
  - reflexivity.
Defined.

(* ===================================================================== *)
(** ** authService, legacy variant: sign-up, sign-in and profile *)
(* ===================================================================== *)

(** The legacy signUp, request by request. *)
Lemma LegacyAuth_signUp_run data w :
  let t := ticks w in
  let e := env w in
  let fail m d n :=
    (Value (Failure (or_else m "Registration failed")) : Outcome (Reply SignedUpUser),
     mkWorld d e n) in
  LegacyAuth.signUp data w
  = match fault_at e (S t) with
    | Some m => fail m (db w) (S (S t))
    | None =>
        match exec_insert_user (email data)
                (bcrypt_hash_at e t (password data))
                (firstName data) (lastName data) "user" true false
                (uuid_at e (S t)) (db w) with
        | (Error m, d1) => fail m d1 (S (S t))
        | (Data user, d1) =>
            let uniqueId := int_to_string (random_at e (S (S t))) in
            match fault_at e (S (S (S t))) with
            | Some m => fail m d1 (S (S (S (S t))))
            | None =>
                match exec_insert_user_profile
                        (mkUserProfile (u_id user) uniqueId "personal"
                                       "moderate" false "UTC")
                        (uuid_at e (S (S (S t)))) d1 with
                | (Error m, d2) => fail m d2 (S (S (S (S t))))
                | (Data _, d2) =>
                    match fault_at e (S (S (S (S t)))) with
                    | Some m => fail m d2 (S (S (S (S (S t)))))
                    | None =>
                        let v := LegacyAuth.getPlanDetails (plan_type data) in
                        match exec_insert_user_subscription
                                (u_id user) (plan_type data) (get_name v)
                                (get_price v) (get_period v) pending
                                (get_features v)
                                (uuid_at e (S (S (S (S t))))) d2 with
                        | (Error m, d3) => fail m d3 (S (S (S (S (S t)))))
                        | (Data _, d3) =>
                            (Value (Success (mkSignedUpUser
                                               (u_id user) (u_email user)
                                               (u_first_name user)
                                               (u_last_name user) uniqueId
                                               (plan_type data))),
                             mkWorld d3 e (S (S (S (S (S t))))))
                        end
                    end
                end
            end
        end
    end.
Proof.
  cbv zeta. unfold LegacyAuth.signUp. js_unfold.
  js_fault; [reflexivity|].
  destruct (exec_insert_user _ _ _ _ _ _ _ _ _) as [[user|m] d1];
    cbn [fst snd]; [|reflexivity].
  js_unfold. js_fault; [reflexivity|].
  destruct (exec_insert_user_profile _ _ _) as [[[]|m] d2];
    cbn [fst snd]; [|reflexivity].
  js_unfold. js_fault; [reflexivity|].
  destruct (exec_insert_user_subscription _ _ _ _ _ _ _ _ _) as [[[]|m] d3];
    reflexivity.
Qed.

Lemma exec_insert_user_effect em h f l a v uuid d r d1 :
  exec_insert_user em h f l "user" a v uuid d = (r, d1) ->
  match r with
  | Data user =>
      user = mkUser uuid em h f l "user" a v
      /\ user_exists d uuid = false
      /\ existsb (fun u => String.eqb (u_email u) em) (users d) = false
      /\ d1 = with_users d (users d ++ [user])
  | Error m =>
      d1 = d
      /\ (m = unique_violation "users_pkey"
          \/ m = unique_violation "users_email_key")
  end.
Proof.
  unfold exec_insert_user. cbn [existsb String.eqb Ascii.eqb Bool.eqb orb negb].
  destruct (user_exists d uuid); [intros E; inversion E; auto|].
  destruct (existsb _ (users d)); intros E; inversion E; auto.
Qed.

Lemma exec_insert_user_profile_effect row uuid d r d1 :
  exec_insert_user_profile row uuid d = (r, d1) ->
  match r with
  | Data _ => d1 = with_user_profiles d (user_profiles d ++ [row])
  | Error _ => d1 = d
  end.
Proof.
  unfold exec_insert_user_profile. split_ifs; intros E; inversion E;
    reflexivity.
Qed.

Lemma exec_insert_user_subscription_effect uid pt nm pr pe st fe uuid d r d1 :
  exec_insert_user_subscription uid pt nm pr pe st fe uuid d = (r, d1) ->
  match r with
  | Data _ =>
      exists row, d1 = with_user_subscriptions d (user_subscriptions d ++ [row])
                  /\ s_user_id row = uid /\ s_status row = st
                  /\ s_plan_type row = pt
  | Error _ => d1 = d
  end.
Proof.
  unfold exec_insert_user_subscription.
  destruct nm; [|intros E; inversion E; reflexivity].
  split_ifs; intros E; inversion E; try reflexivity.
  eexists. repeat split.
Qed.

(** What a successful legacy signUp has written. *)
Lemma LegacyAuth_signUp_succeeded data w u w1 :
  LegacyAuth.signUp data w = (Value (Success u), w1) ->
  exists account profile sub,
    db w1 = mkDatabase (users (db w) ++ [account])
                       (user_profiles (db w) ++ [profile])
                       (user_subscriptions (db w) ++ [sub])
                       (trading_signals (db w)) (user_signal_access (db w))
                       (purchases (db w)) (admin_notifications (db w))
    /\ env w1 = env w
    /\ account = mkUser (su_id u) (email data)
                   (bcrypt_hash_at (env w) (ticks w) (password data))
                   (firstName data) (lastName data) "user" true false
    /\ user_exists (db w) (su_id u) = false
    /\ existsb (fun x => String.eqb (u_email x) (email data)) (users (db w))
       = false
    /\ p_user_id profile = su_id u
    /\ s_user_id sub = su_id u /\ s_status sub = pending
    /\ s_plan_type sub = plan_type data
    /\ su_email u = email data /\ su_plan_type u = plan_type data.
Proof.
  rewrite LegacyAuth_signUp_run. cbv zeta.
  destruct (fault_at (env w) (S (ticks w))); [discriminate|].
  destruct (exec_insert_user _ _ _ _ _ _ _ _ _) as [[user|m] d1] eqn:E1;
    [|discriminate].
  apply exec_insert_user_effect in E1.
  destruct E1 as [Huser [Hfresh [Hemail Hd1]]].
  destruct (fault_at (env w) (S (S (S (ticks w))))); [discriminate|].
  destruct (exec_insert_user_profile _ _ _) as [[[]|m] d2] eqn:E2;
    [|discriminate].
  apply exec_insert_user_profile_effect in E2.
  destruct (fault_at (env w) (S (S (S (S (ticks w)))))); [discriminate|].
  destruct (exec_insert_user_subscription _ _ _ _ _ _ _ _ _)
    as [[[]|m] d3] eqn:E3; [|discriminate].
  apply exec_insert_user_subscription_effect in E3.
  destruct E3 as [row [Hd3 [Hrow_user [Hrow_status Hrow_plan]]]].
  intros E. inversion E; subst u w1. cbn [db env su_id su_email su_plan_type].
  do 3 eexists. split; [|split; [reflexivity|]].
  - rewrite Hd3, E2, Hd1. reflexivity.
  - rewrite Huser in *. cbn [u_id u_email] in *.
    repeat split; try assumption; reflexivity.
Qed.

Lemma maybeSingle_data {A} (rows : list A) (x : A) :
  data_of (maybeSingle rows) = Some x -> rows = [x].
Proof.
  destruct rows as [|a [|b rest]]; cbn; intros E; inversion E; reflexivity.
Qed.

(** What the legacy signIn hands back once the password and the account
    have passed. *)
Lemma LegacyAuth_signIn_granted data w user :
  fault_at (env w) (ticks w) = None ->
  filter (fun u => String.eqb (u_email u) (signin_email data)) (users (db w))
  = [user] ->
  bcrypt_compare (env w) (signin_password data) (u_password_hash user) = true ->
  u_is_active user = true ->
  exists signed_in w',
    LegacyAuth.signIn data w = (Value (Success signed_in), w')
    /\ db w' = db w
    /\ si_id signed_in = u_id user
    /\ si_email signed_in = u_email user
    /\ si_first_name signed_in = u_first_name user
    /\ si_last_name signed_in = u_last_name user
    /\ si_role signed_in = u_role user
    /\ (forall p, si_profile signed_in = Some p ->
                  filter (fun p => String.eqb (p_user_id p) (u_id user))
                         (user_profiles (db w)) = [p])
    /\ (forall s, si_subscription signed_in = Some s ->
                  active_subscriptions (u_id user) w = [s]).
Proof.
  intros F Hrows Hmatch Hactive.
  unfold LegacyAuth.signIn. js_unfold. rewrite F.
  unfold exec_select_user_by_email. cbn [fst snd]. rewrite Hrows.
  cbn [maybeSingle]. js_unfold. rewrite Hmatch, Hactive. cbn [negb].
  js_unfold.
  unfold exec_select_profile, exec_select_active_subscription,
         active_subscriptions, subscriptions_of.
  cbn [fst snd].
  destruct (fault_at (env w) (S (ticks w))); cbn [tick db env ticks];
    js_unfold; cbn [fst snd];
    destruct (fault_at (env w) (S (S (ticks w))));
    do 2 eexists; (split; [reflexivity|]);
    cbn [db si_id si_email si_first_name si_last_name si_role si_profile
            si_subscription data_of];
    repeat split; try discriminate;
    intros x Hx; apply maybeSingle_data; exact Hx.
Qed.

Lemma active_subscriptions_spec userId w s :
  In s (active_subscriptions userId w) <->
  In s (subscriptions_of w) /\ s_user_id s = userId /\ s_status s = active.
Proof.
  unfold active_subscriptions, is_active_subscription_of.
  rewrite filter_In, andb_true_iff, String.eqb_eq.
  destruct (s_status s); cbn; intuition discriminate.
Qed.

(** X11. Emails are unique in [users].  A legacy signIn that succeeds
    returns the id, email, names and role of the row with that email and
    leaves the database as it was; a profile it returns is a profile row of
    that user; a subscription it returns is a row of that user with status
    active, so a pending subscription is never returned. *)
Theorem legacy_signIn_returns_own_records data w user :
  NoDup (map u_email (users (db w))) ->
  fault_at (env w) (ticks w) = None ->
  In user (users (db w)) ->
  u_email user = signin_email data ->
  bcrypt_compare (env w) (signin_password data) (u_password_hash user) = true ->
  u_is_active user = true ->
  exists signed_in w',
    LegacyAuth.signIn data w = (Value (Success signed_in), w')
    /\ db w' = db w
    /\ si_id signed_in = u_id user
    /\ si_email signed_in = u_email user
    /\ si_first_name signed_in = u_first_name user
    /\ si_last_name signed_in = u_last_name user
    /\ si_role signed_in = u_role user
    /\ (forall p, si_profile signed_in = Some p ->
                  In p (user_profiles (db w)) /\ p_user_id p = u_id user)
    /\ (forall s, si_subscription signed_in = Some s ->
                  In s (subscriptions_of w)
                  /\ s_user_id s = u_id user /\ s_status s = active).
Proof.
  intros Hnd F Hin He Hmatch Hactive.
  destruct (@LegacyAuth_signIn_granted data w user F
              (@filter_key_unique _ u_email (users (db w)) (signin_email data)
                 user Hnd Hin He)
              Hmatch Hactive)
    as [si [w' [Hrun [Hdb [H1 [H2 [H3 [H4 [H5 [Hp Hs]]]]]]]]]].
  exists si, w'. repeat split; try assumption.
  - specialize (Hp p H).
    assert (Hf : In p (filter (fun p => String.eqb (p_user_id p) (u_id user))
                              (user_profiles (db w))))
      by (rewrite Hp; left; reflexivity).
    apply filter_In in Hf. tauto.
  - specialize (Hp p H).
    assert (Hf : In p (filter (fun p => String.eqb (p_user_id p) (u_id user))
                              (user_profiles (db w))))
      by (rewrite Hp; left; reflexivity).
    apply filter_In in Hf. apply String.eqb_eq. tauto.
  - specialize (Hs s H).
    assert (Hf : In s (active_subscriptions (u_id user) w))
      by (rewrite Hs; left; reflexivity).
    apply active_subscriptions_spec in Hf. tauto.
  - specialize (Hs s H).
    assert (Hf : In s (active_subscriptions (u_id user) w))
      by (rewrite Hs; left; reflexivity).
    apply active_subscriptions_spec in Hf. tauto.
  - specialize (Hs s H).
    assert (Hf : In s (active_subscriptions (u_id user) w))
      by (rewrite Hs; left; reflexivity).
    apply active_subscriptions_spec in Hf. tauto.
Qed.

Lemma legacy_signIn_returns_own_records_witness :
  exists signed_in w',
    LegacyAuth.signIn ann_signin
      (world_with_subscriptions [ann_pro_pending] quiet_env)
    = (Value (Success signed_in), w')
    /\ si_id signed_in = "u-ann"
    /\ si_subscription signed_in = None.
Proof.
  destruct (@legacy_signIn_returns_own_records ann_signin
              (world_with_subscriptions [ann_pro_pending] quiet_env) ann)
    as [si [w' [Hrun [_ [Hid [_ [_ [_ [_ [_ Hs]]]]]]]]]];
    try reflexivity.
  - repeat constructor; simpl; tauto.
  - left. reflexivity.
  - exists si, w'. repeat split; try assumption.
    destruct (si_subscription si) as [s|] eqn:E; [|reflexivity].
    destruct (Hs s eq_refl) as [[Hin|[]] [_ Ha]].
    subst s. discriminate Ha.
Defined.

(** X12. Sign-up then sign-in.  Subscriptions refer to existing users and
    bcrypt accepts the hash it made.  After a legacy signUp that succeeded,
    a signIn with the same email and password, when its lookup goes
    through, succeeds for the account just created, with role user -- and
    without a subscription, since the one signUp inserted is pending. *)
Theorem signed_up_user_signs_in_without_subscription data w u w1 :
  (forall s, In s (subscriptions_of w) ->
             user_exists (db w) (s_user_id s) = true) ->
  bcrypt_compare (env w) (password data)
    (bcrypt_hash_at (env w) (ticks w) (password data)) = true ->
  LegacyAuth.signUp data w = (Value (Success u), w1) ->
  fault_at (env w1) (ticks w1) = None ->
  exists signed_in w2,
    LegacyAuth.signIn (mkSignInData (email data) (password data)) w1
    = (Value (Success signed_in), w2)
    /\ si_id signed_in = su_id u
    /\ si_email signed_in = email data
    /\ si_role signed_in = "user"
    /\ si_subscription signed_in = None.
Proof.
  intros Hrefs Hbcrypt Hup F.
  destruct (LegacyAuth_signUp_succeeded _ _ Hup)
    as [account [profile [sub [Hdb [Henv [Hacc [Hfresh [Hemail
         [_ [Hsu [Hpending _]]]]]]]]]]].
  assert (Hrows : filter (fun x => String.eqb (u_email x) (email data))
                         (users (db w1)) = [account]).
  { rewrite Hdb. cbn [users]. rewrite filter_app.
    rewrite (existsb_false_filter _ _ Hemail). cbn [app filter].
    rewrite Hacc. cbn [u_email]. rewrite String.eqb_refl. reflexivity. }
  destruct (@LegacyAuth_signIn_granted
              (mkSignInData (email data) (password data)) w1 account F Hrows)
    as [si [w2 [Hrun [_ [Hid [Hem [_ [_ [Hrole [_ Hs]]]]]]]]]].
  - rewrite Henv, Hacc. exact Hbcrypt.
  - rewrite Hacc. reflexivity.
  - exists si, w2. rewrite Hacc in *. cbn [u_id u_email u_role] in *.
    repeat split; try assumption.
    destruct (si_subscription si) as [s|] eqn:E; [|reflexivity].
    exfalso. specialize (Hs s eq_refl).
    assert (Hin : In s (active_subscriptions (su_id u) w1))
      by (rewrite Hs; left; reflexivity).
    apply active_subscriptions_spec in Hin.
    destruct Hin as [Hin [Huser Hact]].
    unfold subscriptions_of in Hin. rewrite Hdb in Hin.
    cbn [user_subscriptions] in Hin.
    apply in_app_or in Hin. destruct Hin as [Hold | [<- | []]].
    + specialize (Hrefs s Hold). rewrite Huser in Hrefs. congruence.
    + congruence.
Qed.

Lemma signed_up_user_signs_in_without_subscription_witness :
  exists signed_in w2,
    LegacyAuth.signIn (mkSignInData "ann@example.com" "secret")
      (snd (LegacyAuth.signUp ann_signup fresh_world))
    = (Value (Success signed_in), w2)
    /\ si_id signed_in = "uuid-1"
    /\ si_email signed_in = "ann@example.com"
    /\ si_role signed_in = "user"
    /\ si_subscription signed_in = None.
Proof.
  apply (@signed_up_user_signs_in_without_subscription ann_signup fresh_world
           (mkSignedUpUser "uuid-1" "ann@example.com" "Ann" "Lee" "100002"
                           "pro")
           (snd (LegacyAuth.signUp ann_signup fresh_world))).
  - intros s [].
  - reflexivity.
  - reflexivity.
  - reflexivity.
Defined.

Lemma LegacyAuth_signUp_email_taken data w :
  existsb (fun u => String.eqb (u_email u) (email data)) (users (db w)) = true ->
  exists e,
    LegacyAuth.signUp data w
    = (Value (Failure e), mkWorld (db w) (env w) (S (S (ticks w))))
    /\ (fault_at (env w) (S (ticks w)) = None ->
        user_exists (db w) (uuid_at (env w) (S (ticks w))) = false ->
        e = unique_violation "users_email_key").
Proof.
  intros Htaken. rewrite LegacyAuth_signUp_run. cbv zeta.
  destruct (fault_at (env w) (S (ticks w)));
    [eexists; split; [reflexivity | discriminate]|].
  destruct (exec_insert_user _ _ _ _ _ _ _ _ _) as [[user|m] d1] eqn:E1;
    pose proof (exec_insert_user_effect _ _ _ _ _ _ _ _ E1) as H.
  - destruct H as [_ [_ [Hfree _]]]. congruence.
  - destruct H as [-> _]. eexists. split; [reflexivity|].
    intros _ Hfresh.
    revert E1. unfold exec_insert_user.
    cbn [existsb String.eqb Ascii.eqb Bool.eqb orb negb].
    rewrite Hfresh, Htaken. intros E. inversion E. reflexivity.
Qed.

(** X13. The legacy signUp for an email that a users row already has
    always returns success:false and writes nothing; when its insert
    reaches the database with a fresh id, the error is the violation of
    the unique constraint on users.email. *)
Theorem signUp_rejects_registered_email data w :
  existsb (fun u => String.eqb (u_email u) (email data)) (users (db w)) = true ->
  exists e w1,
    LegacyAuth.signUp data w = (Value (Failure e), w1)
    /\ db w1 = db w
    /\ (fault_at (env w) (S (ticks w)) = None ->
        user_exists (db w) (uuid_at (env w) (S (ticks w))) = false ->
        e = unique_violation "users_email_key").
Proof.
  intros Htaken.
  destruct (LegacyAuth_signUp_email_taken data w Htaken) as [e [Hrun He]].
  exists e. eexists. split; [exact Hrun|].
  split; [reflexivity | exact He].
Qed.

Lemma signUp_rejects_registered_email_witness :
  exists e w1,
    LegacyAuth.signUp ann_signup base_world = (Value (Failure e), w1)
    /\ db w1 = db base_world
    /\ (fault_at (env base_world) (S (ticks base_world)) = None ->
        user_exists (db base_world)
          (uuid_at (env base_world) (S (ticks base_world))) = false ->
        e = unique_violation "users_email_key").
Proof.
  apply (@signUp_rejects_registered_email ann_signup base_world).
  reflexivity.
Defined.

(** The legacy signUp never takes a users row away, and the row it adds
    carries the email it was given. *)
Lemma LegacyAuth_signUp_users data w :
  users (db (snd (LegacyAuth.signUp data w))) = users (db w)
  \/ exists account,
      users (db (snd (LegacyAuth.signUp data w)))
      = (users (db w) ++ [account])%list
      /\ u_email account = email data.
Proof.
  rewrite LegacyAuth_signUp_run. cbv zeta.
  destruct (fault_at (env w) (S (ticks w))); [left; reflexivity|].
  destruct (exec_insert_user _ _ _ _ _ _ _ _ _) as [[user|m] d1] eqn:E1;
    pose proof (exec_insert_user_effect _ _ _ _ _ _ _ _ E1) as H;
    [|destruct H as [-> _]; left; reflexivity].
  destruct H as [Huser [_ [_ Hd1]]].
  right. exists user. split; [|rewrite Huser; reflexivity].
  destruct (fault_at (env w) (S (S (S (ticks w)))));
    [rewrite Hd1; reflexivity|].
  destruct (exec_insert_user_profile _ _ _) as [[[]|m] d2] eqn:E2;
    apply exec_insert_user_profile_effect in E2;
    [|rewrite E2, Hd1; reflexivity].
  destruct (fault_at (env w) (S (S (S (S (ticks w))))));
    [rewrite E2, Hd1; reflexivity|].
  destruct (exec_insert_user_subscription _ _ _ _ _ _ _ _ _)
    as [[[]|m] d3] eqn:E3;
    apply exec_insert_user_subscription_effect in E3.
  - destruct E3 as [row [-> _]]. rewrite E2, Hd1. reflexivity.
  - rewrite E3, E2, Hd1. reflexivity.
Qed.

(** X14. The legacy signUp is not atomic, and a late failure cannot be
    retried: when signUp returns success:false after its insert into users
    went through (the profile or the subscription insert failed), the
    account row stays, and every further signUp with that email, whatever
    plan it asks for, fails and writes nothing. *)
Theorem failed_signUp_blocks_the_email data w e w1 :
  LegacyAuth.signUp data w = (Value (Failure e), w1) ->
  users (db w1) <> users (db w) ->
  (exists account,
      users (db w1) = (users (db w) ++ [account])%list
      /\ u_email account = email data)
  /\ forall again,
      email again = email data ->
      exists e' w2,
        LegacyAuth.signUp again w1 = (Value (Failure e'), w2)
        /\ db w2 = db w1.
Proof.
  intros Hfail Hstored.
  pose proof (LegacyAuth_signUp_users data w) as Husers.
  rewrite Hfail in Husers. cbn [snd] in Husers.
  destruct Husers as [Hsame | [account [Hrow Hemail]]]; [contradiction|].
  split; [exists account; auto|].
  intros again Hagain.
  destruct (@LegacyAuth_signUp_email_taken again w1) as [e' [Hrun _]].
  - rewrite Hrow, existsb_app. cbn [existsb].
    rewrite Hagain, Hemail, String.eqb_refl, orb_true_r. reflexivity.
  - exists e'. eexists. split; [exact Hrun | reflexivity].
Qed.

Lemma failed_signUp_blocks_the_email_witness :
  exists e' w2,
    LegacyAuth.signUp
      (mkSignUpData "Bob" "Ray" "bob@example.com" "hunter2" "pro")
      (snd (LegacyAuth.signUp gold_signup fresh_world))
    = (Value (Failure e'), w2)
    /\ db w2 = db (snd (LegacyAuth.signUp gold_signup fresh_world)).
Proof.
  apply (proj2 (@failed_signUp_blocks_the_email gold_signup fresh_world
                  (check_violation "user_subscriptions"
                                   "user_subscriptions_plan_type_check")
                  (snd (LegacyAuth.signUp gold_signup fresh_world))
                  eq_refl
                  ltac:(cbn; discriminate))).
  reflexivity.
Defined.

(** X15. Ids are unique in [users].  When its first lookup reports no
    error, the legacy getUserProfile returns success:true, also for an id
    no user has: user is then null.  The user
    it returns is the row with that id; a profile or subscription it
    returns belongs to that id, and the subscription has status active; a
    failed profile or subscription lookup just leaves that field null. *)
Theorem legacy_getUserProfile_never_misses userId w :
  NoDup (map u_id (users (db w))) ->
  fault_at (env w) (ticks w) = None ->
  exists view w',
    LegacyAuthMore.getUserProfile userId w = (Value (Success view), w')
    /\ db w' = db w
    /\ (forall u, view_user view = Some u <->
                  In u (users (db w)) /\ u_id u = userId)
    /\ (forall p, view_profile view = Some p ->
                  In p (user_profiles (db w)) /\ p_user_id p = userId)
    /\ (forall s, view_subscription view = Some s ->
                  In s (subscriptions_of w)
                  /\ s_user_id s = userId /\ s_status s = active).
Proof.
  intros Hnd F.
  assert (Huser : exists found,
             maybeSingle (filter (fun u => String.eqb (u_id u) userId)
                                 (users (db w))) = Data found
             /\ forall u, found = Some u <->
                          In u (users (db w)) /\ u_id u = userId).
  { destruct (filter (fun u => String.eqb (u_id u) userId) (users (db w)))
      as [|x rest] eqn:Hrows.
    - exists None. split; [reflexivity|]. intros u. split; [discriminate|].
      intros [Hin Hid].
      assert (Hf : In u (filter (fun u => String.eqb (u_id u) userId)
                                (users (db w))))
        by (apply filter_In; split; [exact Hin | apply String.eqb_eq; exact Hid]).
      rewrite Hrows in Hf. destruct Hf.
    - assert (Hx : In x (users (db w)) /\ u_id x = userId).
      { assert (Hf : In x (filter (fun u => String.eqb (u_id u) userId)
                                  (users (db w))))
          by (rewrite Hrows; left; reflexivity).
        apply filter_In in Hf. rewrite String.eqb_eq in Hf. exact Hf. }
      destruct Hx as [Hin Hid].
      pose proof (@filter_key_unique _ u_id (users (db w)) userId x
                    Hnd Hin Hid) as Hone.
      rewrite Hrows in Hone. inversion Hone; subst rest.
      exists (Some x). split; [reflexivity|]. intros u. split.
      + intros E. inversion E; subst u. auto.
      + intros [Hin' Hid'].
        pose proof (@filter_key_unique _ u_id (users (db w)) userId u
                      Hnd Hin' Hid') as Hone'.
        rewrite Hrows in Hone'. inversion Hone'. reflexivity. }
  destruct Huser as [found [Hfound Hspec]].
  unfold LegacyAuthMore.getUserProfile. js_unfold. rewrite F.
  unfold exec_select_user_by_id. cbn [fst snd]. rewrite Hfound.
  js_unfold.
  unfold exec_select_profile, exec_select_active_subscription. cbn [fst snd].
  assert (Hp : forall p,
             data_of (maybeSingle
                        (filter (fun p => String.eqb (p_user_id p) userId)
                                (user_profiles (db w)))) = Some p ->
             In p (user_profiles (db w)) /\ p_user_id p = userId).
  { intros p H. apply maybeSingle_data in H.
    assert (Hf : In p (filter (fun p => String.eqb (p_user_id p) userId)
                              (user_profiles (db w))))
      by (rewrite H; left; reflexivity).
    apply filter_In in Hf. rewrite String.eqb_eq in Hf. exact Hf. }
  assert (Hs : forall s,
             data_of (maybeSingle
                        (filter (is_active_subscription_of userId)
                                (user_subscriptions (db w)))) = Some s ->
             In s (subscriptions_of w)
             /\ s_user_id s = userId /\ s_status s = active).
  { intros s H. apply maybeSingle_data in H.
    apply active_subscriptions_spec.
    unfold active_subscriptions, subscriptions_of. rewrite H.
    left. reflexivity. }
  destruct (fault_at (env w) (S (ticks w))); cbn [tick db env ticks];
    js_unfold; cbn [fst snd];
    destruct (fault_at (env w) (S (S (ticks w))));
    do 2 eexists; (split; [reflexivity|]);
    cbn [db view_user view_profile view_subscription data_of];
    (split; [reflexivity|]); (split; [exact Hspec|]);
    split; first [exact Hp | exact Hs | discriminate].
Qed.

Lemma legacy_getUserProfile_never_misses_witness :
  exists view w',
    LegacyAuthMore.getUserProfile "u-nobody" base_world
    = (Value (Success view), w')
    /\ view_user view = None.
Proof.
  destruct (@legacy_getUserProfile_never_misses "u-nobody" base_world)
    as [view [w' [Hrun [_ [Hu _]]]]].
  - repeat constructor; simpl; tauto.
  - reflexivity.
  - exists view, w'. split; [exact Hrun|].
    destruct (view_user view) as [u|] eqn:E; [|reflexivity].
    destruct (proj1 (Hu u) eq_refl) as [[<-|[]] Hid]. discriminate Hid.
Defined.

(* ===================================================================== *)
(** ** purchaseService: what a purchase writes, and what it does not *)
(* ===================================================================== *)

Lemma createPurchase_run data w :
  createPurchase data w
  = match fault_at (env w) (S (ticks w)) with
    | Some m => (Value (Failure m), mkWorld (db w) (env w) (S (S (ticks w))))
    | None =>
        match insert_into_purchases
                (mkPurchase (uuid_at (env w) (S (ticks w)))
                   (userId data) (planType data) (planName data)
                   (amount data) "USD" (paymentMethod data) payment_completed
                   (transactionId data) (paymentDetails data)
                   (Some (clock_at (env w) (ticks w))))
                (db w) with
        | (Data p, d) => (Value (Success p),
                          mkWorld d (env w) (S (S (ticks w))))
        | (Error m, d) => (Value (Failure m),
                           mkWorld d (env w) (S (S (ticks w))))
        end
    end.
Proof.
  unfold createPurchase. js_unfold. js_fault; [reflexivity|].
  unfold exec_insert_purchase.
  destruct (insert_into_purchases _ _) as [[p|m] d]; reflexivity.
Qed.



Lemma activation_without_match userId planType started expires subs :
  (forall s, In s subs -> subscription_matches userId planType s = false) ->
  map (fun s => if subscription_matches userId planType s
                then activate_row started expires s else s) subs
  = subs.
Proof.
  induction subs as [|s subs IH]; intros H; [reflexivity|].
  cbn [map]. rewrite (H s) by (left; reflexivity).
  rewrite IH by (intros x Hx; apply H; right; exact Hx). reflexivity.
Qed.

Lemma activateSubscription_without_effect userId planType w :
  fault_at (env w) (S (S (ticks w))) <> None
  \/ (forall s, In s (subscriptions_of w) ->
                subscription_matches userId planType s = false) ->
  subscriptions_of (snd (activateSubscription userId planType w))
  = subscriptions_of w.
Proof.
  intros H.
  destruct (fault_at (env w) (S (S (ticks w)))) as [m|] eqn:F.
  - rewrite (activateSubscription_failed _ _ _ F). reflexivity.
  - destruct H as [H|H]; [congruence|].
    rewrite (activateSubscription_run _ _ _ F).
    unfold subscriptions_of in *.
    cbn [snd db user_subscriptions with_user_subscriptions].
    apply activation_without_match. exact H.
Qed.

Section SilentActivation.
Variable sendPaymentSuccessEmail :
  string -> string -> decimal -> string -> string -> string ->
  list string -> Js unit.

(** X17. processPurchaseAndNotify does not look at what activateSubscription
    returned.  When createPurchase succeeds and the email call returns
    without touching user_subscriptions, the flow returns success:true with
    the purchase even if the activating update failed or the buyer has no
    subscription row of the purchased plan type -- and then no subscription
    has changed: the buyer has paid and nothing is active. *)
Theorem purchase_succeeds_without_activation (data : NotifyData) w p w1 w3 :
  createPurchase data w = (Value (Success p), w1) ->
  (fault_at (env w1) (S (S (ticks w1))) <> None
   \/ forall s, In s (subscriptions_of w) ->
                subscription_matches (userId data) (planType data) s = false) ->
  sendPaymentSuccessEmail
    (userEmail data) (userName data) (amount data) (planName data)
    (transaction_label (transactionId data)) (userId data)
    (notify_features data)
    (snd (activateSubscription (userId data) (planType data) w1))
  = (Value tt, w3) ->
  subscriptions_of w3
  = subscriptions_of (snd (activateSubscription (userId data)
                             (planType data) w1)) ->
  processPurchaseAndNotify sendPaymentSuccessEmail data w
  = (Value (Success p), w3)
  /\ In p (purchases (db w1))
  /\ subscriptions_of w3 = subscriptions_of w.
Proof.
  intros Hcreate Hwhy Hsend Hkeeps.
  rewrite processPurchaseAndNotify_run, Hcreate, Hsend.
  split; [reflexivity|].
  destruct (createPurchase_cases data w)
    as [[e E] | [p' [w1' [E [Hin [_ Hsubs]]]]]];
    rewrite E in Hcreate; inversion Hcreate; subst p' w1'.
  split; [exact Hin|].
  rewrite Hkeeps, activateSubscription_without_effect; [exact Hsubs|].
  rewrite Hsubs. exact Hwhy.
Qed.
End SilentActivation.

Lemma purchase_succeeds_without_activation_witness :
  exists p w3,
    processPurchaseAndNotify silent_email ann_buys_pro base_world
    = (Value (Success p), w3)
    /\ subscriptions_of w3 = subscriptions_of base_world.
Proof.
  destruct (@purchase_succeeds_without_activation silent_email ann_buys_pro
              base_world
              (mkPurchase "uuid-1" "u-ann" "pro" "Pro" 19900 "USD" stripe
                          payment_completed (Some "tx-1") None
                          (Some 1768435200000))
              (snd (createPurchase ann_buys_pro base_world))
              (snd (activateSubscription "u-ann" "pro"
                      (snd (createPurchase ann_buys_pro base_world)))))
    as [Hrun [_ Hsubs]].
  - reflexivity.
  - right. intros s [].
  - reflexivity.
  - reflexivity.
  - do 2 eexists. split; [exact Hrun | exact Hsubs].
Defined.

(* ===================================================================== *)
(** ** From sign-up to access *)
(* ===================================================================== *)

Lemma foreign_rows_not_selected userId (f : UserSubscription -> UserSubscription)
    subs :
  (forall s, s_user_id (f s) = s_user_id s) ->
  (forall s, In s subs -> s_user_id s <> userId) ->
  filter (is_active_subscription_of userId) (map f subs) = [].
Proof.
  intros Hf Hother. induction subs as [|s subs IH]; [reflexivity|].
  cbn [map filter]. unfold is_active_subscription_of at 1.
  rewrite Hf.
  destruct (String.eqb_spec (s_user_id s) userId) as [E|_].
  - exfalso. apply (Hother s); [left; reflexivity | exact E].
  - cbn [andb]. apply IH. intros x Hx. apply Hother. right. exact Hx.
Qed.

Lemma activation_keeps_user userId planType started expires s :
  s_user_id (if subscription_matches userId planType s
             then activate_row started expires s else s) = s_user_id s.
Proof. destruct (subscription_matches userId planType s); reflexivity. Qed.



(* ===================================================================== *)
(** ** The constraints of the schema hold in every reachable state *)
(* ===================================================================== *)

Lemma NoDup_snoc {A} (l : list A) (x : A) :
  NoDup l -> ~ In x l -> NoDup (l ++ [x]).
Proof.
  intros Hl Hx. induction l as [|a l IH]; cbn.
  - constructor; [intros [] | constructor].
  - inversion Hl as [|? ? Ha Hl']; subst. constructor.
    + intros Hin. apply in_app_or in Hin. destruct Hin as [Hin | [E | []]].
      * exact (Ha Hin).
      * apply Hx. left. symmetry. exact E.
    + apply IH; [exact Hl' | intros Hin; apply Hx; right; exact Hin].
Qed.

Lemma existsb_key_false {A} (key : A -> string) (k : string) (l : list A) :
  existsb (fun x => String.eqb (key x) k) l = false -> ~ In k (map key l).
Proof.
  intros H Hin. apply in_map_iff in Hin. destruct Hin as [x [E Hx]].
  assert (Ht : existsb (fun x => String.eqb (key x) k) l = true)
    by (apply existsb_exists; exists x; split;
        [exact Hx | apply String.eqb_eq; exact E]).
  congruence.
Qed.

Lemma user_exists_grows d id rows :
  user_exists d id = true ->
  existsb (fun u => String.eqb (u_id u) id) (users d ++ rows) = true.
Proof.
  unfold user_exists. intros H. rewrite existsb_app, H. reflexivity.
Qed.

Lemma exec_insert_user_consistent em h f l r a v :
  exec_preserves (exec_insert_user em h f l r a v).
Proof.
  intros uuid d H. unfold exec_insert_user.
  destruct (negb _); [exact H|].
  destruct (user_exists d uuid) eqn:Hfresh; [exact H|].
  destruct (existsb _ (users d)) eqn:Hemail; [exact H|].
  cbn [snd]. destruct H.
  constructor; unfold user_exists, signal_exists, purchase_exists in *;
    cbn [users user_profiles user_subscriptions trading_signals
         user_signal_access purchases admin_notifications with_users];
    try assumption;
    try (intros; apply user_exists_grows; eauto; fail).
  - rewrite map_app. apply NoDup_snoc; [assumption|].
    apply existsb_key_false. exact Hfresh.
  - rewrite map_app. apply NoDup_snoc; [assumption|].
    apply existsb_key_false. exact Hemail.
Qed.

Lemma exec_insert_user_profile_consistent row :
  exec_preserves (exec_insert_user_profile row).
Proof.
  intros uuid d H. unfold exec_insert_user_profile.
  destruct (negb _); [exact H|].
  destruct (negb _); [exact H|].
  destruct (existsb _ (user_profiles d)) eqn:Hkey; [exact H|].
  destruct (user_exists d (p_user_id row)) eqn:Huser; [|exact H].
  cbn [negb snd]. destruct H.
  constructor; unfold user_exists, signal_exists, purchase_exists in *;
    cbn [users user_profiles user_subscriptions trading_signals
         user_signal_access purchases admin_notifications with_user_profiles];
    try assumption.
  - rewrite map_app. apply NoDup_snoc; [assumption|].
    apply existsb_key_false. exact Hkey.
  - intros p Hp. apply in_app_or in Hp. destruct Hp as [Hp | [<- | []]];
      [auto | exact Huser].
Qed.

Lemma exec_insert_user_subscription_consistent uid pt nm pr pe st fe :
  exec_preserves (exec_insert_user_subscription uid pt nm pr pe st fe).
Proof.
  intros uuid d H. unfold exec_insert_user_subscription.
  destruct nm; [|exact H].
  destruct (negb _); [exact H|].
  destruct (plan_type_known pt) eqn:Hplan; [|exact H].
  destruct (user_exists d uid) eqn:Huser; [|exact H].
  cbn [negb snd]. destruct H.
  constructor; unfold user_exists, signal_exists, purchase_exists in *;
    cbn [users user_profiles user_subscriptions trading_signals
         user_signal_access purchases admin_notifications
         with_user_subscriptions];
    try assumption;
    intros x Hx; apply in_app_or in Hx; destruct Hx as [Hx | [<- | []]];
    auto.
Qed.

Lemma exec_activate_subscriptions_consistent uid pt started expires :
  exec_preserves (exec_activate_subscriptions uid pt started expires).
Proof.
  intros uuid d H. unfold exec_activate_subscriptions. cbn [snd].
  destruct H.
  constructor; unfold user_exists, signal_exists, purchase_exists in *;
    cbn [users user_profiles user_subscriptions trading_signals
         user_signal_access purchases admin_notifications
         with_user_subscriptions];
    try assumption;
    intros x Hx; apply in_map_iff in Hx; destruct Hx as [s [<- Hs]];
    destruct (subscription_matches uid pt s);
    cbn [activate_row s_user_id s_plan_type]; auto.
Qed.

Lemma same_view_absent uid sid rows :
  existsb (same_view uid sid) rows = false ->
  ~ In (uid, sid) (map (fun a => (a_user_id a, a_signal_id a)) rows).
Proof.
  intros H Hin. apply in_map_iff in Hin. destruct Hin as [a [E Ha]].
  inversion E as [[Eu Es]].
  assert (Ht : existsb (same_view uid sid) rows = true).
  { apply existsb_exists. exists a. split; [exact Ha|].
    unfold same_view. rewrite Eu, Es, !String.eqb_refl. reflexivity. }
  congruence.
Qed.

Lemma exec_insert_signal_access_consistent row :
  exec_preserves (exec_insert_signal_access row).
Proof.
  intros uuid d H. unfold exec_insert_signal_access.
  destruct (existsb _ (user_signal_access d)) eqn:Hkey; [exact H|].
  destruct (user_exists d (a_user_id row)) eqn:Huser; [|exact H].
  destruct (signal_exists d (a_signal_id row)) eqn:Hsignal; [|exact H].
  cbn [negb snd]. destruct H.
  constructor; unfold user_exists, signal_exists, purchase_exists in *;
    cbn [users user_profiles user_subscriptions trading_signals
         user_signal_access purchases admin_notifications
         with_user_signal_access];
    try assumption.
  - rewrite map_app. apply NoDup_snoc; [assumption|].
    apply same_view_absent. exact Hkey.
  - intros a Ha. apply in_app_or in Ha. destruct Ha as [Ha | [<- | []]];
      [auto | exact Huser].
  - intros a Ha. apply in_app_or in Ha. destruct Ha as [Ha | [<- | []]];
      [auto | exact Hsignal].
Qed.

Lemma insert_into_purchases_consistent NEW d :
  consistent d -> consistent (snd (insert_into_purchases NEW d)).
Proof.
  intros H. unfold insert_into_purchases.
  destruct (negb _); [exact H|].
  destruct (existsb _ (purchases d)) eqn:Hkey; [exact H|].
  destruct (user_exists d (pu_user_id NEW)) eqn:Huser; [|exact H].
  cbn [negb snd]. destruct H.
  constructor;
    unfold user_exists, signal_exists, purchase_exists,
           notify_admin_on_purchase in *;
    cbn [users user_profiles user_subscriptions trading_signals
         user_signal_access purchases admin_notifications
         with_purchases with_admin_notifications];
    try assumption.
  - rewrite map_app. apply NoDup_snoc; [assumption|].
    apply existsb_key_false. exact Hkey.
  - intros p Hp. apply in_app_or in Hp. destruct Hp as [Hp | [<- | []]];
      [auto | exact Huser].
  - intros n id Hn Hid. apply in_app_or in Hn. destruct Hn as [Hn | Hn];
      [eauto|].
    apply in_map_iff in Hn. destruct Hn as [u [<- _]].
    cbn in Hid. inversion Hid; subst id. exact Huser.
  - intros n id Hn Hid. rewrite existsb_app.
    apply in_app_or in Hn. destruct Hn as [Hn | Hn].
    + rewrite (admin_notifications_related_purchase_id_fkey0 n id Hn Hid).
      reflexivity.
    + apply in_map_iff in Hn. destruct Hn as [u [<- _]].
      cbn in Hid. inversion Hid; subst id. cbn [existsb].
      rewrite String.eqb_refl, orb_true_r. reflexivity.
Qed.

Lemma exec_insert_purchase_consistent uid pt pn am cu pm ps tx pd at_ :
  exec_preserves (exec_insert_purchase uid pt pn am cu pm ps tx pd at_).
Proof.
  intros uuid d H. unfold exec_insert_purchase.
  apply insert_into_purchases_consistent. exact H.
Qed.

Lemma exec_insert_trading_signal_consistent ty sy tf di en sl tp co st cb
      uuid now d :
  consistent d ->
  consistent (snd (exec_insert_trading_signal ty sy tf di en sl tp co st cb
                     uuid now d)).
Proof.
  intros H. unfold exec_insert_trading_signal.
  destruct (negb _); [exact H|].
  destruct (negb _); [exact H|].
  destruct (signal_exists d uuid) eqn:Hkey; [exact H|].
  destruct (negb _); [exact H|].
  cbn [snd]. destruct H.
  constructor; unfold user_exists, signal_exists, purchase_exists in *;
    cbn [users user_profiles user_subscriptions trading_signals
         user_signal_access purchases admin_notifications
         with_trading_signals];
    try assumption.
  - rewrite map_app. apply NoDup_snoc; [assumption|].
    apply existsb_key_false. exact Hkey.
  - intros a Ha. rewrite existsb_app.
    rewrite (user_signal_access_signal_id_fkey0 a Ha). reflexivity.
Qed.

Lemma exec_update_signal_status_consistent signalId status :
  exec_preserves (exec_update_signal_status signalId status).
Proof.
  intros uuid d H. unfold exec_update_signal_status. cbn [snd].
  assert (Hids : map t_id
                   (map (fun t => if String.eqb (t_id t) signalId
                                  then set_signal_status status t else t)
                        (trading_signals d))
                 = map t_id (trading_signals d)).
  { rewrite map_map. apply map_ext. intros t.
    destruct (String.eqb (t_id t) signalId); reflexivity. }
  destruct H.
  constructor; unfold user_exists, signal_exists, purchase_exists in *;
    cbn [users user_profiles user_subscriptions trading_signals
         user_signal_access purchases admin_notifications
         with_trading_signals];
    try assumption.
  - rewrite Hids. assumption.
  - intros a Ha. specialize (user_signal_access_signal_id_fkey0 a Ha).
    apply existsb_exists in user_signal_access_signal_id_fkey0.
    destruct user_signal_access_signal_id_fkey0 as [t [Ht Hid]].
    apply existsb_exists.
    exists (if String.eqb (t_id t) signalId
            then set_signal_status status t else t).
    split; [apply in_map_iff; exists t; split; [reflexivity | exact Ht]|].
    destruct (String.eqb (t_id t) signalId); exact Hid.
Qed.

(** *** Computations that keep the constraints *)

Lemma preserves_ret {A} (a : A) : preserves (ret a).
Proof. intros w H. exact H. Qed.

Lemma preserves_throw {A} (m : string) : preserves (@throw A m).
Proof. intros w H. exact H. Qed.

Lemma preserves_or_throw {A} (r : Response A) : preserves (or_throw r).
Proof. destruct r; [apply preserves_ret | apply preserves_throw]. Qed.

Lemma preserves_bind {A B} (c : Js A) (k : A -> Js B) :
  preserves c -> (forall a, preserves (k a)) -> preserves (bind c k).
Proof.
  intros Hc Hk w H. unfold bind. specialize (Hc w H).
  destruct (c w) as [[a|m] w']; cbn [snd] in *; [|exact Hc].
  apply Hk. exact Hc.
Qed.

Lemma preserves_try_catch {A} (body : Js A) (handler : string -> Js A) :
  preserves body -> (forall m, preserves (handler m)) ->
  preserves (try_catch body handler).
Proof.
  intros Hb Hh w H. unfold try_catch. specialize (Hb w H).
  destruct (body w) as [[a|m] w']; cbn [snd] in *; [exact Hb|].
  apply Hh. exact Hb.
Qed.

Lemma preserves_request {A}
    (exec : string -> Database -> Response A * Database) :
  exec_preserves exec -> preserves (request exec).
Proof.
  intros He w H. rewrite request_run.
  destruct (fault_at (env w) (ticks w)); [exact H|].
  cbn [snd db]. apply He. exact H.
Qed.

Lemma preserves_request_at {A}
    (exec : string -> Z -> Database -> Response A * Database) :
  (forall uuid now d, consistent d -> consistent (snd (exec uuid now d))) ->
  preserves (request_at exec).
Proof.
  intros He w H. rewrite request_at_run.
  destruct (fault_at (env w) (ticks w)); [exact H|].
  cbn [snd db]. apply He. exact H.
Qed.

Lemma preserves_reading {A} (c : Js A) :
  (forall w, db (snd (c w)) = db w) -> preserves c.
Proof. intros Hc w H. rewrite Hc. exact H. Qed.

Lemma exec_preserves_select {A} (select : Database -> Response A) :
  exec_preserves (fun _ d => (select d, d)).
Proof. intros uuid d H. exact H. Qed.

Ltac keeps_constraints :=
  repeat first
    [ apply preserves_try_catch
    | apply preserves_bind
    | apply preserves_ret
    | apply preserves_throw
    | apply preserves_or_throw
    | apply preserves_request
    | apply preserves_request_at
    | apply (@preserves_reading _ new_Date); reflexivity
    | apply (@preserves_reading _ Math_random_id); reflexivity
    | apply (@preserves_reading _ host_zone); reflexivity
    | apply preserves_reading; reflexivity
    | apply exec_insert_user_consistent
    | apply exec_insert_user_profile_consistent
    | apply exec_insert_user_subscription_consistent
    | apply exec_activate_subscriptions_consistent
    | apply exec_insert_signal_access_consistent
    | apply exec_insert_purchase_consistent
    | apply exec_update_signal_status_consistent
    | apply exec_insert_trading_signal_consistent
    | apply (exec_preserves_select
               (fun d => maybeSingle
                           (filter _ (_ d))))
    | match goal with
      | |- forall _, _ => intro
      | |- preserves (match ?x with _ => _ end) => destruct x
      | |- preserves (if ?b then _ else _) => destruct b
      | |- exec_preserves ?e => intros ? ? ?; assumption
      end ].

Lemma LegacyAuth_signUp_preserves data : preserves (LegacyAuth.signUp data).
Proof. unfold LegacyAuth.signUp. keeps_constraints. Qed.

Lemma LegacyAuth_signIn_preserves data : preserves (LegacyAuth.signIn data).
Proof. unfold LegacyAuth.signIn. keeps_constraints. Qed.

Lemma ProviderAuth_signUp_preserves data :
  preserves (ProviderAuth.signUp data).
Proof.
  unfold ProviderAuth.signUp, ProviderAuth.ReferenceError. keeps_constraints.
Qed.

Lemma createPurchase_preserves data : preserves (createPurchase data).
Proof. unfold createPurchase. keeps_constraints. Qed.

Lemma activateSubscription_preserves userId planType :
  preserves (activateSubscription userId planType).
Proof. unfold activateSubscription. keeps_constraints. Qed.

Lemma getActiveSignals_preserves userId : preserves (getActiveSignals userId).
Proof.
  unfold getActiveSignals, fetch_active_signals. keeps_constraints.
Qed.

Lemma getSignalsByType_preserves signalType userId :
  preserves (getSignalsByType signalType userId).
Proof.
  unfold getSignalsByType, fetch_signals_by_type. keeps_constraints.
Qed.

Lemma trackSignalView_preserves userId signalId :
  preserves (trackSignalView userId signalId).
Proof. unfold trackSignalView. keeps_constraints. Qed.

Lemma checkUserSignalAccess_preserves userId :
  preserves (checkUserSignalAccess userId).
Proof. unfold checkUserSignalAccess. keeps_constraints. Qed.

Lemma createSignal_preserves data :
  preserves (TradingSignalServiceMore.createSignal data).
Proof. unfold TradingSignalServiceMore.createSignal. keeps_constraints. Qed.

Lemma updateSignalStatus_preserves signalId status :
  preserves (TradingSignalServiceMore.updateSignalStatus signalId status).
Proof.
  unfold TradingSignalServiceMore.updateSignalStatus. keeps_constraints.
Qed.

Lemma getUserSignalHistory_preserves userId :
  preserves (TradingSignalServiceMore.getUserSignalHistory userId).
Proof.
  unfold TradingSignalServiceMore.getUserSignalHistory. keeps_constraints.
Qed.

Lemma getUserProfile_preserves userId :
  preserves (LegacyAuthMore.getUserProfile userId).
Proof. unfold LegacyAuthMore.getUserProfile. keeps_constraints. Qed.

Lemma consistent_empty : consistent empty_database.
Proof.
  constructor; cbn; try constructor; intros; contradiction.
Qed.

Lemma consistent_views_once w userId signalId :
  consistent (db w) -> (count_views userId signalId w <= 1)%nat.
Proof.
  intros [_ _ _ _ _ _ _ Hkey _ _ _ _ _ _]. unfold count_views.
  induction (user_signal_access (db w)) as [|a rows IH]; [cbn; lia|].
  cbn [map] in Hkey. inversion Hkey as [|? ? Hnotin Hrest]; subst.
  cbn [filter]. destruct (same_view userId signalId a) eqn:Hv;
    [|apply IH; exact Hrest].
  assert (Hnone : filter (same_view userId signalId) rows = []).
  { apply existsb_false_filter.
    destruct (existsb (same_view userId signalId) rows) eqn:Hex;
      [|reflexivity].
    exfalso. apply Hnotin.
    apply existsb_exists in Hex. destruct Hex as [b [Hb Hvb]].
    unfold same_view in Hv, Hvb.
    apply andb_true_iff in Hv, Hvb.
    destruct Hv as [Hu Hs], Hvb as [Hub Hsb].
    apply String.eqb_eq in Hu, Hs, Hub, Hsb.
    apply in_map_iff. exists b. split; [congruence | exact Hb]. }
  rewrite Hnone. cbn. lia.
Qed.

Section Invariant.
Variable sendPaymentSuccessEmail :
  string -> string -> decimal -> string -> string -> string ->
  list string -> Js unit.

(** The email service keeps the constraints. *)
Hypothesis email_preserves :
  forall to_email to_name amount plan_name transaction user_id plan_features,
    preserves (sendPaymentSuccessEmail to_email to_name amount plan_name
                 transaction user_id plan_features).

Lemma processPurchaseAndNotify_preserves (data : NotifyData) :
  preserves (processPurchaseAndNotify sendPaymentSuccessEmail data).
Proof.
  unfold processPurchaseAndNotify.
  apply preserves_try_catch; [|intros m; apply preserves_ret].
  apply preserves_bind; [apply createPurchase_preserves|].
  intros [purchase|e]; [|apply preserves_ret].
  apply preserves_bind; [apply activateSubscription_preserves|].
  intros _. apply preserves_bind; [apply email_preserves|].
  intros _. apply preserves_ret.
Qed.

Lemma perform_step_consistent s w :
  consistent (db w) ->
  consistent (db (perform_step sendPaymentSuccessEmail s w)).
Proof.
  destruct s as [c| | | |]; cbn [perform_step];
    [destruct c; cbn [perform]|..].
  - apply LegacyAuth_signUp_preserves.
  - apply LegacyAuth_signIn_preserves.
  - apply ProviderAuth_signUp_preserves.
  - apply createPurchase_preserves.
  - apply activateSubscription_preserves.
  - apply processPurchaseAndNotify_preserves.
  - apply getActiveSignals_preserves.
  - apply getSignalsByType_preserves.
  - apply trackSignalView_preserves.
  - apply checkUserSignalAccess_preserves.
  - apply createSignal_preserves.
  - apply updateSignalStatus_preserves.
  - apply getUserSignalHistory_preserves.
  - apply getUserProfile_preserves.
Qed.

End Invariant.


(* ===================================================================== *)
(** ** App.handleLogout *)
(* ===================================================================== *)

Lemma removeItem_entries key b kv :
  In kv (App.localStorage (App.removeItem key b)) <->
  In kv (App.localStorage b) /\ fst kv <> key.
Proof.
  unfold App.removeItem. cbn [App.localStorage].
  rewrite filter_In, negb_true_iff, String.eqb_neq. reflexivity.
Qed.

Lemma purge_entries (ks : list string) b kv :
  In kv (App.localStorage
           (fold_left (fun b key => if App.session_key key
                                    then App.removeItem key b else b) ks b))
  <-> In kv (App.localStorage b)
      /\ ~ (In (fst kv) ks /\ App.session_key (fst kv) = true).
Proof.
  revert b. induction ks as [|k ks IH]; intros b; cbn [fold_left].
  - cbn. tauto.
  - rewrite IH. destruct (App.session_key k) eqn:Hk.
    + rewrite removeItem_entries. cbn [In]. split.
      * intros [[Hin Hne] Hrest]. split; [exact Hin|].
        intros [[E|Hks] Hs]; [congruence | tauto].
      * intros [Hin Hnot]. split; [split; [exact Hin|]|].
        -- intros E. apply Hnot. split; [left; congruence|].
           rewrite E. exact Hk.
        -- intros [Hks Hs]. apply Hnot. tauto.
    + cbn [In]. split.
      * intros [Hin Hrest]. split; [exact Hin|].
        intros [[E|Hks] Hs]; [congruence | tauto].
      * intros [Hin Hnot]. split; [exact Hin|]. tauto.
Qed.

(** X21. After handleLogout the browser is at /signin, and localStorage
    holds exactly the entries that userLogout, resetPlan and clearState left
    whose key neither starts with trading_state_, dashboard_data_ or
    user_backup_ nor is user_consent_accepted: no session data survive the
    logout, and nothing else is removed. *)
Theorem handleLogout_purges_session_data userLogout resetPlan clearState b :
  let before := clearState (resetPlan (userLogout b)) in
  let after := App.handleLogout userLogout resetPlan clearState b in
  App.location_href after = "/signin"
  /\ forall kv,
      In kv (App.localStorage after) <->
      In kv (App.localStorage before)
      /\ App.startsWith (fst kv) "trading_state_" = false
      /\ App.startsWith (fst kv) "dashboard_data_" = false
      /\ App.startsWith (fst kv) "user_backup_" = false
      /\ fst kv <> "user_consent_accepted".
Proof.
  cbv zeta. unfold App.handleLogout. cbn [App.location_href App.localStorage].
  split; [reflexivity|]. intros kv.
  rewrite removeItem_entries, purge_entries.
  unfold App.keys, App.session_key.
  destruct (App.startsWith (fst kv) "trading_state_");
    destruct (App.startsWith (fst kv) "dashboard_data_");
    destruct (App.startsWith (fst kv) "user_backup_");
    cbn [orb]; split;
    try (intros [[Hin Hnot] Hne]; exfalso; apply Hnot;
         split; [apply in_map; exact Hin | reflexivity]);
    try (intros [_ [H1 [H2 [H3 _]]]]; discriminate).
  - intros [[Hin _] Hne]. repeat split; assumption.
  - intros [Hin [_ [_ [_ Hne]]]]. repeat split; try assumption.
    intros [_ Ht]. discriminate Ht.
Qed.

(* ===================================================================== *)
(** ** The policy on signals and the service check *)
(* ===================================================================== *)

Lemma policy_on_single_row w userId sub now :
  active_subscriptions userId w = [sub] ->
  policy_subscribed_users_can_read_signals (db w) userId now
  = match s_expires_at sub with
    | Some e => now <? e
    | None => false
    end.
Proof.
  unfold policy_subscribed_users_can_read_signals, active_subscriptions,
         subscriptions_of.
  induction (user_subscriptions (db w)) as [|s rows IH]; [discriminate|].
  cbn [filter existsb].
  destruct (is_active_subscription_of userId s) eqn:Hs.
  - intros E. inversion E as [[Hsub Hrest]]. cbn [andb].
    assert (Hnone : existsb
                      (fun s => is_active_subscription_of userId s
                                && match s_expires_at s with
                                   | Some e => now <? e
                                   | None => false
                                   end) rows = false).
    { clear IH E. induction rows as [|r rows IH]; [reflexivity|].
      cbn [filter existsb] in *.
      destruct (is_active_subscription_of userId r); [discriminate|].
      cbn [andb orb]. apply IH. exact Hrest. }
    rewrite Hnone, orb_false_r. reflexivity.
  - cbn [andb orb]. exact IH.
Qed.



Example logout_of_used_browser :
  App.handleLogout (fun b => b) (fun b => b) (fun b => b) used_browser
  = App.mkBrowser [("theme", "dark")] "/signin".
Proof. reflexivity. Qed.

(* ===================================================================== *)
(** ** The expiry date of an activation *)
(* ===================================================================== *)

(** X22. In a host time zone with a fixed offset, the expires_at that
    activateSubscription computes falls at the same local time of day as
    the clock reading it starts from: [setMonth] moves the date by whole
    days only, whatever the number of months. *)
Theorem expiry_keeps_the_time_of_day offset t months :
  let zone := fun (_ : Z) (_ : bool) => offset in
  JsDate.TimeWithinDay
    (JsDate.LocalTime zone (JsDate.addMonths zone t months))
  = JsDate.TimeWithinDay (JsDate.LocalTime zone t)
  /\ exists days,
      JsDate.addMonths zone t months - t = days * JsDate.msPerDay.
Proof.
  cbv zeta.
  unfold JsDate.addMonths, JsDate.setMonth, JsDate.LocalTime, JsDate.UTC,
         JsDate.MakeDate, JsDate.TimeWithinDay, JsDate.msPerDay.
  set (day := JsDate.MakeDay _ _ _).
  split.
  - replace (day * 86400000 + (t + offset) mod 86400000 - offset + offset)
      with ((t + offset) mod 86400000 + day * 86400000) by lia.
    rewrite Z.mod_add by lia. apply Z.mod_mod. lia.
  - exists (day - (t + offset) / 86400000).
    pose proof (Z.div_mod (t + offset) 86400000 ltac:(lia)). lia.
Qed.

(* ===================================================================== *)
(** ** tradingSignalService.trackSignalView: what is not recorded *)
(* ===================================================================== *)

(** X23. trackSignalView records a view only of a stored signal by a
    stored user: when the pair is not in the table yet and the user id or
    the signal id refers to no row, a call whose insert reaches the
    database returns success:false with the foreign-key error and records
    nothing. *)
Theorem trackSignalView_needs_user_and_signal userId signalId w :
  fault_at (env w) (S (ticks w)) = None ->
  existsb (same_view userId signalId) (user_signal_access (db w)) = false ->
  user_exists (db w) userId = false \/ signal_exists (db w) signalId = false ->
  exists e w',
    trackSignalView userId signalId w = (Value (Failure e), w')
    /\ db w' = db w
    /\ (e = foreign_key_violation "user_signal_access"
              "user_signal_access_user_id_fkey"
        \/ e = foreign_key_violation "user_signal_access"
                 "user_signal_access_signal_id_fkey").
Proof.
  intros F Hnew Hmissing. unfold trackSignalView. js_unfold. rewrite F.
  unfold exec_insert_signal_access. cbn [a_user_id a_signal_id fst snd].
  rewrite Hnew.
  destruct (user_exists (db w) userId); cbn [negb fst snd].
  - destruct Hmissing as [H|H]; [discriminate|]. rewrite H. cbn [negb fst snd].
    do 2 eexists. split; [reflexivity|]. split; [reflexivity|]. right.
    reflexivity.
  - do 2 eexists. split; [reflexivity|]. split; [reflexivity|]. left.
    reflexivity.
Qed.

Lemma trackSignalView_needs_user_and_signal_witness :
  exists e w',
    trackSignalView "u-ann" "sig-404" base_world = (Value (Failure e), w')
    /\ db w' = db base_world
    /\ (e = foreign_key_violation "user_signal_access"
              "user_signal_access_user_id_fkey"
        \/ e = foreign_key_violation "user_signal_access"
                 "user_signal_access_signal_id_fkey").
Proof.
  apply (@trackSignalView_needs_user_and_signal "u-ann" "sig-404" base_world);
    [reflexivity | reflexivity | right; reflexivity].
Defined.
